(** * Carbon credit simulator: aggregation window, credit ledger and alert timers

    A shallow embedding of the firmware of the gas burner device
    ([burner/src/main.cpp]), of the parts of the sequester sketch that
    differ from it, and of the Wokwi burner simulation
    ([iot/burner/carbon-credit-burner.ino]).

    Conventions of the embedding.
    - C [int] values are [Z]; every [int] computation of the modelled code
      stays far inside the 32-bit range ([readingIndex + 1 <= 15],
      [readingsCount + 1 <= 15], [co2Reading - 1000] only under the guard
      [co2Reading > 1000]).
    - [unsigned long] time stamps are [Z] in [0, 2^32); the subtraction
      [currentTime - last] wraps modulo [2^32] as it does on the device.
    - [float] quantities (credits, emissions, averages) are exact rationals
      [Q], compared up to [==]; binary rounding is not part of this model.
    - The global variables of a sketch form one record; a function of the
      sketch is a function from that record to the new record and the list
      of events it produced (MQTT publishes, skipped dispatches, ledger
      messages on the serial log).
    - What the libraries answer (MQTT link, [snprintf] length, random
      numbers, [millis()]) is an explicit argument. *)

From Stdlib Require Import ZArith QArith Qminmax Qround Lia ZifyNat Lqa Bool String.
From stdpp Require Import base list.

Local Open Scope Z_scope.

(** ** Machine arithmetic and rational comparisons *)

Definition ULONG_MOD : Z := 2 ^ 32.

(** [a - b] on [unsigned long]. *)
Definition usub (a b : Z) : Z := (a - b) mod ULONG_MOD.

(** [x < y] on the rationals, as a boolean. *)
Definition Qltb (x y : Q) : bool := negb (Qle_bool y x).

Module Burner.

(** *** Global state of [main.cpp] *)

(** "Sensor data variables". *)
Record Sensor := {
  co2Reading : Z;
  humidityReading : Z;
  carbonCredits : Q;
  emissions : Q;
  offset : bool
}.

(** "Random data generation" and "MQTT transmission timing". *)
Record Timing := {
  lastDataUpdate : Z;
  lastMqttPublish : Z;
  lastHeartbeat : Z;
  lastCriticalAlert : Z
}.

(** "Data aggregation arrays". *)
Record Aggregation := {
  co2Readings : list Z;
  humidityReadings : list Z;
  readingIndex : Z;
  readingsCount : Z
}.

(** "MQTT connection status". *)
Record Connection := {
  mqttConnected : bool;
  lastMqttAttempt : Z
}.

(** "Credit management". *)
Record Ledger := {
  availableCredits : Q;
  creditsBurned : Q;
  autoPurchaseEnabled : bool
}.

Record Device := {
  sensor : Sensor;
  timing : Timing;
  window : Aggregation;
  conn : Connection;
  ledger : Ledger
}.

Definition dataUpdateInterval : Z := 2000.
Definition mqttPublishInterval : Z := 15000.
Definition heartbeatInterval : Z := 300000.
Definition criticalAlertCooldown : Z := 30000.
Definition mqttRetryInterval : Z := 5000.
Definition WINDOW : Z := 15.
Definition CRITICAL_CO2_THRESHOLD : Z := 2500.
Definition CRITICAL_CREDITS_THRESHOLD : Q := 5.
Definition CREDIT_PURCHASE_THRESHOLD : Q := 10.
Definition CREDIT_PURCHASE_AMOUNT : Q := 100.

(** The state right after the global initialisers have run.  The arrays are
    zero-initialised globals. *)
Definition init : Device := {|
  sensor := {| co2Reading := 0; humidityReading := 0; carbonCredits := 0;
               emissions := 0; offset := false |};
  timing := {| lastDataUpdate := 0; lastMqttPublish := 0; lastHeartbeat := 0;
               lastCriticalAlert := 0 |};
  window := {| co2Readings := replicate 15 0; humidityReadings := replicate 15 0;
               readingIndex := 0; readingsCount := 0 |};
  conn := {| mqttConnected := false; lastMqttAttempt := 0 |};
  ledger := {| availableCredits := 50; creditsBurned := 0;
               autoPurchaseEnabled := true |}
|}.

(** Field updates. *)
Definition set_sensor (s : Sensor) (d : Device) : Device :=
  {| sensor := s; timing := timing d; window := window d; conn := conn d;
     ledger := ledger d |}.
Definition set_timing (t : Timing) (d : Device) : Device :=
  {| sensor := sensor d; timing := t; window := window d; conn := conn d;
     ledger := ledger d |}.
Definition set_window (w : Aggregation) (d : Device) : Device :=
  {| sensor := sensor d; timing := timing d; window := w; conn := conn d;
     ledger := ledger d |}.
Definition set_conn (c : Connection) (d : Device) : Device :=
  {| sensor := sensor d; timing := timing d; window := window d; conn := c;
     ledger := ledger d |}.
Definition set_ledger (l : Ledger) (d : Device) : Device :=
  {| sensor := sensor d; timing := timing d; window := window d; conn := conn d;
     ledger := l |}.

Definition set_lastDataUpdate (t : Z) (g : Timing) : Timing :=
  {| lastDataUpdate := t; lastMqttPublish := lastMqttPublish g;
     lastHeartbeat := lastHeartbeat g; lastCriticalAlert := lastCriticalAlert g |}.
Definition set_lastMqttPublish (t : Z) (g : Timing) : Timing :=
  {| lastDataUpdate := lastDataUpdate g; lastMqttPublish := t;
     lastHeartbeat := lastHeartbeat g; lastCriticalAlert := lastCriticalAlert g |}.
Definition set_lastHeartbeat (t : Z) (g : Timing) : Timing :=
  {| lastDataUpdate := lastDataUpdate g; lastMqttPublish := lastMqttPublish g;
     lastHeartbeat := t; lastCriticalAlert := lastCriticalAlert g |}.
Definition set_lastCriticalAlert (t : Z) (g : Timing) : Timing :=
  {| lastDataUpdate := lastDataUpdate g; lastMqttPublish := lastMqttPublish g;
     lastHeartbeat := lastHeartbeat g; lastCriticalAlert := t |}.

Definition set_readingsCount (n : Z) (w : Aggregation) : Aggregation :=
  {| co2Readings := co2Readings w; humidityReadings := humidityReadings w;
     readingIndex := readingIndex w; readingsCount := n |}.

(** *** What the device talks to *)

Inductive AlertKind := HIGH_CO2 | LOW_CREDITS.

Inductive Topic :=
| SensorDataTopic        (* <prefix>/<key>/sensor_data *)
| AlertsTopic            (* <prefix>/<key>/alerts *)
| AlertsSimpleTopic      (* <prefix>/alerts *)
| HeartbeatTopic         (* <prefix>/<key>/heartbeat *)
| HeartbeatSimpleTopic.  (* <prefix>/heartbeat *)

(** The statistics of the aggregated payload. *)
Record AggregateReport := {
  avgCO2 : Q; maxCO2 : Z; minCO2 : Z;
  avgHumidity : Q; maxHumidity : Z; minHumidity : Z;
  samples : Z
}.

(** Payload fields that come from the sketch's own state ([ip], [mac] and
    [rssi] come from the WiFi library and are left out). *)
Inductive Payload :=
| SensorPayload (r : AggregateReport) (cr e : Q) (o : bool) (t : Z) (credits_avail : Q)
| AlertPayload (k : AlertKind) (co2 : Z) (credits : Q) (t : Z)
| HeartbeatPayload (uptime : Z).

Inductive SkipReason := NotConnected | NoReadings | PayloadTooLarge.

Inductive Event :=
| EvPublish (tp : Topic) (p : Payload) (ok : bool)  (* mqttClient.publish and its result *)
| EvSkipAggregate (r : SkipReason)                  (* aggregated publish skipped *)
| EvSkipAlert (k : AlertKind)                       (* "skipping critical alert" *)
| EvSkipHeartbeat                                   (* "skipping heartbeat" *)
| EvPurchased (amount : Q)                          (* "AUTO-PURCHASING CREDITS!" *)
| EvBurned (amount : Q).                            (* "BURNING CREDITS: ..." *)

(** The MQTT client and [snprintf] as seen during one call. *)
Record Mqtt := {
  connected : bool;          (* mqttClient.connected() *)
  connect_ok : bool;         (* mqttClient.connect(...) *)
  publish : Topic -> bool;   (* mqttClient.publish(topic, ...) *)
  aggregateLen : Z           (* snprintf result for the aggregated payload *)
}.

(** One iteration of [loop()]: the clock, the two random draws, the link. *)
Record Tick := {
  now : Z;
  rnd_co2 : Z;
  rnd_hum : Z;
  link : Mqtt
}.

(** *** The aggregation window *)

(** Lines 301-305 of [generateHighGasEmissionData]: store at [readingIndex],
    advance modulo 15, count up to 15.  [readingIndex] starts at 0 and is
    only ever assigned here, so it stays in [0, 15): the store is in range
    and [%] agrees with [mod]. *)
Definition storeReading (co2 hum : Z) (w : Aggregation) : Aggregation :=
  {| co2Readings := <[Z.to_nat (readingIndex w) := co2]> (co2Readings w);
     humidityReadings := <[Z.to_nat (readingIndex w) := hum]> (humidityReadings w);
     readingIndex := (readingIndex w + 1) mod 15;
     readingsCount := if readingsCount w <? 15 then readingsCount w + 1
                      else readingsCount w |}.

(** The cells the statistics loop visits: [a[0] .. a[readingsCount - 1]]
    ([readingsCount] never exceeds the 15 cells of the arrays). *)
Definition cellsRead (n : Z) (a : list Z) : list Z := take (Z.to_nat n) a.

Definition sumCells (xs : list Z) : Q :=
  fold_left (fun acc x => (acc + inject_Z x)%Q) xs 0%Q.
Definition maxCells (xs : list Z) : Z := fold_left Z.max xs 0.
Definition minCells (xs : list Z) : Z := fold_left Z.min xs 9999.

(** Lines 142-157 of [publishAggregatedDataToMqtt]. *)
Definition summarize (w : Aggregation) : AggregateReport :=
  let cs := cellsRead (readingsCount w) (co2Readings w) in
  let hs := cellsRead (readingsCount w) (humidityReadings w) in
  {| avgCO2 := (sumCells cs / inject_Z (readingsCount w))%Q;
     maxCO2 := maxCells cs; minCO2 := minCells cs;
     avgHumidity := (sumCells hs / inject_Z (readingsCount w))%Q;
     maxHumidity := maxCells hs; minHumidity := minCells hs;
     samples := readingsCount w |}.

(** [payloadLen >= sizeof(payload) - 1], an [int] compared as [size_t]. *)
Definition truncated (len : Z) : bool := (len <? 0) || (599 <=? len).

(** The fields [snprintf] writes into the aggregated payload. *)
Definition aggregatePayload (t : Z) (d : Device) : Payload :=
  SensorPayload (summarize (window d)) (carbonCredits (sensor d))
    (emissions (sensor d)) (offset (sensor d)) t
    (availableCredits (ledger d)).

Definition publishAggregatedDataToMqtt (m : Mqtt) (t : Z) (d : Device)
  : Device * list Event :=
  if negb (connected m) || negb (mqttConnected (conn d)) then
    (d, [EvSkipAggregate NotConnected])
  else if readingsCount (window d) =? 0 then
    (d, [EvSkipAggregate NoReadings])
  else
    let payload := aggregatePayload t d in
    if truncated (aggregateLen m) then
      (d, [EvSkipAggregate PayloadTooLarge])
    else
      let result := publish m SensorDataTopic in
      if result then
        (set_window (set_readingsCount 0 (window d)) d,
         [EvPublish SensorDataTopic payload true])
      else
        (d, [EvPublish SensorDataTopic payload false]).

(** [sendCriticalAlert]: the payload is cut to the buffer, never dropped; a
    failed publish is retried once on the simple topic.  No global is
    written. *)
Definition sendCriticalAlert (m : Mqtt) (t : Z) (k : AlertKind) (d : Device)
  : list Event :=
  if negb (connected m) then [EvSkipAlert k]
  else
    let payload :=
      AlertPayload k (co2Reading (sensor d)) (availableCredits (ledger d)) t in
    let result := publish m AlertsTopic in
    if negb result then
      [EvPublish AlertsTopic payload false;
       EvPublish AlertsSimpleTopic payload (publish m AlertsSimpleTopic)]
    else [EvPublish AlertsTopic payload true].

(** [sendHeartbeat]. *)
Definition sendHeartbeat (m : Mqtt) (t : Z) : list Event :=
  if negb (connected m) then [EvSkipHeartbeat]
  else
    let payload := HeartbeatPayload t in
    let result := publish m HeartbeatTopic in
    if negb result then
      [EvPublish HeartbeatTopic payload false;
       EvPublish HeartbeatSimpleTopic payload (publish m HeartbeatSimpleTopic)]
    else [EvPublish HeartbeatTopic payload true].

(** *** Sampling *)

(** [generateHighGasEmissionData]; [co2] and [hum] are the two results of
    [random]. *)
Definition generateHighGasEmissionData (currentTime co2 hum : Z) (d : Device)
  : Device :=
  if dataUpdateInterval <=? usub currentTime (lastDataUpdate (timing d)) then
    let cr := (inject_Z co2 * (8 # 10))%Q in
    let em := (inject_Z hum * (3 # 10))%Q in
    set_sensor
      {| co2Reading := co2; humidityReading := hum; carbonCredits := cr;
         emissions := em;
         offset := Qle_bool cr (availableCredits (ledger d)) |}
      (set_window (storeReading co2 hum (window d))
         (set_timing (set_lastDataUpdate currentTime (timing d)) d))
  else d.

(** *** The credit ledger *)

(** [autoPurchaseCredits]. *)
Definition autoPurchaseCredits (d : Device) : Device * list Event :=
  let l := ledger d in
  if autoPurchaseEnabled l && Qltb (availableCredits l) CREDIT_PURCHASE_THRESHOLD then
    (set_ledger
       {| availableCredits := (availableCredits l + CREDIT_PURCHASE_AMOUNT)%Q;
          creditsBurned := creditsBurned l;
          autoPurchaseEnabled := autoPurchaseEnabled l |} d,
     [EvPurchased CREDIT_PURCHASE_AMOUNT])
  else (d, []).

(** The amount [burnCreditsForOffset] asks for: [(co2Reading - 1000) * 0.001]. *)
Definition creditsRequested (d : Device) : Q :=
  (inject_Z (co2Reading (sensor d) - 1000) * (1 # 1000))%Q.

(** [burnCreditsForOffset]. *)
Definition burnCreditsForOffset (d : Device) : Device * list Event :=
  let l := ledger d in
  if (1000 <? co2Reading (sensor d)) && Qltb 0 (availableCredits l) then
    let creditsToBurn := creditsRequested d in
    let creditsToBurn :=
      if Qltb (availableCredits l) creditsToBurn then availableCredits l
      else creditsToBurn in
    if Qltb (1 # 100) creditsToBurn then
      (set_ledger
         {| availableCredits := (availableCredits l - creditsToBurn)%Q;
            creditsBurned := (creditsBurned l + creditsToBurn)%Q;
            autoPurchaseEnabled := autoPurchaseEnabled l |} d,
       [EvBurned creditsToBurn])
    else (d, [])
  else (d, []).

(** *** [loop()] *)

(** [connectToMqtt]. *)
Definition connectToMqtt (m : Mqtt) (d : Device) : Device * bool :=
  if connected m then (d, true)
  else if connect_ok m then
    (set_conn {| mqttConnected := true;
                 lastMqttAttempt := lastMqttAttempt (conn d) |} d, true)
  else
    (set_conn {| mqttConnected := false;
                 lastMqttAttempt := lastMqttAttempt (conn d) |} d, false).

(** The client after a connection attempt with result [ok]. *)
Definition afterConnect (m : Mqtt) (ok : bool) : Mqtt :=
  {| connected := ok; connect_ok := connect_ok m; publish := publish m;
     aggregateLen := aggregateLen m |}.

(** "Handle MQTT connection", lines 458-474. *)
Definition handleConnection (tk : Tick) (d : Device) : Device * Mqtt :=
  let m := link tk in
  if negb (connected m) then
    let d := set_conn {| mqttConnected := false;
                         lastMqttAttempt := lastMqttAttempt (conn d) |} d in
    let currentTime := now tk in
    if mqttRetryInterval <=? usub currentTime (lastMqttAttempt (conn d)) then
      let d := set_conn {| mqttConnected := mqttConnected (conn d);
                           lastMqttAttempt := currentTime |} d in
      let r := connectToMqtt m d in
      (fst r, afterConnect m (snd r))
    else (d, m)
  else if negb (mqttConnected (conn d)) then
    (set_conn {| mqttConnected := true;
                 lastMqttAttempt := lastMqttAttempt (conn d) |} d, m)
  else (d, m).

(** "1. Send aggregated data every 15 seconds", lines 491-495. *)
Definition aggregateStep (m : Mqtt) (currentTime : Z) (d : Device)
  : Device * list Event :=
  if mqttPublishInterval <=? usub currentTime (lastMqttPublish (timing d)) then
    let r := publishAggregatedDataToMqtt m currentTime d in
    (set_timing (set_lastMqttPublish currentTime (timing (fst r))) (fst r), snd r)
  else (d, []).

(** The branch order of lines 499-505: CO2 first, then credits. *)
Definition evaluateAlert (d : Device) : option AlertKind :=
  if CRITICAL_CO2_THRESHOLD <? co2Reading (sensor d) then Some HIGH_CO2
  else if Qltb (availableCredits (ledger d)) CRITICAL_CREDITS_THRESHOLD
  then Some LOW_CREDITS
  else None.

(** "2. Send critical alerts immediately (with cooldown)", lines 497-506. *)
Definition alertStep (m : Mqtt) (currentTime : Z) (d : Device)
  : Device * list Event :=
  if criticalAlertCooldown <=? usub currentTime (lastCriticalAlert (timing d)) then
    if CRITICAL_CO2_THRESHOLD <? co2Reading (sensor d) then
      (set_timing (set_lastCriticalAlert currentTime (timing d)) d,
       sendCriticalAlert m currentTime HIGH_CO2 d)
    else if Qltb (availableCredits (ledger d)) CRITICAL_CREDITS_THRESHOLD then
      (set_timing (set_lastCriticalAlert currentTime (timing d)) d,
       sendCriticalAlert m currentTime LOW_CREDITS d)
    else (d, [])
  else (d, []).

(** "3. Send heartbeat every 5 minutes", lines 508-512. *)
Definition heartbeatStep (m : Mqtt) (currentTime : Z) (d : Device)
  : Device * list Event :=
  if heartbeatInterval <=? usub currentTime (lastHeartbeat (timing d)) then
    (set_timing (set_lastHeartbeat currentTime (timing d)) d,
     sendHeartbeat m currentTime)
  else (d, []).

(** Sequencing of two steps, events in order. *)
Definition andThen (r : Device * list Event)
  (f : Device -> Device * list Event) : Device * list Event :=
  let r' := f (fst r) in (fst r', snd r ++ snd r').

(** One iteration of [loop()]; the display update writes no global. *)
Definition loop (tk : Tick) (d : Device) : Device * list Event :=
  let c := handleConnection tk d in
  let m := snd c in
  let currentTime := now tk in
  let d := generateHighGasEmissionData currentTime (rnd_co2 tk) (rnd_hum tk) (fst c) in
  andThen (andThen (andThen (andThen (autoPurchaseCredits d)
    burnCreditsForOffset)
    (aggregateStep m currentTime))
    (alertStep m currentTime))
    (heartbeatStep m currentTime).

(** The device over a sequence of iterations; each iteration is listed with
    its clock value and its events. *)
Fixpoint run (tks : list Tick) (d : Device) : Device * list (Z * list Event) :=
  match tks with
  | [] => (d, [])
  | tk :: tks =>
      let r := loop tk d in
      let r' := run tks (fst r) in
      (fst r', (now tk, snd r) :: snd r')
  end.

(** *** Observations used by the statements *)

(** The alert kind [es] shows a call of [sendCriticalAlert] for. *)
Definition alertOf (e : Event) : option AlertKind :=
  match e with
  | EvSkipAlert k => Some k
  | EvPublish _ (AlertPayload k _ _ _) _ => Some k
  | _ => None
  end.

Definition fired (es : list Event) : option AlertKind :=
  match omap alertOf es with
  | k :: _ => Some k
  | [] => None
  end.

(** The clock values at which an alert was fired, with its kind. *)
Definition fires (log : list (Z * list Event)) : list (Z * AlertKind) :=
  omap (fun te => match fired (snd te) with
                  | Some k => Some (fst te, k)
                  | None => None
                  end) log.

(** Operations on the window alone, for statements over sequences of
    pushes and successful publishes. *)
Inductive WindowOp := Push (co2 hum : Z) | Published.

Definition windowOp (w : Aggregation) (o : WindowOp) : Aggregation :=
  match o with
  | Push co2 hum => storeReading co2 hum w
  | Published => set_readingsCount 0 w
  end.

Definition windowOps (os : list WindowOp) (w : Aggregation) : Aggregation :=
  fold_left windowOp os w.

(** Pushes since the last publish, newest last. *)
Fixpoint pushedSince (os : list WindowOp) (acc : list (Z * Z)) : list (Z * Z) :=
  match os with
  | [] => acc
  | Push co2 hum :: os => pushedSince os (acc ++ [(co2, hum)])
  | Published :: os => pushedSince os []
  end.

End Burner.

Module Sequester.

(** *** The sequester sketch (second sketch of [unnamed/part_001])

    It shares the sensor, timing, window and connection globals and the
    statistics loop with the burner; it has no credit ledger, its
    thresholds differ, and its alert is dropped, not cut, when the payload
    does not fit and is not retried on the simple topic. *)
Record Device := {
  sensor : Burner.Sensor;
  timing : Burner.Timing;
  window : Burner.Aggregation;
  conn : Burner.Connection
}.

Definition CRITICAL_CO2_THRESHOLD : Z := 1800.
Definition CRITICAL_CREDITS_THRESHOLD : Q := 2.

Inductive Payload :=
| SensorPayload (r : Burner.AggregateReport) (cr e : Q) (o : bool) (t : Z)
| AlertPayload (k : Burner.AlertKind) (co2 : Z) (credits : Q) (t : Z).

Inductive Event :=
| EvPublish (tp : Burner.Topic) (p : Payload) (ok : bool)
| EvSkipAggregate (r : Burner.SkipReason)
| EvSkipAlert (k : Burner.AlertKind) (r : Burner.SkipReason).

Definition set_window (w : Burner.Aggregation) (d : Device) : Device :=
  {| sensor := sensor d; timing := timing d; window := w; conn := conn d |}.
Definition set_timing (t : Burner.Timing) (d : Device) : Device :=
  {| sensor := sensor d; timing := t; window := window d; conn := conn d |}.

(** [publishAggregatedDataToMqtt], lines 400-464. *)
Definition publishAggregatedDataToMqtt (m : Burner.Mqtt) (t : Z) (d : Device)
  : Device * list Event :=
  if negb (Burner.connected m) || negb (Burner.mqttConnected (conn d)) then
    (d, [EvSkipAggregate Burner.NotConnected])
  else if Burner.readingsCount (window d) =? 0 then
    (d, [EvSkipAggregate Burner.NoReadings])
  else
    let payload :=
      SensorPayload (Burner.summarize (window d))
        (Burner.carbonCredits (sensor d)) (Burner.emissions (sensor d))
        (Burner.offset (sensor d)) t in
    if Burner.truncated (Burner.aggregateLen m) then
      (d, [EvSkipAggregate Burner.PayloadTooLarge])
    else
      let result := Burner.publish m Burner.SensorDataTopic in
      if result then
        (set_window (Burner.set_readingsCount 0 (window d)) d,
         [EvPublish Burner.SensorDataTopic payload true])
      else
        (d, [EvPublish Burner.SensorDataTopic payload false]).

(** [sendCriticalAlert]; [len] is the [snprintf] result for the alert
    payload, checked against the 500-byte buffer. *)
Definition sendCriticalAlert (m : Burner.Mqtt) (len t : Z)
  (k : Burner.AlertKind) (d : Device) : list Event :=
  if negb (Burner.connected m) then [EvSkipAlert k Burner.NotConnected]
  else if (len <? 0) || (499 <=? len) then [EvSkipAlert k Burner.PayloadTooLarge]
  else
    [EvPublish Burner.AlertsTopic
       (AlertPayload k (Burner.co2Reading (sensor d))
          (Burner.carbonCredits (sensor d)) t)
       (Burner.publish m Burner.AlertsTopic)].

(** The branch order of lines 714-720. *)
Definition evaluateAlert (d : Device) : option Burner.AlertKind :=
  if CRITICAL_CO2_THRESHOLD <? Burner.co2Reading (sensor d)
  then Some Burner.HIGH_CO2
  else if Qltb (Burner.carbonCredits (sensor d)) CRITICAL_CREDITS_THRESHOLD
  then Some Burner.LOW_CREDITS
  else None.

(** "2. Send critical alerts immediately (with cooldown)", lines 712-721. *)
Definition alertStep (m : Burner.Mqtt) (len currentTime : Z) (d : Device)
  : Device * list Event :=
  if Burner.criticalAlertCooldown
     <=? usub currentTime (Burner.lastCriticalAlert (timing d)) then
    if CRITICAL_CO2_THRESHOLD <? Burner.co2Reading (sensor d) then
      (set_timing (Burner.set_lastCriticalAlert currentTime (timing d)) d,
       sendCriticalAlert m len currentTime Burner.HIGH_CO2 d)
    else if Qltb (Burner.carbonCredits (sensor d)) CRITICAL_CREDITS_THRESHOLD then
      (set_timing (Burner.set_lastCriticalAlert currentTime (timing d)) d,
       sendCriticalAlert m len currentTime Burner.LOW_CREDITS d)
    else (d, [])
  else (d, []).

(** [generateCarbonSequestrationData], lines 547-574; [co2] and [hum] are
    the two results of [random]. *)
Definition generateCarbonSequestrationData (currentTime co2 hum : Z)
  (d : Device) : Device :=
  if Burner.dataUpdateInterval
     <=? usub currentTime (Burner.lastDataUpdate (timing d)) then
    let cr := (inject_Z co2 * (5 # 10))%Q in
    let em := (inject_Z hum * (2 # 10))%Q in
    {| sensor := {| Burner.co2Reading := co2; Burner.humidityReading := hum;
                    Burner.carbonCredits := cr; Burner.emissions := em;
                    Burner.offset := Qle_bool em cr |};
       timing := Burner.set_lastDataUpdate currentTime (timing d);
       window := Burner.storeReading co2 hum (window d);
       conn := conn d |}
  else d.

End Sequester.

Module Wokwi.

(** *** Global state of [carbon-credit-burner.ino]

    The two strings are left out of the record: [deviceId] is only printed
    and sent, and [activityType] is an argument of the one function that
    reads it. *)
Record Sim := {
  lastTransmission : Z;
  lastCreditBurn : Z;
  co2Emission : Q;
  energyConsumed : Q;
  temperature : Q;
  humidity : Q;
  totalCreditsBurned : Q;
  currentSessionCreditsBurned : Q;
  availableCredits : Q;
  isActive : bool;
  autoBurnEnabled : bool
}.

Definition CREDIT_BURN_RATE : Q := 1 # 1000.

Inductive SimEvent :=
| CreditsBurned (amount : Q)       (* "=== CARBON CREDITS BURNED ===" *)
| BurnPosted (amount : Q)          (* HTTP POST of sendCreditBurnDataToBackend *)
| CreditsAdded (amount total : Q). (* "Added ... credits. Total: ..." *)

(** Ledger writes of [burnCarbonCredits]. *)
Definition burn_by (x : Q) (s : Sim) : Sim :=
  {| lastTransmission := lastTransmission s;
     lastCreditBurn := lastCreditBurn s;
     co2Emission := co2Emission s;
     energyConsumed := energyConsumed s;
     temperature := temperature s;
     humidity := humidity s;
     totalCreditsBurned := (totalCreditsBurned s + x)%Q;
     currentSessionCreditsBurned := (currentSessionCreditsBurned s + x)%Q;
     availableCredits := (availableCredits s - x)%Q;
     isActive := isActive s;
     autoBurnEnabled := autoBurnEnabled s |}.

(** [sendCreditBurnDataToBackend]; [wifi] is [WiFi.status() == WL_CONNECTED]. *)
Definition sendCreditBurnDataToBackend (wifi : bool) (creditsBurned : Q)
  : list SimEvent :=
  if wifi then [BurnPosted creditsBurned] else [].

(** The amount [burnCarbonCredits] asks for. *)
Definition creditsRequested (s : Sim) : Q := (co2Emission s * CREDIT_BURN_RATE)%Q.

(** [burnCarbonCredits]. *)
Definition burnCarbonCredits (wifi : bool) (s : Sim) : Sim * list SimEvent :=
  if isActive s && Qltb 0 (co2Emission s) && Qltb 0 (availableCredits s) then
    let creditsToBurn := creditsRequested s in
    let creditsToBurn :=
      if Qltb (availableCredits s) creditsToBurn then availableCredits s
      else creditsToBurn in
    if Qltb (1 # 100) creditsToBurn then
      (burn_by creditsToBurn s,
       CreditsBurned creditsToBurn :: sendCreditBurnDataToBackend wifi creditsToBurn)
    else (s, [])
  else (s, []).

(** [addCredits]. *)
Definition addCredits (credits : Q) (s : Sim) : Sim * list SimEvent :=
  let s' :=
    {| lastTransmission := lastTransmission s;
       lastCreditBurn := lastCreditBurn s;
       co2Emission := co2Emission s;
       energyConsumed := energyConsumed s;
       temperature := temperature s;
       humidity := humidity s;
       totalCreditsBurned := totalCreditsBurned s;
       currentSessionCreditsBurned := currentSessionCreditsBurned s;
       availableCredits := (availableCredits s + credits)%Q;
       isActive := isActive s;
       autoBurnEnabled := autoBurnEnabled s |} in
  (s', [CreditsAdded credits (availableCredits s')]).


(** The state after the global initialisers. *)
Definition init : Sim := {|
  lastTransmission := 0; lastCreditBurn := 0;
  co2Emission := 0; energyConsumed := 0; temperature := 22; humidity := 45;
  totalCreditsBurned := 0; currentSessionCreditsBurned := 0;
  availableCredits := 100; isActive := false; autoBurnEnabled := true
|}.

End Wokwi.

Module WokwiSensors.

(** *** The sensor side of [carbon-credit-burner.ino]

    The functions of the sketch around the ledger; they work on the same
    globals ([Wokwi.Sim]).  [activityType] is the global string of the
    sketch. *)

Definition ENERGY_EMISSION_FACTOR : Q := 8 # 10.
Definition TRANSMISSION_INTERVAL : Z := 30000.
Definition CREDIT_BURN_INTERVAL : Z := 45000.

Inductive LoopEvent :=
| Ledger (e : Wokwi.SimEvent)
| HighEmissionAlert          (* "HIGH EMISSION ALERT" *)
| CriticalEmissionAlert      (* "CRITICAL EMISSION ALERT" *)
| LowCreditAlert             (* "LOW CREDIT ALERT" *)
| DataPosted (code : Z)      (* http.POST of sendDataToBackend *)
| DataNotSent.               (* "WiFi not connected. Cannot send data." *)

Definition set_readings (co2 energy temp hum : Q) (active : bool)
  (s : Wokwi.Sim) : Wokwi.Sim :=
  {| Wokwi.lastTransmission := Wokwi.lastTransmission s;
     Wokwi.lastCreditBurn := Wokwi.lastCreditBurn s;
     Wokwi.co2Emission := co2;
     Wokwi.energyConsumed := energy;
     Wokwi.temperature := temp;
     Wokwi.humidity := hum;
     Wokwi.totalCreditsBurned := Wokwi.totalCreditsBurned s;
     Wokwi.currentSessionCreditsBurned := Wokwi.currentSessionCreditsBurned s;
     Wokwi.availableCredits := Wokwi.availableCredits s;
     Wokwi.isActive := active;
     Wokwi.autoBurnEnabled := Wokwi.autoBurnEnabled s |}.

Definition set_timers (tx burn : Z) (s : Wokwi.Sim) : Wokwi.Sim :=
  {| Wokwi.lastTransmission := tx;
     Wokwi.lastCreditBurn := burn;
     Wokwi.co2Emission := Wokwi.co2Emission s;
     Wokwi.energyConsumed := Wokwi.energyConsumed s;
     Wokwi.temperature := Wokwi.temperature s;
     Wokwi.humidity := Wokwi.humidity s;
     Wokwi.totalCreditsBurned := Wokwi.totalCreditsBurned s;
     Wokwi.currentSessionCreditsBurned := Wokwi.currentSessionCreditsBurned s;
     Wokwi.availableCredits := Wokwi.availableCredits s;
     Wokwi.isActive := Wokwi.isActive s;
     Wokwi.autoBurnEnabled := Wokwi.autoBurnEnabled s |}.

(** [initializeSensors]: [r] is the result of [random(1, 5)]. *)
Definition initializeSensors (r : Z) : string :=
  if r =? 1 then "Manufacturing Process"
  else if r =? 2 then "Transportation"
  else if r =? 3 then "Energy Consumption"
  else if r =? 4 then "Data Center Operations"
  else "Industrial Process".

(** [readSensorData]: [co2Mapped] and [energyMapped] are the two results of
    [map], [r1 .. r4] the four results of [random]. *)
Definition readSensorData (co2Mapped energyMapped r1 r2 r3 r4 : Z)
  (s : Wokwi.Sim) : Wokwi.Sim :=
  let co2 := inject_Z (co2Mapped + r1) in
  let energy := inject_Z (energyMapped + r2) in
  set_readings co2 energy (inject_Z (20 + r3)) (inject_Z (30 + r4))
    (Qltb 10 co2 && Qltb 20 energy) s.

(** [round]: to the nearest integer, halves away from zero. *)
Definition round (x : Q) : Z :=
  if Qle_bool 0 x then Qfloor (x + (1 # 2)) else Qceiling (x - (1 # 2)).

(** [round(x * 100) / 100.0]. *)
Definition round2 (x : Q) : Q := (inject_Z (round (x * 100)) / 100)%Q.

(** The two [if]s of [processSensorData] on one variable: below 0, then
    above [hi]. *)
Definition clampTo (hi x : Q) : Q :=
  let x := if Qltb x 0 then 0%Q else x in
  if Qltb hi x then hi else x.

(** [processSensorData]. *)
Definition processSensorData (s : Wokwi.Sim) : Wokwi.Sim :=
  set_readings
    (round2 (clampTo 100 (Wokwi.co2Emission s)))
    (round2 (clampTo 150 (Wokwi.energyConsumed s)))
    (round2 (Wokwi.temperature s))
    (round2 (Wokwi.humidity s))
    (Wokwi.isActive s) s.

(** The [emissionRate] chosen by [calculateCO2Emission]. *)
Definition emissionRate (activityType : string) : Q :=
  if String.eqb activityType "Manufacturing Process" then 12 # 10
  else if String.eqb activityType "Transportation" then 9 # 10
  else if String.eqb activityType "Energy Consumption" then 6 # 10
  else if String.eqb activityType "Data Center Operations" then 4 # 10
  else ENERGY_EMISSION_FACTOR.

(** [calculateCO2Emission]. *)
Definition calculateCO2Emission (activityType : string) (s : Wokwi.Sim)
  : Wokwi.Sim :=
  set_readings (Wokwi.energyConsumed s * emissionRate activityType)%Q
    (Wokwi.energyConsumed s) (Wokwi.temperature s) (Wokwi.humidity s)
    (Wokwi.isActive s) s.

(** [checkEmissionAlerts]: LEDs and buzzer apart, three messages. *)
Definition checkEmissionAlerts (s : Wokwi.Sim) : list LoopEvent :=
  (if Qltb 50 (Wokwi.co2Emission s) then [HighEmissionAlert] else [])
  ++ (if Qltb 80 (Wokwi.co2Emission s) then [CriticalEmissionAlert] else [])
  ++ (if Qltb (Wokwi.availableCredits s) 10 then [LowCreditAlert] else []).

(** [sendDataToBackend]; [code] is the result of [http.POST]. *)
Definition sendDataToBackend (wifi : bool) (code : Z) : list LoopEvent :=
  if wifi then [DataPosted code] else [DataNotSent].

(** [getEmissionIntensity]. *)
Definition getEmissionIntensity (s : Wokwi.Sim) : Q :=
  if Qltb 0 (Wokwi.energyConsumed s)
  then (Wokwi.co2Emission s / Wokwi.energyConsumed s)%Q
  else 0%Q.


(** [toggleAutoBurn]. *)
Definition toggleAutoBurn (s : Wokwi.Sim) : Wokwi.Sim :=
  {| Wokwi.lastTransmission := Wokwi.lastTransmission s;
     Wokwi.lastCreditBurn := Wokwi.lastCreditBurn s;
     Wokwi.co2Emission := Wokwi.co2Emission s;
     Wokwi.energyConsumed := Wokwi.energyConsumed s;
     Wokwi.temperature := Wokwi.temperature s;
     Wokwi.humidity := Wokwi.humidity s;
     Wokwi.totalCreditsBurned := Wokwi.totalCreditsBurned s;
     Wokwi.currentSessionCreditsBurned := Wokwi.currentSessionCreditsBurned s;
     Wokwi.availableCredits := Wokwi.availableCredits s;
     Wokwi.isActive := Wokwi.isActive s;
     Wokwi.autoBurnEnabled := negb (Wokwi.autoBurnEnabled s) |}.

(** One iteration of [loop()]: the results of [map] and [random], the four
    readings of [millis()] in the order the code takes them, the WiFi state
    and the answer of the backend. *)
Record Tick := {
  co2Mapped : Z; energyMapped : Z;
  r1 : Z; r2 : Z; r3 : Z; r4 : Z;
  txCheck : Z; txStamp : Z; burnCheck : Z; burnStamp : Z;
  wifi : bool; postCode : Z
}.

(** [loop()], lines 77-106. *)
Definition loop (activityType : string) (tk : Tick) (s : Wokwi.Sim)
  : Wokwi.Sim * list LoopEvent :=
  let s := readSensorData (co2Mapped tk) (energyMapped tk)
             (r1 tk) (r2 tk) (r3 tk) (r4 tk) s in
  let s := processSensorData s in
  let s := calculateCO2Emission activityType s in
  let alerts := checkEmissionAlerts s in
  let sent :=
    if TRANSMISSION_INTERVAL <=? usub (txCheck tk) (Wokwi.lastTransmission s)
    then (set_timers (txStamp tk) (Wokwi.lastCreditBurn s) s,
          sendDataToBackend (wifi tk) (postCode tk))
    else (s, []) in
  let s := fst sent in
  let burnt :=
    if (CREDIT_BURN_INTERVAL <=? usub (burnCheck tk) (Wokwi.lastCreditBurn s))
       && Wokwi.autoBurnEnabled s
    then let r := Wokwi.burnCarbonCredits (wifi tk) s in
         (set_timers (Wokwi.lastTransmission (fst r)) (burnStamp tk) (fst r),
          map Ledger (snd r))
    else (s, []) in
  (fst burnt, alerts ++ snd sent ++ snd burnt).

Fixpoint run (activityType : string) (tks : list Tick) (s : Wokwi.Sim)
  : Wokwi.Sim * list LoopEvent :=
  match tks with
  | [] => (s, [])
  | tk :: tks =>
      let r := loop activityType tk s in
      let r' := run activityType tks (fst r) in
      (fst r', snd r ++ snd r')
  end.





End WokwiSensors.

Module Production.

(** *** The production burner sketch (first sketch of [unnamed/part_000])

    Sensor values are accumulated; once both totals reach their thresholds
    the backend is asked to burn credits, once per accumulation period. *)

(** What [deviceStatus.lastError] holds (the sketch builds the text from a
    fixed prefix and the HTTP code). *)
Inductive LastError :=
| NoError
| WifiFailed
| RegistrationFailed (code : Z)
| RegistrationError (code : Z)
| BurningTriggerFailed (code : Z)
| BurningTriggerError (code : Z)
| DataTransmissionError (code : Z).

Record DeviceStatus := {
  isConnected : bool;
  isActive : bool;
  currentCO2 : Q;
  currentEnergy : Q;
  temperature : Q;
  humidity : Q;
  uptime : Z;
  dataPointsSent : Z;
  lastError : LastError
}.

(** The globals the sketch writes ([connectionAttempts] is never used). *)
Record Device := {
  lastDataTransmission : Z;
  lastStatusCheck : Z;
  accumulatedCO2 : Q;
  accumulatedEnergy : Q;
  lastReset : Z;
  thresholdReached : bool;
  deviceRegistered : bool;
  deviceStatus : DeviceStatus
}.

Definition CO2_THRESHOLD : Q := 1000.
Definition ENERGY_THRESHOLD : Q := 500.
Definition DATA_INTERVAL : Z := 30000.
Definition STATUS_INTERVAL : Z := 5000.
Definition MAX_CONNECTION_ATTEMPTS : nat := 5.
Definition RESET_INTERVAL : Z := 3600000.

Inductive Event :=
| EvWifi (ok : bool) (delays : nat)  (* outcome of connectToWiFi, 1 s waits *)
| EvRegisterSkipped
| EvRegisterPost (code : Z)
| EvAccumulatedReset                 (* "Accumulated data reset" *)
| EvThresholdReached                 (* "=== THRESHOLD REACHED ===" *)
| EvTriggerSkipped                   (* "Cannot trigger burning ..." *)
| EvTriggerPost (code : Z)           (* http.POST of triggerCreditBurning *)
| EvDataPost (code : Z)              (* http.POST of sendDataToBackend *)
| EvAlertTone.                       (* playAlertTone *)

Definition set_status (st : DeviceStatus) (d : Device) : Device :=
  {| lastDataTransmission := lastDataTransmission d;
     lastStatusCheck := lastStatusCheck d;
     accumulatedCO2 := accumulatedCO2 d;
     accumulatedEnergy := accumulatedEnergy d;
     lastReset := lastReset d;
     thresholdReached := thresholdReached d;
     deviceRegistered := deviceRegistered d;
     deviceStatus := st |}.

Definition set_isConnected (b : bool) (st : DeviceStatus) : DeviceStatus :=
  {| isConnected := b; isActive := isActive st; currentCO2 := currentCO2 st;
     currentEnergy := currentEnergy st; temperature := temperature st;
     humidity := humidity st; uptime := uptime st;
     dataPointsSent := dataPointsSent st; lastError := lastError st |}.

Definition set_isActive (b : bool) (st : DeviceStatus) : DeviceStatus :=
  {| isConnected := isConnected st; isActive := b; currentCO2 := currentCO2 st;
     currentEnergy := currentEnergy st; temperature := temperature st;
     humidity := humidity st; uptime := uptime st;
     dataPointsSent := dataPointsSent st; lastError := lastError st |}.

Definition set_lastError (e : LastError) (st : DeviceStatus) : DeviceStatus :=
  {| isConnected := isConnected st; isActive := isActive st;
     currentCO2 := currentCO2 st; currentEnergy := currentEnergy st;
     temperature := temperature st; humidity := humidity st;
     uptime := uptime st; dataPointsSent := dataPointsSent st;
     lastError := e |}.

Definition set_uptime (t : Z) (st : DeviceStatus) : DeviceStatus :=
  {| isConnected := isConnected st; isActive := isActive st;
     currentCO2 := currentCO2 st; currentEnergy := currentEnergy st;
     temperature := temperature st; humidity := humidity st;
     uptime := t; dataPointsSent := dataPointsSent st;
     lastError := lastError st |}.

Definition set_dataPointsSent (n : Z) (st : DeviceStatus) : DeviceStatus :=
  {| isConnected := isConnected st; isActive := isActive st;
     currentCO2 := currentCO2 st; currentEnergy := currentEnergy st;
     temperature := temperature st; humidity := humidity st;
     uptime := uptime st; dataPointsSent := n;
     lastError := lastError st |}.

Definition set_readings (co2 energy temp hum : Q) (st : DeviceStatus)
  : DeviceStatus :=
  {| isConnected := isConnected st; isActive := isActive st;
     currentCO2 := co2; currentEnergy := energy; temperature := temp;
     humidity := hum; uptime := uptime st;
     dataPointsSent := dataPointsSent st; lastError := lastError st |}.

(** The [while] of [connectToWiFi]: [status k] is what the [k]-th call of
    [WiFi.status() == WL_CONNECTED] answers; the result is the final value
    of [attempts].  [room] is [MAX_CONNECTION_ATTEMPTS - attempts]. *)
Fixpoint waitForWiFi (status : nat -> bool) (attempts room : nat) : nat :=
  match room with
  | O => attempts
  | S room =>
      if status attempts then attempts
      else waitForWiFi status (S attempts) room
  end.

(** [connectToWiFi]. *)
Definition connectToWiFi (status : nat -> bool) (d : Device)
  : Device * list Event :=
  let attempts := waitForWiFi status 0 MAX_CONNECTION_ATTEMPTS in
  if status (S attempts) then
    (set_status (set_isConnected true (deviceStatus d)) d,
     [EvWifi true attempts])
  else
    (set_status
       (set_lastError WifiFailed (set_isConnected false (deviceStatus d))) d,
     [EvWifi false attempts]).

(** [registerDevice]; [code] is the result of [http.POST]. *)
Definition registerDevice (code : Z) (d : Device) : Device * list Event :=
  if negb (isConnected (deviceStatus d)) then (d, [EvRegisterSkipped])
  else if 0 <? code then
    if code =? 201 then
      ({| lastDataTransmission := lastDataTransmission d;
          lastStatusCheck := lastStatusCheck d;
          accumulatedCO2 := accumulatedCO2 d;
          accumulatedEnergy := accumulatedEnergy d;
          lastReset := lastReset d;
          thresholdReached := thresholdReached d;
          deviceRegistered := true;
          deviceStatus := deviceStatus d |}, [EvRegisterPost code])
    else
      (set_status (set_lastError (RegistrationFailed code) (deviceStatus d)) d,
       [EvRegisterPost code])
  else
    (set_status (set_lastError (RegistrationError code) (deviceStatus d)) d,
     [EvRegisterPost code]).

(** [readSensorData]: [co2] and [energy] are the results of [map]; a DHT
    reading is [None] when the library answers NaN. *)
Definition readSensorData (co2 energy : Z) (temp hum : option Q) (d : Device)
  : Device :=
  let th := match temp, hum with
            | Some t, Some h => (t, h)
            | _, _ => (25%Q, 50%Q)
            end in
  {| lastDataTransmission := lastDataTransmission d;
     lastStatusCheck := lastStatusCheck d;
     accumulatedCO2 := (accumulatedCO2 d + inject_Z co2)%Q;
     accumulatedEnergy := (accumulatedEnergy d + inject_Z energy)%Q;
     lastReset := lastReset d;
     thresholdReached := thresholdReached d;
     deviceRegistered := deviceRegistered d;
     deviceStatus :=
       set_readings (inject_Z co2) (inject_Z energy) (fst th) (snd th)
         (deviceStatus d) |}.

(** [processAccumulatedData]; [currentTime] is its own [millis()]. *)
Definition processAccumulatedData (currentTime : Z) (d : Device)
  : Device * list Event :=
  if RESET_INTERVAL <=? usub currentTime (lastReset d) then
    ({| lastDataTransmission := lastDataTransmission d;
        lastStatusCheck := lastStatusCheck d;
        accumulatedCO2 := 0;
        accumulatedEnergy := 0;
        lastReset := currentTime;
        thresholdReached := false;
        deviceRegistered := deviceRegistered d;
        deviceStatus := deviceStatus d |}, [EvAccumulatedReset])
  else (d, []).

(** [triggerCreditBurning]; [code] is the result of [http.POST]. *)
Definition triggerCreditBurning (code : Z) (d : Device) : Device * list Event :=
  if negb (isConnected (deviceStatus d)) || negb (deviceRegistered d) then
    (d, [EvTriggerSkipped])
  else if 0 <? code then
    if code =? 201 then (d, [EvTriggerPost code])
    else
      (set_status (set_lastError (BurningTriggerFailed code) (deviceStatus d)) d,
       [EvTriggerPost code])
  else
    (set_status (set_lastError (BurningTriggerError code) (deviceStatus d)) d,
     [EvTriggerPost code]).

(** [checkThresholds]. *)
Definition checkThresholds (code : Z) (d : Device) : Device * list Event :=
  if negb (thresholdReached d)
     && Qle_bool CO2_THRESHOLD (accumulatedCO2 d)
     && Qle_bool ENERGY_THRESHOLD (accumulatedEnergy d) then
    let d :=
      {| lastDataTransmission := lastDataTransmission d;
         lastStatusCheck := lastStatusCheck d;
         accumulatedCO2 := accumulatedCO2 d;
         accumulatedEnergy := accumulatedEnergy d;
         lastReset := lastReset d;
         thresholdReached := true;
         deviceRegistered := deviceRegistered d;
         deviceStatus := set_isActive true (deviceStatus d) |} in
    let r := triggerCreditBurning code d in
    (fst r, EvThresholdReached :: snd r ++ [EvAlertTone])
  else (d, []).

(** [sendDataToBackend]; [code] is the result of [http.POST]. *)
Definition sendDataToBackend (code : Z) (d : Device) : Device * list Event :=
  if negb (isConnected (deviceStatus d)) || negb (deviceRegistered d) then
    (d, [])
  else if 0 <? code then
    (set_status
       (set_dataPointsSent (dataPointsSent (deviceStatus d) + 1) (deviceStatus d))
       d, [EvDataPost code])
  else
    (set_status (set_lastError (DataTransmissionError code) (deviceStatus d)) d,
     [EvDataPost code]).

(** [performStatusCheck]: one call of [WiFi.status()], then those of
    [connectToWiFi]. *)
Definition performStatusCheck (status : nat -> bool) (d : Device)
  : Device * list Event :=
  if negb (status O) then
    connectToWiFi (fun k => status (S k))
      (set_status (set_isConnected false (deviceStatus d)) d)
  else (set_status (set_isConnected true (deviceStatus d)) d, []).

(** [handleBuzzerAlerts]. *)
Definition handleBuzzerAlerts (d : Device) : list Event :=
  if thresholdReached d then [EvAlertTone] else [].

(** One iteration of [loop()]: the two readings of [millis()], the sensor
    values, the answers of the backend and of [WiFi.status()]. *)
Record Tick := {
  now : Z;
  nowProcess : Z;
  co2Mapped : Z;
  energyMapped : Z;
  dhtTemperature : option Q;
  dhtHumidity : option Q;
  triggerCode : Z;
  dataCode : Z;
  wifi : nat -> bool
}.

Definition andThen (r : Device * list Event)
  (f : Device -> Device * list Event) : Device * list Event :=
  let r' := f (fst r) in (fst r', snd r ++ snd r').

(** "Send data to backend" of [loop()]. *)
Definition dataStep (tk : Tick) (d : Device) : Device * list Event :=
  if DATA_INTERVAL <=? usub (now tk) (lastDataTransmission d) then
    let r := sendDataToBackend (dataCode tk) d in
    ({| lastDataTransmission := now tk;
        lastStatusCheck := lastStatusCheck (fst r);
        accumulatedCO2 := accumulatedCO2 (fst r);
        accumulatedEnergy := accumulatedEnergy (fst r);
        lastReset := lastReset (fst r);
        thresholdReached := thresholdReached (fst r);
        deviceRegistered := deviceRegistered (fst r);
        deviceStatus := deviceStatus (fst r) |}, snd r)
  else (d, []).

(** "Status check and health monitoring" of [loop()]. *)
Definition statusStep (tk : Tick) (d : Device) : Device * list Event :=
  if STATUS_INTERVAL <=? usub (now tk) (lastStatusCheck d) then
    let r := performStatusCheck (wifi tk) d in
    ({| lastDataTransmission := lastDataTransmission (fst r);
        lastStatusCheck := now tk;
        accumulatedCO2 := accumulatedCO2 (fst r);
        accumulatedEnergy := accumulatedEnergy (fst r);
        lastReset := lastReset (fst r);
        thresholdReached := thresholdReached (fst r);
        deviceRegistered := deviceRegistered (fst r);
        deviceStatus := deviceStatus (fst r) |}, snd r)
  else (d, []).

(** [loop()], lines 105-139; the LEDs write no global. *)
Definition loop (tk : Tick) (d : Device) : Device * list Event :=
  let d := set_status (set_uptime (now tk) (deviceStatus d)) d in
  let d := readSensorData (co2Mapped tk) (energyMapped tk)
             (dhtTemperature tk) (dhtHumidity tk) d in
  let r := andThen (andThen (andThen (processAccumulatedData (nowProcess tk) d)
             (checkThresholds (triggerCode tk)))
             (dataStep tk))
             (statusStep tk) in
  (fst r, snd r ++ handleBuzzerAlerts (fst r)).

Fixpoint run (tks : list Tick) (d : Device) : Device * list Event :=
  match tks with
  | [] => (d, [])
  | tk :: tks =>
      let r := loop tk d in
      let r' := run tks (fst r) in
      (fst r', snd r ++ snd r')
  end.

(** The state after the global initialisers. *)
Definition init : Device := {|
  lastDataTransmission := 0; lastStatusCheck := 0;
  accumulatedCO2 := 0; accumulatedEnergy := 0; lastReset := 0;
  thresholdReached := false; deviceRegistered := false;
  deviceStatus := {| isConnected := false; isActive := false;
                     currentCO2 := 0; currentEnergy := 0;
                     temperature := 0; humidity := 0; uptime := 0;
                     dataPointsSent := 0; lastError := NoError |}
|}.

(** [setup()], lines 71-103: the two readings of [millis()], then
    [connectToWiFi] and [registerDevice]. *)
Definition setup (t0 t1 : Z) (status : nat -> bool) (code : Z)
  : Device * list Event :=
  let d :=
    {| lastDataTransmission := lastDataTransmission init;
       lastStatusCheck := lastStatusCheck init;
       accumulatedCO2 := accumulatedCO2 init;
       accumulatedEnergy := accumulatedEnergy init;
       lastReset := t1;
       thresholdReached := thresholdReached init;
       deviceRegistered := deviceRegistered init;
       deviceStatus := set_uptime t0 (deviceStatus init) |} in
  andThen (connectToWiFi status d) (registerDevice code).

(** Counting events. *)
Definition countIf (f : Event -> bool) (es : list Event) : nat :=
  length (List.filter f es).

(** Requests that reach the backend. *)
Definition isPost (e : Event) : bool :=
  match e with
  | EvRegisterPost _ | EvTriggerPost _ | EvDataPost _ => true
  | _ => false
  end.

Definition isThreshold (e : Event) : bool :=
  match e with EvThresholdReached => true | _ => false end.
Definition isReset (e : Event) : bool :=
  match e with EvAccumulatedReset => true | _ => false end.
Definition isTriggerPost (e : Event) : bool :=
  match e with EvTriggerPost _ => true | _ => false end.
Definition isAcceptedDataPost (e : Event) : bool :=
  match e with EvDataPost code => 0 <? code | _ => false end.

End Production.

(** ** What a burn should amount to

    The requested amount clamped to the balance, and nothing at all when the
    clamped amount does not exceed 0.01. *)
Definition burnPolicy (requested available : Q) : Q :=
  let m := Qmin requested available in
  if Qltb (1 # 100) m then m else 0%Q.

(** ** Observations on event lists *)

(** Total amount the burner reported as burned. *)
Definition burnedAmount (es : list Burner.Event) : Q :=
  fold_right (fun e acc => match e with
                           | Burner.EvBurned x => (x + acc)%Q
                           | _ => acc
                           end) 0%Q es.

(** Total amount the simulation sketch reported as burned. *)
Definition simBurnedAmount (es : list Wokwi.SimEvent) : Q :=
  fold_right (fun e acc => match e with
                           | Wokwi.CreditsBurned x => (x + acc)%Q
                           | _ => acc
                           end) 0%Q es.

(** Number of purchases reported. *)
Definition purchases (es : list Burner.Event) : nat :=
  fold_right (fun e n => match e with
                         | Burner.EvPurchased _ => S n
                         | _ => n
                         end) O es.

(** An aggregated payload was published and the broker call returned [true]. *)
Definition publishedOk (es : list Burner.Event) : bool :=
  existsb (fun e => match e with
                    | Burner.EvPublish Burner.SensorDataTopic _ true => true
                    | _ => false
                    end) es.

(** Some payload of any kind reached [mqttClient.publish]. *)
Definition anyPublish (es : list Burner.Event) : bool :=
  existsb (fun e => match e with Burner.EvPublish _ _ _ => true | _ => false end) es.

(** An alert payload reached the broker: some publish of it returned [true]. *)
Definition delivered (es : list Burner.Event) : bool :=
  existsb (fun e => match e with
                    | Burner.EvPublish _ (Burner.AlertPayload _ _ _ _) true => true
                    | _ => false
                    end) es.



(** ** Concrete devices and links used in the examples *)

(** Five samples, a failed publish, then a successful one. *)
Definition fiveSamples : Burner.Device :=
  Burner.set_conn
    {| Burner.mqttConnected := true; Burner.lastMqttAttempt := 0 |}
    (Burner.set_window
       (Burner.windowOps
          [Burner.Push 900 50; Burner.Push 1200 55; Burner.Push 2600 60;
           Burner.Push 1500 45; Burner.Push 800 40]
          (Burner.window Burner.init))
       Burner.init).

Definition brokerUp (ok : bool) : Burner.Mqtt :=
  {| Burner.connected := true; Burner.connect_ok := true;
     Burner.publish := fun _ => ok; Burner.aggregateLen := 230 |}.

Definition brokerDown : Burner.Mqtt :=
  {| Burner.connected := false; Burner.connect_ok := false;
     Burner.publish := fun _ => false; Burner.aggregateLen := 230 |}.

(** A device whose last sample is [co2] and whose balance is [avail]. *)
Definition deviceWith (co2 : Z) (avail : Q) (auto : bool) : Burner.Device :=
  Burner.set_sensor
    {| Burner.co2Reading := co2; Burner.humidityReading := 60;
       Burner.carbonCredits := (inject_Z co2 * (8 # 10))%Q;
       Burner.emissions := 18; Burner.offset := false |}
    (Burner.set_ledger
       {| Burner.availableCredits := avail; Burner.creditsBurned := 0;
          Burner.autoPurchaseEnabled := auto |}
       Burner.init).

Definition tickAt (t co2 hum : Z) (m : Burner.Mqtt) : Burner.Tick :=
  {| Burner.now := t; Burner.rnd_co2 := co2; Burner.rnd_hum := hum;
     Burner.link := m |}.



(** Eight samples of 3000 ppm, published at 16 s; then eight samples of
    800 ppm, published at 32 s. *)
Definition twoWindows : list Burner.Tick :=
  map (fun i => tickAt (2000 * i) 3000 90 (brokerUp true)) [1; 2; 3; 4; 5; 6; 7; 8]
  ++ map (fun i => tickAt (2000 * i) 800 40 (brokerUp true))
       [9; 10; 11; 12; 13; 14; 15; 16].

(** The aggregate reports a run published, oldest first. *)
Definition reportsOf (log : list (Z * list Burner.Event))
  : list Burner.AggregateReport :=
  omap (fun e => match e with
                 | Burner.EvPublish Burner.SensorDataTopic
                     (Burner.SensorPayload r _ _ _ _ _) true => Some r
                 | _ => None
                 end) (concat (map snd log)).

(** Three hot samples, a successful publish, one calm sample. *)
Definition staleOps : list Burner.WindowOp :=
  [Burner.Push 3000 90; Burner.Push 3000 90; Burner.Push 3000 90;
   Burner.Published; Burner.Push 800 40].

(** Twenty pushes with CO2 values 1..20 on the initial window. *)
Definition twentyPushes : list Burner.WindowOp :=
  map (fun i => Burner.Push i 50) (seqZ 1 20).




(** Minimum, maximum and sum of a list of readings. *)
Definition minOf (xs : list Z) : Z := fold_right Z.min 9999 xs.
Definition maxOf (xs : list Z) : Z := fold_right Z.max 0 xs.
Definition sumOf (xs : list Z) : Z := fold_right Z.add 0 xs.


(** Some call of [mqttClient.publish] returned [true]. *)
Definition publishedTrue (es : list Burner.Event) : bool :=
  existsb (fun e => match e with
                    | Burner.EvPublish _ _ true => true
                    | _ => false
                    end) es.

(** [sendHeartbeat] was called. *)
Definition heartbeatCalled (es : list Burner.Event) : bool :=
  existsb (fun e => match e with
                    | Burner.EvSkipHeartbeat => true
                    | Burner.EvPublish _ (Burner.HeartbeatPayload _) _ => true
                    | _ => false
                    end) es.

(** The clock values of the iterations that called [sendHeartbeat]. *)
Definition beats (log : list (Z * list Burner.Event)) : list Z :=
  omap (fun te => if heartbeatCalled (snd te) then Some (fst te) else None) log.

(** Every time of [ts] is at least [gap] after [last] and after the one
    before it. *)
Fixpoint gapsFrom (gap last : Z) (ts : list Z) : Prop :=
  match ts with
  | [] => True
  | t :: ts => last + gap <= t /\ gapsFrom gap t ts
  end.

(** The clock of a run against an arbitrary timer value. *)
Fixpoint clockAfter (last : Z) (ts : list Z) : Prop :=
  match ts with
  | [] => True
  | t :: ts => last <= t < ULONG_MOD /\ clockAfter t ts
  end.

(** A run in which the link is up, every data update is due and the
    generated readings are in the ranges of the sketch. *)
Definition steadyTicks : list Burner.Tick :=
  map (fun i => tickAt (2000 * i) (800 + 137 * i) (40 + 3 * i) (brokerUp true))
    (seqZ 1 16).

(** The ledger messages among the events of the simulation loop. *)
Definition ledgerEvents (es : list WokwiSensors.LoopEvent)
  : list Wokwi.SimEvent :=
  omap (fun e => match e with
                 | WokwiSensors.Ledger x => Some x
                 | _ => None
                 end) es.

(** The simulation as the burn step of an iteration finds it: after the
    three sensor functions and the transmission step. *)
Definition beforeBurn (activityType : string) (tk : WokwiSensors.Tick)
  (s : Wokwi.Sim) : Wokwi.Sim :=
  let s1 := WokwiSensors.calculateCO2Emission activityType
              (WokwiSensors.processSensorData
                 (WokwiSensors.readSensorData
                    (WokwiSensors.co2Mapped tk) (WokwiSensors.energyMapped tk)
                    (WokwiSensors.r1 tk) (WokwiSensors.r2 tk)
                    (WokwiSensors.r3 tk) (WokwiSensors.r4 tk) s)) in
  if WokwiSensors.TRANSMISSION_INTERVAL
     <=? usub (WokwiSensors.txCheck tk) (Wokwi.lastTransmission s1)
  then WokwiSensors.set_timers (WokwiSensors.txStamp tk)
         (Wokwi.lastCreditBurn s1) s1
  else s1.

(** A tick of the simulation loop with full-scale sensors, everything due. *)
Definition fullScaleTick : WokwiSensors.Tick :=
  {| WokwiSensors.co2Mapped := 100; WokwiSensors.energyMapped := 150;
     WokwiSensors.r1 := 9; WokwiSensors.r2 := 14;
     WokwiSensors.r3 := 3; WokwiSensors.r4 := 5;
     WokwiSensors.txCheck := 45000; WokwiSensors.txStamp := 45010;
     WokwiSensors.burnCheck := 45020; WokwiSensors.burnStamp := 45130;
     WokwiSensors.wifi := true; WokwiSensors.postCode := 200 |}.

(** An iteration of the production sketch at time [t] with the given mapped
    readings, both DHT reads valid, WiFi answering [up] at every poll and
    the backend answering 201. *)
Definition productionTick (t co2 energy : Z) (up : bool) : Production.Tick := {|
  Production.now := t; Production.nowProcess := t;
  Production.co2Mapped := co2; Production.energyMapped := energy;
  Production.dhtTemperature := Some 22%Q; Production.dhtHumidity := Some 40%Q;
  Production.triggerCode := 201; Production.dataCode := 201;
  Production.wifi := fun _ => up
|}.

(** The production device after a start-up without WiFi, having accumulated
    1500 ppm and 600 kWh. *)
Definition offlineOverThreshold : Production.Device :=
  Production.readSensorData 1500 600 (Some 22%Q) (Some 40%Q)
    (fst (Production.setup 0 0 (fun _ => false) 201)).

(** ** Basic facts *)

Lemma Qltb_lt (x y : Q) : Qltb x y = true <-> (x < y)%Q.
Proof.
  unfold Qltb. rewrite negb_true_iff, <- not_true_iff_false, Qle_bool_iff.
  split; [apply Qnot_le_lt | apply Qlt_not_le].
Qed.

Lemma Qltb_ge (x y : Q) : Qltb x y = false <-> (y <= x)%Q.
Proof.
  unfold Qltb. rewrite negb_false_iff. apply Qle_bool_iff.
Qed.

Lemma usub_exact (a b : Z) :
  0 <= b <= a -> a < ULONG_MOD -> usub a b = a - b.
Proof.
  intros Hb Ha. unfold usub. apply Z.mod_small. lia.
Qed.

(** ** The aggregated publish and the window *)

Section AggregatePublish.
Import Burner.

Variables (m : Mqtt) (t : Z) (d : Device).

Lemma publish_not_connected :
  connected m = false \/ mqttConnected (conn d) = false ->
  publishAggregatedDataToMqtt m t d = (d, [EvSkipAggregate NotConnected]).
Proof.
  unfold publishAggregatedDataToMqtt.
  intros [-> | ->]; [reflexivity | now rewrite orb_true_r].
Qed.

Lemma publish_empty :
  connected m = true -> mqttConnected (conn d) = true ->
  readingsCount (window d) = 0 ->
  publishAggregatedDataToMqtt m t d = (d, [EvSkipAggregate NoReadings]).
Proof.
  unfold publishAggregatedDataToMqtt. now intros -> -> ->.
Qed.

(** The five ways out of [publishAggregatedDataToMqtt]. *)
Lemma publish_cases :
  let r := publishAggregatedDataToMqtt m t d in
  (r = (d, [EvSkipAggregate NotConnected])
   /\ (connected m = false \/ mqttConnected (conn d) = false))
  \/ (r = (d, [EvSkipAggregate NoReadings]) /\ readingsCount (window d) = 0)
  \/ (r = (d, [EvSkipAggregate PayloadTooLarge])
      /\ truncated (aggregateLen m) = true)
  \/ (r = (d, [EvPublish SensorDataTopic (aggregatePayload t d) false])
      /\ publish m SensorDataTopic = false)
  \/ (r = (set_window (set_readingsCount 0 (window d)) d,
           [EvPublish SensorDataTopic (aggregatePayload t d) true])
      /\ connected m = true /\ mqttConnected (conn d) = true
      /\ readingsCount (window d) <> 0
      /\ truncated (aggregateLen m) = false
      /\ publish m SensorDataTopic = true).
Proof.
  unfold publishAggregatedDataToMqtt.
  destruct (connected m) eqn:Hc; cbn [negb orb]; [| left; auto].
  destruct (mqttConnected (conn d)) eqn:Hf; cbn [negb]; [| left; auto].
  destruct (readingsCount (window d) =? 0) eqn:Hn.
  { right; left. split; [reflexivity | lia]. }
  destruct (truncated (aggregateLen m)) eqn:Ht.
  { right; right; left. auto. }
  destruct (publish m SensorDataTopic) eqn:Hp.
  - do 4 right. repeat split; try reflexivity. lia.
  - do 3 right. left. split; reflexivity.
Qed.

End AggregatePublish.

(** C1.  The window is reset exactly when the aggregated publish succeeds.
    For a device holding [k > 0] samples: when the link is down or the
    broker call returns failure, the whole device state (count and buffered
    samples included) is left as it was; when the payload is published and
    the call returns success, the count becomes 0 and nothing else changes;
    and the count is 0 afterwards if and only if a publish succeeded. *)
Theorem aggregate_reset_iff_publish_succeeds
  (m : Burner.Mqtt) (t : Z) (d : Burner.Device) :
  0 < Burner.readingsCount (Burner.window d) ->
  let r := Burner.publishAggregatedDataToMqtt m t d in
  (Burner.connected m = false \/ Burner.publish m Burner.SensorDataTopic = false ->
   fst r = d)
  /\ (Burner.connected m = true -> Burner.mqttConnected (Burner.conn d) = true ->
      Burner.truncated (Burner.aggregateLen m) = false ->
      Burner.publish m Burner.SensorDataTopic = true ->
      publishedOk (snd r) = true)
  /\ (publishedOk (snd r) = true ->
      fst r = Burner.set_window
                (Burner.set_readingsCount 0 (Burner.window d)) d)
  /\ (publishedOk (snd r) = false -> fst r = d)
  /\ (Burner.readingsCount (Burner.window (fst r)) = 0
      <-> publishedOk (snd r) = true).
Proof.
  intros Hk r.
  destruct (publish_cases m t d)
    as [[E H] | [[E H] | [[E H] | [[E H] | [E H]]]]];
    fold r in E; rewrite E; cbn [fst snd publishedOk existsb orb].
  - repeat split; try congruence; try discriminate.
    + intros ? ? ? ?. destruct H; congruence.
    + lia.
  - lia.
  - repeat split; try congruence; try discriminate. lia.
  - repeat split; try congruence; try discriminate. lia.
  - destruct H as (Hc & Hf & Hn & Ht & Hp).
    repeat split; try congruence; try discriminate.
    intros [? | ?]; congruence.
Qed.

Lemma aggregate_reset_five_samples :
  let r1 := Burner.publishAggregatedDataToMqtt (brokerUp false) 15000 fiveSamples in
  let r2 := Burner.publishAggregatedDataToMqtt (brokerUp true) 30000 (fst r1) in
  Burner.readingsCount (Burner.window fiveSamples) = 5
  /\ fst r1 = fiveSamples
  /\ Burner.readingsCount (Burner.window (fst r2)) = 0.
Proof.
  intros r1 r2.
  assert (H5 : 0 < Burner.readingsCount (Burner.window fiveSamples))
    by (vm_compute; reflexivity).
  pose proof (aggregate_reset_iff_publish_succeeds (brokerUp false) 15000
                fiveSamples H5) as (Hfail & _).
  split; [vm_compute; reflexivity |].
  assert (E1 : fst r1 = fiveSamples) by (apply Hfail; right; reflexivity).
  split; [exact E1 |].
  subst r2. rewrite E1.
  pose proof (aggregate_reset_iff_publish_succeeds (brokerUp true) 30000
                fiveSamples H5) as (_ & Hok & _ & _ & Hiff).
  apply Hiff. apply Hok; reflexivity.
Defined.

(** ** The sample count *)

Section WindowCount.
Import Burner.

Lemma storeReading_count (co2 hum : Z) (w : Aggregation) :
  0 <= readingsCount w <= 15 ->
  readingsCount (storeReading co2 hum w) = Z.min (readingsCount w + 1) 15.
Proof.
  intros H. cbn [storeReading readingsCount].
  destruct (Z.ltb_spec (readingsCount w) 15); lia.
Qed.

Lemma storeReading_index (co2 hum : Z) (w : Aggregation) :
  0 <= readingIndex w < 15 ->
  0 <= readingIndex (storeReading co2 hum w) < 15.
Proof.
  intros _. cbn [storeReading readingIndex]. apply Z.mod_pos_bound. lia.
Qed.

Lemma windowOps_count (os : list WindowOp) :
  forall (w : Aggregation) (acc : list (Z * Z)),
    readingsCount w = Z.min (Z.of_nat (length acc)) 15 ->
    readingsCount (windowOps os w)
    = Z.min (Z.of_nat (length (pushedSince os acc))) 15.
Proof.
  unfold windowOps.
  induction os as [| [co2 hum |] os IH]; intros w acc Hw; cbn [fold_left pushedSince].
  - exact Hw.
  - apply IH. cbn [windowOp]. rewrite storeReading_count by lia.
    rewrite length_app. cbn [length]. lia.
  - apply IH. reflexivity.
Qed.

End WindowCount.


(** ** The credit ledger *)

(** C9.  [autoPurchaseCredits] is exactly: when auto purchase is enabled
    and the balance is below 10, the balance grows by 100, one purchase is
    reported and nothing else changes; otherwise nothing is reported and the
    device is unchanged.  A call never purchases twice. *)
Theorem auto_purchase_exact (d : Burner.Device) :
  let r := Burner.autoPurchaseCredits d in
  let l := Burner.ledger d in
  ((Burner.autoPurchaseEnabled l = true
    /\ (Burner.availableCredits l < Burner.CREDIT_PURCHASE_THRESHOLD)%Q) ->
   snd r = [Burner.EvPurchased Burner.CREDIT_PURCHASE_AMOUNT]
   /\ fst r
      = Burner.set_ledger
          {| Burner.availableCredits :=
               (Burner.availableCredits l + Burner.CREDIT_PURCHASE_AMOUNT)%Q;
             Burner.creditsBurned := Burner.creditsBurned l;
             Burner.autoPurchaseEnabled := true |} d)
  /\ (~ (Burner.autoPurchaseEnabled l = true
         /\ (Burner.availableCredits l < Burner.CREDIT_PURCHASE_THRESHOLD)%Q) ->
      r = (d, []))
  /\ (purchases (snd r) <= 1)%nat
  /\ Burner.CREDIT_PURCHASE_THRESHOLD = 10%Q
  /\ Burner.CREDIT_PURCHASE_AMOUNT = 100%Q.
Proof.
  intros r l. subst r. unfold Burner.autoPurchaseCredits. fold l.
  destruct (Burner.autoPurchaseEnabled l) eqn:He; cbn [andb].
  - destruct (Qltb (Burner.availableCredits l) Burner.CREDIT_PURCHASE_THRESHOLD)
      eqn:Hlt; cbn [fst snd purchases fold_right].
    + split; [intros _; split; reflexivity |].
      split; [| split; [lia | split; reflexivity]].
      intros Hn. exfalso. apply Hn. split; [reflexivity | now apply Qltb_lt].
    + split; [intros [_ Hc]; apply Qltb_lt in Hc; congruence |].
      split; [reflexivity | split; [lia | split; reflexivity]].
  - cbn [fst snd purchases fold_right].
    split; [intros [Hc _]; discriminate |].
    split; [reflexivity | split; [lia | split; reflexivity]].
Qed.

(** Nine credits are topped up to 109; ten credits are left alone, and so
    are three credits when auto purchase is off. *)
Lemma auto_purchase_at_nine_ten_and_off :
  (Burner.availableCredits
     (Burner.ledger (fst (Burner.autoPurchaseCredits (deviceWith 2600 9 true))))
   == 109)%Q
  /\ Burner.autoPurchaseCredits (deviceWith 2600 10 true)
     = (deviceWith 2600 10 true, [])
  /\ Burner.autoPurchaseCredits (deviceWith 2600 3 false)
     = (deviceWith 2600 3 false, []).
Proof.
  split; [| split].
  - destruct (auto_purchase_exact (deviceWith 2600 9 true)) as (Hyes & _).
    destruct Hyes as (_ & ->); [split; [reflexivity | vm_compute; reflexivity] |].
    vm_compute. reflexivity.
  - apply (auto_purchase_exact (deviceWith 2600 10 true)).
    intros [_ Hlt]. vm_compute in Hlt. discriminate.
  - apply (auto_purchase_exact (deviceWith 2600 3 false)).
    intros [Hen _]. discriminate.
Defined.



Lemma burnPolicy_cases (x a : Q) :
  ((1 # 100 < Qmin x a)%Q /\ (burnPolicy x a == Qmin x a)%Q)
  \/ ((Qmin x a <= 1 # 100)%Q /\ (burnPolicy x a == 0)%Q).
Proof.
  unfold burnPolicy. cbv zeta.
  destruct (Qltb (1 # 100) (Qmin x a)) eqn:E.
  - left. split; [now apply Qltb_lt | reflexivity].
  - right. split; [now apply Qltb_ge | reflexivity].
Qed.

Lemma burnPolicy_bounds (x a : Q) :
  (0 <= burnPolicy x a)%Q /\ (0 <= a -> burnPolicy x a <= a)%Q.
Proof.
  destruct (burnPolicy_cases x a) as [[H1 H2] | [H1 H2]]; rewrite H2.
  - pose proof (Q.le_min_r x a). split; intros; lra.
  - split; intros; lra.
Qed.




(** ** The alert step *)

Section AlertStep.
Import Burner.

Lemma fired_sendCriticalAlert (m : Mqtt) (t : Z) (k : AlertKind) (d : Device) :
  fired (sendCriticalAlert m t k d) = Some k.
Proof.
  unfold sendCriticalAlert.
  destruct (connected m); cbn [negb]; [| reflexivity].
  destruct (publish m AlertsTopic); reflexivity.
Qed.

Lemma delivered_sendCriticalAlert (m : Mqtt) (t : Z) (k : AlertKind) (d : Device) :
  delivered (sendCriticalAlert m t k d)
  = connected m && (publish m AlertsTopic || publish m AlertsSimpleTopic).
Proof.
  unfold sendCriticalAlert.
  destruct (connected m); cbn [negb andb]; [| reflexivity].
  destruct (publish m AlertsTopic); cbn [negb orb]; [reflexivity |].
  cbn. now destruct (publish m AlertsSimpleTopic).
Qed.

(** The two ways out of the alert step. *)
Lemma alertStep_cases (m : Mqtt) (t : Z) (d : Device) :
  (exists k,
      criticalAlertCooldown <= usub t (lastCriticalAlert (timing d))
      /\ evaluateAlert d = Some k
      /\ alertStep m t d
         = (set_timing (set_lastCriticalAlert t (timing d)) d,
            sendCriticalAlert m t k d))
  \/ ((usub t (lastCriticalAlert (timing d)) < criticalAlertCooldown
       \/ evaluateAlert d = None)
      /\ alertStep m t d = (d, [])).
Proof.
  unfold alertStep, evaluateAlert.
  destruct (Z.leb_spec criticalAlertCooldown
              (usub t (lastCriticalAlert (timing d)))) as [Hc | Hc];
    [| right; auto].
  destruct (CRITICAL_CO2_THRESHOLD <? co2Reading (sensor d)).
  { left. exists HIGH_CO2. auto. }
  destruct (Qltb (availableCredits (ledger d)) CRITICAL_CREDITS_THRESHOLD).
  { left. exists LOW_CREDITS. auto. }
  right. auto.
Qed.

Lemma alertStep_fired (m : Mqtt) (t : Z) (d : Device) :
  fired (snd (alertStep m t d))
  = if criticalAlertCooldown <=? usub t (lastCriticalAlert (timing d))
    then evaluateAlert d else None.
Proof.
  destruct (alertStep_cases m t d) as [(k & Hc & He & E) | ([Hc | He] & E)];
    rewrite E; cbn [snd].
  - rewrite fired_sendCriticalAlert, He.
    destruct (Z.leb_spec criticalAlertCooldown
                (usub t (lastCriticalAlert (timing d)))); [reflexivity | lia].
  - destruct (Z.leb_spec criticalAlertCooldown
                (usub t (lastCriticalAlert (timing d)))); [lia | reflexivity].
  - rewrite He. now destruct (_ <=? _).
Qed.


(** The alert step writes the alert timer and nothing else. *)
Lemma alertStep_frame (m : Mqtt) (t : Z) (d : Device) :
  fst (alertStep m t d)
  = set_timing
      (set_lastCriticalAlert
         (lastCriticalAlert (timing (fst (alertStep m t d)))) (timing d)) d.
Proof.
  destruct (alertStep_cases m t d) as [(k & Hc & He & E) | (_ & E)];
    rewrite E; cbn [fst]; [reflexivity |].
  now destruct d as [? [] ? ? ?].
Qed.

End AlertStep.

(** ** One iteration of [loop()]: what each step can touch *)

Section LoopFrame.
Import Burner.

Lemma handleConnection_frame (tk : Tick) (d : Device) :
  fst (handleConnection tk d) = set_conn (conn (fst (handleConnection tk d))) d.
Proof.
  unfold handleConnection, connectToMqtt.
  destruct d as [? ? ? [] ?]. cbn.
  repeat (match goal with |- context [if ?b then _ else _] => destruct b end;
          cbn; try reflexivity).
Qed.

Lemma generate_alert_timer (t co2 hum : Z) (d : Device) :
  lastCriticalAlert (timing (generateHighGasEmissionData t co2 hum d))
  = lastCriticalAlert (timing d).
Proof.
  unfold generateHighGasEmissionData. now destruct (_ <=? _).
Qed.

Lemma autoPurchase_frame (d : Device) :
  fst (autoPurchaseCredits d) = set_ledger (ledger (fst (autoPurchaseCredits d))) d
  /\ omap alertOf (snd (autoPurchaseCredits d)) = [].
Proof.
  unfold autoPurchaseCredits. destruct d as [? ? ? ? []]. cbn.
  destruct (_ && _); cbn; auto.
Qed.

Lemma burn_frame (d : Device) :
  fst (burnCreditsForOffset d) = set_ledger (ledger (fst (burnCreditsForOffset d))) d
  /\ omap alertOf (snd (burnCreditsForOffset d)) = [].
Proof.
  unfold burnCreditsForOffset. destruct d as [? ? ? ? []]. cbn.
  destruct (_ && _); cbn; auto.
  destruct (Qltb (1 # 100) _); cbn; auto.
Qed.

Lemma aggregateStep_alert (m : Mqtt) (t : Z) (d : Device) :
  lastCriticalAlert (timing (fst (aggregateStep m t d)))
  = lastCriticalAlert (timing d)
  /\ sensor (fst (aggregateStep m t d)) = sensor d
  /\ ledger (fst (aggregateStep m t d)) = ledger d
  /\ omap alertOf (snd (aggregateStep m t d)) = [].
Proof.
  unfold aggregateStep.
  destruct (_ <=? _); [| repeat split; reflexivity].
  destruct (publish_cases m t d)
    as [[E H] | [[E H] | [[E H] | [[E H] | [E H]]]]];
    cbv zeta in E; rewrite E; cbn; repeat split; reflexivity.
Qed.

Lemma heartbeatStep_alert (m : Mqtt) (t : Z) (d : Device) :
  lastCriticalAlert (timing (fst (heartbeatStep m t d)))
  = lastCriticalAlert (timing d)
  /\ sensor (fst (heartbeatStep m t d)) = sensor d
  /\ ledger (fst (heartbeatStep m t d)) = ledger d
  /\ omap alertOf (snd (heartbeatStep m t d)) = [].
Proof.
  unfold heartbeatStep, sendHeartbeat.
  destruct (_ <=? _); [| repeat split; reflexivity]. cbn [fst snd].
  destruct (connected m); cbn; [| repeat split; reflexivity].
  destruct (publish m HeartbeatTopic); cbn; repeat split; reflexivity.
Qed.

Lemma fired_app (es fs : list Event) :
  fired (es ++ fs) = match fired es with Some k => Some k | None => fired fs end.
Proof.
  unfold fired. rewrite omap_app. now destruct (omap alertOf es).
Qed.

Lemma fired_none (es : list Event) : omap alertOf es = [] -> fired es = None.
Proof. unfold fired. now intros ->. Qed.

(** The device as the alert step of iteration [tk] finds it, and the link
    it uses. *)
Lemma loop_alert (tk : Tick) (d : Device) :
  exists (d4 : Device) (m : Mqtt),
    lastCriticalAlert (timing d4) = lastCriticalAlert (timing d)
    /\ fired (snd (loop tk d)) = fired (snd (alertStep m (now tk) d4))
    /\ lastCriticalAlert (timing (fst (loop tk d)))
       = lastCriticalAlert (timing (fst (alertStep m (now tk) d4)))
    /\ sensor (fst (loop tk d)) = sensor d4
    /\ ledger (fst (loop tk d)) = ledger d4.
Proof.
  unfold loop. cbv zeta.
  set (c := handleConnection tk d).
  set (d1 := generateHighGasEmissionData (now tk) (rnd_co2 tk) (rnd_hum tk) (fst c)).
  set (r2 := autoPurchaseCredits d1).
  set (r3 := burnCreditsForOffset (fst r2)).
  set (r4 := aggregateStep (snd c) (now tk) (fst r3)).
  exists (fst r4), (snd c).
  unfold andThen. cbn [fst snd].
  fold r2. fold r3. fold r4.
  set (r5 := alertStep (snd c) (now tk) (fst r4)).
  destruct (heartbeatStep_alert (snd c) (now tk) (fst r5)) as (Hh1 & Hh2 & Hh3 & Hh4).
  destruct (aggregateStep_alert (snd c) (now tk) (fst r3)) as (Ha1 & _ & _ & Ha4).
  destruct (burn_frame (fst r2)) as (Hb1 & Hb2).
  destruct (autoPurchase_frame d1) as (Hp1 & Hp2).
  fold r2 in Hp1, Hp2, Hb1, Hb2. fold r3 in Hb1, Hb2, Ha1, Ha4.
  fold r4 in Ha1, Ha4.
  repeat split.
  - rewrite Ha1, Hb1. cbn [timing set_ledger]. rewrite Hp1.
    cbn [timing set_ledger]. subst d1. rewrite generate_alert_timer.
    subst c. rewrite handleConnection_frame. reflexivity.
  - rewrite !fired_app.
    rewrite (fired_none _ Hp2), (fired_none _ Hb2), (fired_none _ Ha4).
    rewrite (fired_none _ Hh4). now destruct (fired (snd r5)).
  - exact Hh1.
  - rewrite Hh2. subst r5. rewrite alertStep_frame. reflexivity.
  - rewrite Hh3. subst r5. rewrite alertStep_frame. reflexivity.
Qed.

End LoopFrame.

(** ** Alerts over a run *)

Section AlertRuns.
Import Burner.


Lemma fires_cons (tk : Tick) (es : list Event) (log : list (Z * list Event)) :
  fires ((now tk, es) :: log)
  = match fired es with
    | Some k => (now tk, k) :: fires log
    | None => fires log
    end.
Proof.
  unfold fires. cbn [omap list_omap fst snd]. now destruct (fired es).
Qed.



End AlertRuns.




(** C10.  The cooldown is consumed whether or not the alert is delivered.
    When the cooldown has elapsed and the readings qualify for an alert,
    the step sets [lastCriticalAlert] to the current time and writes nothing
    else, for every state of the link; the alert reaches the broker only if
    the link is up and one of the two publishes succeeds; and until 30 s
    have passed no later step sends anything, so a dropped alert is not
    retried. *)
Theorem alert_timer_consumed_without_delivery
  (m : Burner.Mqtt) (t : Z) (d : Burner.Device) (k : Burner.AlertKind) :
  Burner.criticalAlertCooldown
  <= usub t (Burner.lastCriticalAlert (Burner.timing d)) ->
  Burner.evaluateAlert d = Some k ->
  let r := Burner.alertStep m t d in
  fst r = Burner.set_timing
            (Burner.set_lastCriticalAlert t (Burner.timing d)) d
  /\ Burner.fired (snd r) = Some k
  /\ delivered (snd r)
     = Burner.connected m
       && (Burner.publish m Burner.AlertsTopic
           || Burner.publish m Burner.AlertsSimpleTopic)
  /\ (forall m' t' d',
        Burner.timing d' = Burner.timing (fst r) ->
        usub t' t < Burner.criticalAlertCooldown ->
        Burner.alertStep m' t' d' = (d', []))
  /\ Burner.criticalAlertCooldown = 30000.
Proof.
  intros Hc He r.
  destruct (alertStep_cases m t d) as [(k' & _ & He' & E) | ([Hn | Hn] & _)];
    [| lia | congruence].
  assert (k' = k) by congruence. subst k'.
  subst r. rewrite E. cbn [fst snd].
  split; [reflexivity |].
  split; [apply fired_sendCriticalAlert |].
  split; [apply delivered_sendCriticalAlert |].
  split; [| reflexivity].
  intros m' t' d' Ht Hgap.
  destruct (alertStep_cases m' t' d') as [(k' & Hc' & _) | (_ & E')];
    [| exact E'].
  rewrite Ht in Hc'. cbn in Hc'. lia.
Qed.

Lemma dropped_alert_consumes_cooldown :
  let d := deviceWith 2600 20 true in
  let r := Burner.alertStep brokerDown 30000 d in
  delivered (snd r) = false
  /\ Burner.lastCriticalAlert (Burner.timing (fst r)) = 30000
  /\ Burner.alertStep (brokerUp true) 59999 (fst r) = (fst r, []).
Proof.
  intros d r.
  assert (Hc : Burner.criticalAlertCooldown
               <= usub 30000 (Burner.lastCriticalAlert (Burner.timing d)))
    by (vm_compute; discriminate).
  assert (He : Burner.evaluateAlert d = Some Burner.HIGH_CO2)
    by (vm_compute; reflexivity).
  pose proof (alert_timer_consumed_without_delivery brokerDown 30000 d
                Burner.HIGH_CO2 Hc He) as (Hfst & _ & Hdel & Hnext & _).
  fold r in Hfst, Hdel, Hnext.
  split; [rewrite Hdel; reflexivity |].
  split; [rewrite Hfst; reflexivity |].
  apply Hnext; [reflexivity | vm_compute; reflexivity].
Defined.

(** The cooldown test survives the wrap of [millis()]: last alert 10 s
    before the wrap, 19.999 s after it nothing fires, 20 s after it the
    alert does. *)
Lemma alert_step_across_clock_wrap :
  let d := Burner.set_timing
             (Burner.set_lastCriticalAlert (ULONG_MOD - 10000)
                (Burner.timing Burner.init))
             (deviceWith 2600 20 true) in
  Burner.fired (snd (Burner.alertStep (brokerUp true) 19999 d)) = None
  /\ Burner.fired (snd (Burner.alertStep (brokerUp true) 20000 d))
     = Some Burner.HIGH_CO2.
Proof. vm_compute. split; reflexivity. Qed.


(** C6.  The CO2 threshold is tested first.  Whenever the reading exceeds
    the critical CO2 threshold the evaluation is HIGH_CO2, whatever the
    balance is, so also when the balance is below the critical credit
    threshold; once the cooldown has elapsed the alert fired is HIGH_CO2
    and no LOW_CREDITS payload is produced. *)
Theorem high_co2_takes_precedence (d : Burner.Device) :
  Burner.CRITICAL_CO2_THRESHOLD < Burner.co2Reading (Burner.sensor d) ->
  Burner.evaluateAlert d = Some Burner.HIGH_CO2
  /\ forall m t,
       Burner.criticalAlertCooldown
       <= usub t (Burner.lastCriticalAlert (Burner.timing d)) ->
       snd (Burner.alertStep m t d)
       = Burner.sendCriticalAlert m t Burner.HIGH_CO2 d
       /\ omap Burner.alertOf (snd (Burner.alertStep m t d))
          = map (fun _ => Burner.HIGH_CO2) (snd (Burner.alertStep m t d)).
Proof.
  intros Hco2.
  assert (He : Burner.evaluateAlert d = Some Burner.HIGH_CO2).
  { unfold Burner.evaluateAlert.
    destruct (Z.ltb_spec Burner.CRITICAL_CO2_THRESHOLD
                (Burner.co2Reading (Burner.sensor d))); [reflexivity | lia]. }
  split; [exact He |].
  intros m t Hc.
  destruct (alertStep_cases m t d) as [(k & _ & He' & E) | ([Hn | Hn] & _)];
    [| lia | congruence].
  assert (k = Burner.HIGH_CO2) by congruence. subst k.
  rewrite E. cbn [snd]. split; [reflexivity |].
  unfold Burner.sendCriticalAlert.
  destruct (Burner.connected m); cbn [negb]; [| reflexivity].
  destruct (Burner.publish m Burner.AlertsTopic); reflexivity.
Qed.

(** The scenario of the specification: 2600 ppm against 2500, 20 credits
    against 5. *)
Lemma high_co2_scenario :
  Burner.CRITICAL_CO2_THRESHOLD = 2500
  /\ Burner.CRITICAL_CREDITS_THRESHOLD = 5%Q
  /\ Burner.evaluateAlert (deviceWith 2600 20 true) = Some Burner.HIGH_CO2.
Proof.
  split; [reflexivity | split; [reflexivity |]].
  apply (high_co2_takes_precedence (deviceWith 2600 20 true)).
  vm_compute. reflexivity.
Defined.

(** Both conditions at once: 2600 ppm and 3 credits. *)
Lemma high_co2_with_low_credits :
  (Burner.availableCredits (Burner.ledger (deviceWith 2600 3 false))
   < Burner.CRITICAL_CREDITS_THRESHOLD)%Q
  /\ Burner.evaluateAlert (deviceWith 2600 3 false) = Some Burner.HIGH_CO2
  /\ Burner.evaluateAlert (deviceWith 2500 3 false) = Some Burner.LOW_CREDITS.
Proof.
  split; [vm_compute; reflexivity |].
  split; reflexivity.
Qed.

(** ** The empty window *)

(** C7 (as stated it fails).  With an empty window the scheduled step does
    modify the device: it moves [lastMqttPublish] to the current time. *)
Lemma empty_window_step_moves_publish_timer :
  let d := Burner.set_conn
             {| Burner.mqttConnected := true; Burner.lastMqttAttempt := 0 |}
             Burner.init in
  let r := Burner.aggregateStep (brokerUp true) 15000 d in
  Burner.readingsCount (Burner.window d) = 0
  /\ Burner.lastMqttPublish (Burner.timing d) = 0
  /\ Burner.lastMqttPublish (Burner.timing (fst r)) = 15000
  /\ fst r <> d.
Proof.
  vm_compute. repeat split; discriminate.
Qed.

(** C7 (amended).  With an empty window [publishAggregatedDataToMqtt]
    publishes nothing and returns the device as it was (count still 0,
    buffers untouched); the scheduled step around it publishes nothing
    either and changes nothing but [lastMqttPublish], which it sets to the
    current time when the interval has elapsed. *)
Theorem empty_window_publishes_nothing
  (m : Burner.Mqtt) (t : Z) (d : Burner.Device) :
  Burner.readingsCount (Burner.window d) = 0 ->
  let r := Burner.publishAggregatedDataToMqtt m t d in
  let r' := Burner.aggregateStep m t d in
  fst r = d
  /\ anyPublish (snd r) = false
  /\ anyPublish (snd r') = false
  /\ fst r'
     = if Burner.mqttPublishInterval
          <=? usub t (Burner.lastMqttPublish (Burner.timing d))
       then Burner.set_timing
              (Burner.set_lastMqttPublish t (Burner.timing d)) d
       else d.
Proof.
  intros H0 r r'.
  assert (E : r = (d, [Burner.EvSkipAggregate Burner.NotConnected])
              \/ r = (d, [Burner.EvSkipAggregate Burner.NoReadings])).
  { destruct (publish_cases m t d)
      as [[E H] | [[E H] | [[E H] | [[E H] | [E H]]]]]; fold r in E; auto.
    - revert E. subst r. unfold Burner.publishAggregatedDataToMqtt.
      rewrite H0. cbn [Z.eqb].
      destruct (negb _ || negb _); auto.
    - revert E. subst r. unfold Burner.publishAggregatedDataToMqtt.
      rewrite H0. cbn [Z.eqb].
      destruct (negb _ || negb _); auto.
    - destruct H as (_ & _ & Hn & _). contradiction. }
  subst r'. unfold Burner.aggregateStep. fold r.
  destruct (Burner.mqttPublishInterval
            <=? usub t (Burner.lastMqttPublish (Burner.timing d)));
    destruct E as [-> | ->]; cbn [fst snd anyPublish existsb orb];
    repeat split; reflexivity.
Qed.

Lemma empty_window_at_first_interval :
  let d := Burner.set_conn
             {| Burner.mqttConnected := true; Burner.lastMqttAttempt := 0 |}
             Burner.init in
  Burner.aggregateStep (brokerUp true) 15000 d
  = (Burner.set_timing
       (Burner.set_lastMqttPublish 15000 (Burner.timing d)) d,
     [Burner.EvSkipAggregate Burner.NoReadings]).
Proof.
  intros d.
  assert (H0 : Burner.readingsCount (Burner.window d) = 0) by reflexivity.
  pose proof (empty_window_publishes_nothing (brokerUp true) 15000 d H0)
    as (_ & _ & _ & Hstep).
  apply injective_projections; [exact Hstep | reflexivity].
Defined.

(** ** Adding credits *)

(** C8 (as stated it fails).  [addCredits (-1)] is carried out: the balance
    of the freshly started sketch drops from 100 to 99. *)
Lemma add_negative_credits_is_applied :
  let r := Wokwi.addCredits (-1) Wokwi.init in
  (Wokwi.availableCredits Wokwi.init == 100)%Q
  /\ (Wokwi.availableCredits (fst r) == 99)%Q
  /\ ~ (Wokwi.availableCredits (fst r) == Wokwi.availableCredits Wokwi.init)%Q
  /\ fst r <> Wokwi.init.
Proof.
  vm_compute. repeat split; discriminate.
Qed.

(** C8 (amended).  [addCredits] checks nothing: for every amount, negative
    ones included, it adds the amount to the balance, reports the new
    total and leaves every other variable as it was; there is no counter of
    generated credits and no failure. *)
Theorem add_credits_adds_any_amount (credits : Q) (s : Wokwi.Sim) :
  let r := Wokwi.addCredits credits s in
  Wokwi.availableCredits (fst r) = (Wokwi.availableCredits s + credits)%Q
  /\ snd r = [Wokwi.CreditsAdded credits (Wokwi.availableCredits s + credits)%Q]
  /\ Wokwi.totalCreditsBurned (fst r) = Wokwi.totalCreditsBurned s
  /\ Wokwi.currentSessionCreditsBurned (fst r) = Wokwi.currentSessionCreditsBurned s
  /\ Wokwi.co2Emission (fst r) = Wokwi.co2Emission s
  /\ Wokwi.energyConsumed (fst r) = Wokwi.energyConsumed s
  /\ Wokwi.temperature (fst r) = Wokwi.temperature s
  /\ Wokwi.humidity (fst r) = Wokwi.humidity s
  /\ Wokwi.lastTransmission (fst r) = Wokwi.lastTransmission s
  /\ Wokwi.lastCreditBurn (fst r) = Wokwi.lastCreditBurn s
  /\ Wokwi.isActive (fst r) = Wokwi.isActive s
  /\ Wokwi.autoBurnEnabled (fst r) = Wokwi.autoBurnEnabled s.
Proof.
  cbv zeta. unfold Wokwi.addCredits. cbn. repeat split; reflexivity.
Qed.

(** *** Pushes without a publish in between *)

Section Ring.





End Ring.

Section PushesOnly.
Import Burner.




End PushesOnly.

(** *** The statistics do not depend on the order of the cells *)

Section Statistics.
Import Burner.

Lemma maxOf_acc (xs : list Z) (a x : Z) :
  fold_right Z.max (Z.max a x) xs = Z.max x (fold_right Z.max a xs).
Proof. induction xs as [| y xs IH]; cbn [fold_right]; lia. Qed.

Lemma minOf_acc (xs : list Z) (a x : Z) :
  fold_right Z.min (Z.min a x) xs = Z.min x (fold_right Z.min a xs).
Proof. induction xs as [| y xs IH]; cbn [fold_right]; lia. Qed.

Lemma maxCells_maxOf (xs : list Z) : maxCells xs = maxOf xs.
Proof.
  unfold maxCells, maxOf. generalize 0.
  induction xs as [| x xs IH]; intros a; cbn [fold_left fold_right];
    [reflexivity |].
  now rewrite IH, maxOf_acc.
Qed.

Lemma minCells_minOf (xs : list Z) : minCells xs = minOf xs.
Proof.
  unfold minCells, minOf. generalize 9999.
  induction xs as [| x xs IH]; intros a; cbn [fold_left fold_right];
    [reflexivity |].
  now rewrite IH, minOf_acc.
Qed.

Lemma sumCells_acc (xs : list Z) :
  forall a : Q,
    (fold_left (fun acc x => acc + inject_Z x) xs a == a + inject_Z (sumOf xs))%Q.
Proof.
  induction xs as [| x xs IH]; intros a; cbn [fold_left sumOf fold_right].
  - change (inject_Z 0) with 0%Q. lra.
  - rewrite IH. fold (sumOf xs). rewrite inject_Z_plus. lra.
Qed.

Lemma sumCells_sumOf (xs : list Z) : (sumCells xs == inject_Z (sumOf xs))%Q.
Proof. unfold sumCells. rewrite sumCells_acc. lra. Qed.



End Statistics.

(** *** The window over a run of the device *)

Section RunWindow.
Import Burner.

Lemma generate_window (t co2 hum : Z) (d : Device) :
  exists os,
    window (generateHighGasEmissionData t co2 hum d) = windowOps os (window d).
Proof.
  unfold generateHighGasEmissionData. destruct (_ <=? _).
  - exists [Push co2 hum]. reflexivity.
  - exists []. reflexivity.
Qed.

Lemma aggregateStep_window (m : Mqtt) (t : Z) (d : Device) :
  exists os, window (fst (aggregateStep m t d)) = windowOps os (window d).
Proof.
  unfold aggregateStep. destruct (_ <=? _); [| exists []; reflexivity].
  destruct (publish_cases m t d)
    as [[E H] | [[E H] | [[E H] | [[E H] | [E H]]]]];
    cbv zeta in E; rewrite E; cbn [fst snd set_timing window].
  1-4: exists []; reflexivity.
  exists [Published]. reflexivity.
Qed.

Lemma heartbeatStep_window (m : Mqtt) (t : Z) (d : Device) :
  window (fst (heartbeatStep m t d)) = window d.
Proof. unfold heartbeatStep. now destruct (_ <=? _). Qed.

Lemma alertStep_window (m : Mqtt) (t : Z) (d : Device) :
  window (fst (alertStep m t d)) = window d.
Proof. now rewrite alertStep_frame. Qed.

Lemma windowOps_app (os1 os2 : list WindowOp) (w : Aggregation) :
  windowOps (os1 ++ os2) w = windowOps os2 (windowOps os1 w).
Proof. unfold windowOps. apply fold_left_app. Qed.

Lemma loop_window (tk : Tick) (d : Device) :
  exists os, window (fst (loop tk d)) = windowOps os (window d).
Proof.
  unfold loop. cbv zeta. unfold andThen. cbn [fst snd].
  set (c := handleConnection tk d).
  set (d1 := generateHighGasEmissionData (now tk) (rnd_co2 tk) (rnd_hum tk) (fst c)).
  set (r2 := autoPurchaseCredits d1).
  set (r3 := burnCreditsForOffset (fst r2)).
  destruct (aggregateStep_window (snd c) (now tk) (fst r3)) as [os2 H2].
  destruct (generate_window (now tk) (rnd_co2 tk) (rnd_hum tk) (fst c)) as [os1 H1].
  fold d1 in H1.
  exists (os1 ++ os2).
  rewrite heartbeatStep_window, alertStep_window, H2, windowOps_app. f_equal.
  subst r3. rewrite (proj1 (burn_frame (fst r2))). cbn [window set_ledger].
  subst r2. rewrite (proj1 (autoPurchase_frame d1)). cbn [window set_ledger].
  rewrite H1. subst c. rewrite handleConnection_frame. reflexivity.
Qed.

Lemma run_window (tks : list Tick) :
  forall d, exists os, window (fst (run tks d)) = windowOps os (window d).
Proof.
  induction tks as [| tk tks IH]; intros d; cbn [run fst].
  - exists []. reflexivity.
  - destruct (loop_window tk d) as [os1 H1].
    destruct (IH (fst (loop tk d))) as [os2 H2].
    exists (os1 ++ os2). now rewrite H2, H1, windowOps_app.
Qed.

End RunWindow.

(** ** Which cells the statistics read *)

(** C3 (the code departs from it).  After a publish the write position is
    not rewound, while the statistics still read the cells from position 0.
    Window level: three samples of 3000 ppm, a successful publish, one
    sample of 800 ppm; the only sample since the publish is the 800 one,
    yet the cell read is the stale 3000.  Device level: over [twoWindows]
    all eight samples after the first publish are 800 ppm, yet the second
    published report has maximum 3000 and average 2725. *)
Theorem statistics_read_stale_cells_after_publish :
  (let w := Burner.windowOps staleOps (Burner.window Burner.init) in
   Burner.pushedSince staleOps [] = [(800, 40)]
   /\ Burner.readingsCount w = 1
   /\ Burner.readingIndex w = 4
   /\ Burner.cellsRead (Burner.readingsCount w) (Burner.co2Readings w) = [3000]
   /\ Burner.maxCO2 (Burner.summarize w) = 3000
   /\ Burner.minCO2 (Burner.summarize w) = 3000
   /\ (Burner.avgCO2 (Burner.summarize w) == 3000)%Q)
  /\
  (let log := snd (Burner.run twoWindows Burner.init) in
   map Burner.rnd_co2 (drop 8 twoWindows) = replicate 8 800
   /\ map Burner.samples (reportsOf log) = [8; 8]
   /\ map Burner.maxCO2 (reportsOf log) = [3000; 3000]
   /\ map Burner.minCO2 (reportsOf log) = [3000; 800]
   /\ Forall2 Qeq (map Burner.avgCO2 (reportsOf log)) [3000%Q; 2725%Q]).
Proof.
  split.
  - vm_compute. repeat split; reflexivity.
  - cbv zeta. repeat split; try (vm_compute; reflexivity).
    vm_compute. repeat constructor.
Qed.

(** Without a publish in between the scenario of the specification holds:
    after pushing CO2 values 1..20 the cells read are the values 6..20 (in
    ring order 16..20, 6..15), with minimum 6, maximum 20 and average 13. *)
Lemma twenty_pushes_keep_last_fifteen :
  let w := Burner.windowOps twentyPushes (Burner.window Burner.init) in
  Burner.cellsRead (Burner.readingsCount w) (Burner.co2Readings w)
  = [16; 17; 18; 19; 20; 6; 7; 8; 9; 10; 11; 12; 13; 14; 15]
  /\ Burner.samples (Burner.summarize w) = 15
  /\ Burner.minCO2 (Burner.summarize w) = 6
  /\ Burner.maxCO2 (Burner.summarize w) = 20
  /\ (Burner.avgCO2 (Burner.summarize w) == 13)%Q.
Proof.
  vm_compute. repeat split; reflexivity.
Qed.

(** C4.  After any sequence of pushes and resets from the initial window,
    the sample count the aggregated payload reports is the number of pushes
    since the last reset, capped at the capacity 15; a push on that window
    leaves [min (count + 1) 15]; and in every state the device reaches from
    its initial state, whatever the clock, the samples and the link do, the
    count lies between 0 and 15. *)
Theorem sample_count_is_capped_push_count
  (os : list Burner.WindowOp) (tks : list Burner.Tick) :
  let w := Burner.windowOps os (Burner.window Burner.init) in
  Burner.samples (Burner.summarize w)
  = Z.min (Z.of_nat (length (Burner.pushedSince os []))) Burner.WINDOW
  /\ 0 <= Burner.readingsCount w <= Burner.WINDOW
  /\ (forall co2 hum,
        Burner.readingsCount (Burner.storeReading co2 hum w)
        = Z.min (Burner.readingsCount w + 1) Burner.WINDOW)
  /\ 0 <= Burner.readingsCount (Burner.window (fst (Burner.run tks Burner.init)))
     <= Burner.WINDOW.
Proof.
  intros w.
  assert (Hc : Burner.readingsCount w
               = Z.min (Z.of_nat (length (Burner.pushedSince os []))) 15)
    by (apply windowOps_count; reflexivity).
  assert (Hb : 0 <= Burner.readingsCount w <= 15) by lia.
  unfold Burner.WINDOW.
  split; [exact Hc |]. split; [exact Hb |].
  split; [intros co2 hum; apply storeReading_count; exact Hb |].
  destruct (run_window tks Burner.init) as [os' ->].
  rewrite (windowOps_count os' (Burner.window Burner.init) []) by reflexivity.
  lia.
Qed.

(** Twenty pushes leave 15 samples; twenty pushes, a publish and two more
    pushes leave 2. *)
Lemma sample_count_after_twenty_pushes :
  Burner.samples
    (Burner.summarize (Burner.windowOps twentyPushes (Burner.window Burner.init)))
  = 15
  /\ Burner.samples
       (Burner.summarize
          (Burner.windowOps
             (twentyPushes
              ++ [Burner.Published; Burner.Push 900 50; Burner.Push 950 55])
             (Burner.window Burner.init)))
     = 2.
Proof.
  split.
  - rewrite (proj1 (sample_count_is_capped_push_count twentyPushes [])).
    vm_compute. reflexivity.
  - rewrite (proj1 (sample_count_is_capped_push_count _ [])).
    vm_compute. reflexivity.
Defined.


(** ** The sequester sketch behaves alike *)

(** The window of the sequester is reset by a successful publish and by
    nothing else. *)
Lemma sequester_reset_iff_publish_succeeds
  (m : Burner.Mqtt) (t : Z) (d : Sequester.Device) :
  let r := Sequester.publishAggregatedDataToMqtt m t d in
  (fst r = d
   /\ forall p, ~ In (Sequester.EvPublish Burner.SensorDataTopic p true) (snd r))
  \/ (fst r = Sequester.set_window
                (Burner.set_readingsCount 0 (Sequester.window d)) d
      /\ Burner.connected m = true
      /\ Burner.publish m Burner.SensorDataTopic = true
      /\ exists p, snd r = [Sequester.EvPublish Burner.SensorDataTopic p true]).
Proof.
  cbv zeta. unfold Sequester.publishAggregatedDataToMqtt.
  destruct (Burner.connected m); cbn [negb orb];
    [| left; split; [reflexivity | intros p [H | []]; discriminate]].
  destruct (negb (Burner.mqttConnected (Sequester.conn d)));
    [left; split; [reflexivity | intros p [H | []]; discriminate] |].
  destruct (Burner.readingsCount (Sequester.window d) =? 0);
    [left; split; [reflexivity | intros p [H | []]; discriminate] |].
  destruct (Burner.truncated (Burner.aggregateLen m));
    [left; split; [reflexivity | intros p [H | []]; discriminate] |].
  destruct (Burner.publish m Burner.SensorDataTopic).
  - right. repeat split. eexists. reflexivity.
  - left. split; [reflexivity | intros p [H | []]; discriminate].
Qed.

(** In the sequester too the CO2 threshold (1800 there) goes first, and the
    timer is set whatever becomes of the payload. *)
Lemma sequester_high_co2_takes_precedence
  (m : Burner.Mqtt) (len t : Z) (d : Sequester.Device) :
  Sequester.CRITICAL_CO2_THRESHOLD < Burner.co2Reading (Sequester.sensor d) ->
  Sequester.evaluateAlert d = Some Burner.HIGH_CO2
  /\ (Burner.criticalAlertCooldown
      <= usub t (Burner.lastCriticalAlert (Sequester.timing d)) ->
      Sequester.alertStep m len t d
      = (Sequester.set_timing
           (Burner.set_lastCriticalAlert t (Sequester.timing d)) d,
         Sequester.sendCriticalAlert m len t Burner.HIGH_CO2 d)).
Proof.
  intros Hco2. unfold Sequester.evaluateAlert, Sequester.alertStep.
  destruct (Z.ltb_spec Sequester.CRITICAL_CO2_THRESHOLD
              (Burner.co2Reading (Sequester.sensor d))); [| lia].
  split; [reflexivity |]. intros Hc.
  destruct (Z.leb_spec Burner.criticalAlertCooldown
              (usub t (Burner.lastCriticalAlert (Sequester.timing d))));
    [reflexivity | lia].
Qed.

(** ** More on the burner: the first window *)


(** ** More on the burner: the report lies between its extremes *)

Section Extremes.

Lemma maxOf_upper (xs : list Z) (x : Z) : x ∈ xs -> x <= maxOf xs.
Proof.
  unfold maxOf. induction 1 as [x xs | x y xs _ IH]; cbn [fold_right]; lia.
Qed.

Lemma minOf_lower (xs : list Z) (x : Z) : x ∈ xs -> minOf xs <= x.
Proof.
  unfold minOf. induction 1 as [x xs | x y xs _ IH]; cbn [fold_right]; lia.
Qed.

Lemma maxOf_attained (xs : list Z) :
  xs <> [] -> (forall x, x ∈ xs -> 0 <= x) -> maxOf xs ∈ xs.
Proof.
  unfold maxOf. induction xs as [| x xs IH]; [congruence |].
  intros _ Hpos. cbn [fold_right].
  destruct xs as [| y xs].
  - cbn [fold_right]. rewrite Z.max_l by (apply Hpos; left). left.
  - destruct (Z.max_spec x (fold_right Z.max 0 (y :: xs))) as [[_ ->] | [_ ->]].
    + right. apply IH; [discriminate |]. intros z Hz. apply Hpos. now right.
    + left.
Qed.

Lemma minOf_attained (xs : list Z) :
  xs <> [] -> (forall x, x ∈ xs -> x <= 9999) -> minOf xs ∈ xs.
Proof.
  unfold minOf. induction xs as [| x xs IH]; [congruence |].
  intros _ Hle. cbn [fold_right].
  destruct xs as [| y xs].
  - cbn [fold_right]. rewrite Z.min_l by (apply Hle; left). left.
  - destruct (Z.min_spec x (fold_right Z.min 9999 (y :: xs))) as [[_ ->] | [_ ->]].
    + left.
    + right. apply IH; [discriminate |]. intros z Hz. apply Hle. now right.
Qed.

Lemma sumOf_between (xs : list Z) (lo hi : Z) :
  (forall x, x ∈ xs -> lo <= x <= hi) ->
  Z.of_nat (length xs) * lo <= sumOf xs <= Z.of_nat (length xs) * hi.
Proof.
  unfold sumOf. induction xs as [| x xs IH]; intros H; cbn [fold_right length].
  - lia.
  - assert (lo <= x <= hi) by (apply H; left).
    assert (Hrest : forall z, z ∈ xs -> lo <= z <= hi)
      by (intros z Hz; apply H; now right).
    specialize (IH Hrest). lia.
Qed.

End Extremes.

(** X2.  For a window holding at least one sample, with every cell read in
    the range 0..9999 of the two sentinels: the reported maximum and minimum
    are values of cells read, every cell read lies between them, and so
    does the reported average. *)
Theorem report_lies_between_extremes (w : Burner.Aggregation) :
  let cs := Burner.cellsRead (Burner.readingsCount w) (Burner.co2Readings w) in
  let r := Burner.summarize w in
  0 < Burner.readingsCount w <= Z.of_nat (length (Burner.co2Readings w)) ->
  (forall x, x ∈ cs -> 0 <= x <= 9999) ->
  Burner.maxCO2 r ∈ cs
  /\ Burner.minCO2 r ∈ cs
  /\ (forall x, x ∈ cs -> Burner.minCO2 r <= x <= Burner.maxCO2 r)
  /\ (inject_Z (Burner.minCO2 r) <= Burner.avgCO2 r <= inject_Z (Burner.maxCO2 r))%Q.
Proof.
  intros cs r Hn Hrange.
  assert (Hlen : Z.of_nat (length cs) = Burner.readingsCount w).
  { subst cs. unfold Burner.cellsRead. rewrite length_take. lia. }
  assert (Hne : cs <> []).
  { intros E. rewrite E in Hlen. cbn in Hlen. lia. }
  subst r. cbn [Burner.summarize Burner.maxCO2 Burner.minCO2 Burner.avgCO2].
  fold cs. rewrite maxCells_maxOf, minCells_minOf.
  assert (Hbetween : forall x, x ∈ cs -> minOf cs <= x <= maxOf cs).
  { intros x Hx. split; [now apply minOf_lower | now apply maxOf_upper]. }
  split; [apply maxOf_attained; [exact Hne | intros x Hx; now apply Hrange] |].
  split; [apply minOf_attained; [exact Hne | intros x Hx; now apply Hrange] |].
  split; [exact Hbetween |].
  pose proof (sumOf_between cs _ _ Hbetween) as [Hlo Hhi].
  rewrite sumCells_sumOf, <- Hlen.
  assert (Hpos : (0 < inject_Z (Z.of_nat (length cs)))%Q)
    by (rewrite <- (Zlt_Qlt 0); lia).
  split.
  - apply Qle_shift_div_l; [exact Hpos |].
    rewrite <- inject_Z_mult, <- Zle_Qle. lia.
  - apply Qle_shift_div_r; [exact Hpos |].
    rewrite <- inject_Z_mult, <- Zle_Qle. lia.
Qed.

Lemma report_of_five_samples :
  let r := Burner.summarize (Burner.window fiveSamples) in
  Burner.minCO2 r = 800 /\ Burner.maxCO2 r = 2600
  /\ (inject_Z (Burner.minCO2 r) <= Burner.avgCO2 r <= inject_Z (Burner.maxCO2 r))%Q.
Proof.
  intros r. split; [reflexivity | split; [reflexivity |]].
  apply (report_lies_between_extremes (Burner.window fiveSamples)).
  - vm_compute. split; [reflexivity | intros E; discriminate E].
  - intros x Hx. vm_compute in Hx.
    repeat (apply elem_of_cons in Hx; destruct Hx as [-> | Hx]; [lia |]).
    now apply elem_of_nil in Hx.
Defined.

(** ** More on the burner: the connection flag *)

Section ConnectionFlag.
Import Burner.

Lemma handleConnection_flag (tk : Tick) (d : Device) :
  let c := handleConnection tk d in
  let attempted :=
    negb (connected (link tk))
    && (mqttRetryInterval <=? usub (now tk) (lastMqttAttempt (conn d))) in
  mqttConnected (conn (fst c)) = connected (snd c)
  /\ connected (snd c)
     = connected (link tk) || (attempted && connect_ok (link tk))
  /\ lastMqttAttempt (conn (fst c))
     = if attempted then now tk else lastMqttAttempt (conn d).
Proof.
  cbv zeta. unfold handleConnection, connectToMqtt.
  destruct (connected (link tk)) eqn:Hc; cbn [negb andb orb].
  - destruct (mqttConnected (conn d)) eqn:Hf; cbn [negb fst snd conn set_conn
      mqttConnected lastMqttAttempt]; rewrite ?Hc, ?Hf; auto.
  - cbn [conn set_conn mqttConnected lastMqttAttempt].
    destruct (mqttRetryInterval <=? usub (now tk) (lastMqttAttempt (conn d)));
      cbn [fst snd conn set_conn mqttConnected lastMqttAttempt]; rewrite ?Hc.
    + destruct (connect_ok (link tk));
        cbn [fst snd conn set_conn mqttConnected lastMqttAttempt afterConnect
             connected]; auto.
    + auto.
Qed.

Lemma generate_conn (t co2 hum : Z) (d : Device) :
  conn (generateHighGasEmissionData t co2 hum d) = conn d.
Proof. unfold generateHighGasEmissionData. now destruct (_ <=? _). Qed.

Lemma sendCriticalAlert_down (m : Mqtt) (t : Z) (k : AlertKind) (d : Device) :
  connected m = false -> anyPublish (sendCriticalAlert m t k d) = false.
Proof. unfold sendCriticalAlert. now intros ->. Qed.

Lemma anyPublish_app (es fs : list Event) :
  anyPublish (es ++ fs) = anyPublish es || anyPublish fs.
Proof. unfold anyPublish. apply existsb_app. Qed.

Lemma ledger_steps_publish_nothing (d : Device) :
  anyPublish (snd (autoPurchaseCredits d)) = false
  /\ anyPublish (snd (burnCreditsForOffset d)) = false.
Proof.
  unfold autoPurchaseCredits, burnCreditsForOffset. split.
  - now destruct (_ && _).
  - destruct (_ && _); [| reflexivity]. now destruct (Qltb (1 # 100) _).
Qed.

Lemma steps_down (m : Mqtt) (t : Z) (d : Device) :
  connected m = false ->
  anyPublish (snd (aggregateStep m t d)) = false
  /\ anyPublish (snd (alertStep m t d)) = false
  /\ anyPublish (snd (heartbeatStep m t d)) = false.
Proof.
  intros Hm. split; [| split].
  - unfold aggregateStep. destruct (_ <=? _); [| reflexivity].
    cbn [snd]. rewrite publish_not_connected by auto. reflexivity.
  - destruct (alertStep_cases m t d) as [(k & _ & _ & E) | (_ & E)];
      rewrite E; cbn [snd]; [now apply sendCriticalAlert_down | reflexivity].
  - unfold heartbeatStep, sendHeartbeat. destruct (_ <=? _); [| reflexivity].
    cbn [snd]. now rewrite Hm.
Qed.

End ConnectionFlag.

(** Closes a goal [In e es -> False] when no event of [es] is [e]. *)
Ltac no_such_event :=
  cbn; let H := fresh in
  intros H; repeat (destruct H as [H | H]; [discriminate H |]); exact H.

(** X3.  After the connection handling of an iteration the flag
    [mqttConnected] equals the state of the client: up if it was up, or if
    it was down, the retry interval of 5 s had passed and the connect
    succeeded; [lastMqttAttempt] moves only when a connect is attempted.
    Hence an aggregated publish of that iteration is skipped for want of a
    connection only when the client is down, and with the client down the
    iteration publishes nothing at all. *)
Theorem connection_flag_follows_link (tk : Burner.Tick) (d : Burner.Device) :
  let c := Burner.handleConnection tk d in
  let attempted :=
    negb (Burner.connected (Burner.link tk))
    && (Burner.mqttRetryInterval
        <=? usub (Burner.now tk) (Burner.lastMqttAttempt (Burner.conn d))) in
  Burner.mqttConnected (Burner.conn (fst c)) = Burner.connected (snd c)
  /\ Burner.connected (snd c)
     = Burner.connected (Burner.link tk)
       || (attempted && Burner.connect_ok (Burner.link tk))
  /\ Burner.lastMqttAttempt (Burner.conn (fst c))
     = (if attempted then Burner.now tk
        else Burner.lastMqttAttempt (Burner.conn d))
  /\ (In (Burner.EvSkipAggregate Burner.NotConnected) (snd (Burner.loop tk d)) ->
      Burner.connected (snd c) = false)
  /\ (Burner.connected (snd c) = false ->
      anyPublish (snd (Burner.loop tk d)) = false).
Proof.
  intros c attempted.
  destruct (handleConnection_flag tk d) as (Hflag & Hup & Hatt).
  fold c in Hflag, Hup, Hatt. fold attempted in Hup, Hatt.
  split; [exact Hflag |]. split; [exact Hup |]. split; [exact Hatt |].
  clear Hup Hatt. clear attempted.
  unfold Burner.loop. cbv zeta. fold c.
  set (d1 := Burner.generateHighGasEmissionData _ _ _ (fst c)).
  unfold Burner.andThen. cbn [fst snd].
  set (r2 := Burner.autoPurchaseCredits d1).
  set (r3 := Burner.burnCreditsForOffset (fst r2)).
  set (r4 := Burner.aggregateStep (snd c) (Burner.now tk) (fst r3)).
  set (r5 := Burner.alertStep (snd c) (Burner.now tk) (fst r4)).
  set (r6 := Burner.heartbeatStep (snd c) (Burner.now tk) (fst r5)).
  assert (Hconn : Burner.conn (fst r3) = Burner.conn (fst c)).
  { subst r3. rewrite (proj1 (burn_frame (fst r2))). cbn [Burner.conn Burner.set_ledger].
    subst r2. rewrite (proj1 (autoPurchase_frame d1)).
    cbn [Burner.conn Burner.set_ledger]. subst d1. apply generate_conn. }
  split.
  - intros Hin.
    destruct (Burner.connected (snd c)) eqn:Hc; [exfalso | reflexivity].
    rewrite !in_app_iff in Hin.
    destruct Hin as [[[[Hin | Hin] | Hin] | Hin] | Hin]; revert Hin.
    + subst r2. unfold Burner.autoPurchaseCredits.
      destruct (_ && _); no_such_event.
    + subst r3. unfold Burner.burnCreditsForOffset.
      destruct (_ && _); [| no_such_event].
      destruct (Qltb (1 # 100) _); no_such_event.
    + subst r4. unfold Burner.aggregateStep.
      destruct (_ <=? _); [| no_such_event]. cbn [snd].
      unfold Burner.publishAggregatedDataToMqtt.
      rewrite Hconn, Hflag, Hc. cbn [negb orb].
      destruct (_ =? 0); [no_such_event |].
      destruct (Burner.truncated _); [no_such_event |].
      destruct (Burner.publish _ _); no_such_event.
    + subst r5.
      destruct (alertStep_cases (snd c) (Burner.now tk) (fst r4))
        as [(k & _ & _ & E) | (_ & E)]; rewrite E; cbn [snd];
        [| no_such_event].
      unfold Burner.sendCriticalAlert. rewrite Hc. cbn [negb].
      destruct (Burner.publish _ _); no_such_event.
    + subst r6. unfold Burner.heartbeatStep, Burner.sendHeartbeat.
      destruct (_ <=? _); [| no_such_event]. cbn [snd].
      rewrite Hc. cbn [negb].
      destruct (Burner.publish _ _); no_such_event.
  - intros Hc. rewrite !anyPublish_app.
    destruct (ledger_steps_publish_nothing d1) as (H2 & _).
    destruct (ledger_steps_publish_nothing (fst r2)) as (_ & H3).
    destruct (steps_down (snd c) (Burner.now tk) (fst r3) Hc) as (H4 & _).
    destruct (steps_down (snd c) (Burner.now tk) (fst r4) Hc) as (_ & H5 & _).
    destruct (steps_down (snd c) (Burner.now tk) (fst r5) Hc) as (_ & _ & H6).
    fold r2 in H2. fold r3 in H3. fold r4 in H4. fold r5 in H5. fold r6 in H6.
    now rewrite H2, H3, H4, H5, H6.
Qed.

(** ** More on the burner: the ledger over a run *)

Section LedgerRuns.
Import Burner.

Lemma burnedAmount_app (es fs : list Event) :
  (burnedAmount (es ++ fs) == burnedAmount es + burnedAmount fs)%Q.
Proof.
  induction es as [| e es IH]; cbn [app burnedAmount fold_right].
  - fold (burnedAmount fs). lra.
  - fold (burnedAmount (es ++ fs)). fold (burnedAmount es).
    destruct e; rewrite ?IH; lra.
Qed.

Lemma purchases_app (es fs : list Event) :
  purchases (es ++ fs) = (purchases es + purchases fs)%nat.
Proof.
  induction es as [| e es IH]; cbn [app purchases fold_right]; [reflexivity |].
  fold (purchases (es ++ fs)). fold (purchases es). destruct e; lia.
Qed.

(** What the three scheduled steps add to the ledger observations: nothing. *)
Lemma scheduled_steps_ledger (m : Mqtt) (t : Z) (d : Device) :
  (burnedAmount (snd (aggregateStep m t d)) == 0)%Q
  /\ purchases (snd (aggregateStep m t d)) = O
  /\ (burnedAmount (snd (alertStep m t d)) == 0)%Q
  /\ purchases (snd (alertStep m t d)) = O
  /\ (burnedAmount (snd (heartbeatStep m t d)) == 0)%Q
  /\ purchases (snd (heartbeatStep m t d)) = O.
Proof.
  assert (Hagg : snd (aggregateStep m t d) = []
                 \/ (exists r, snd (aggregateStep m t d) = [EvSkipAggregate r])
                 \/ exists p ok, snd (aggregateStep m t d)
                                 = [EvPublish SensorDataTopic p ok]).
  { unfold aggregateStep. destruct (_ <=? _); [| now left].
    destruct (publish_cases m t d)
      as [[E H] | [[E H] | [[E H] | [[E H] | [E H]]]]];
      cbv zeta in E; rewrite E; cbn [snd].
    1-3: right; left; eexists; reflexivity.
    all: right; right; do 2 eexists; reflexivity. }
  destruct Hagg as [-> | [(r & ->) | (p & ok & ->)]].
  all: unfold alertStep, sendCriticalAlert, heartbeatStep, sendHeartbeat.
  all: repeat match goal with
         | |- context [if ?b then _ else _] => destruct b
         end.
  all: cbn; repeat split; reflexivity.
Qed.

Lemma autoPurchase_ledger (d : Device) :
  let r := autoPurchaseCredits d in
  let a := availableCredits (ledger d) in
  let a' := availableCredits (ledger (fst r)) in
  (a' == a + 100 * inject_Z (Z.of_nat (purchases (snd r))))%Q
  /\ creditsBurned (ledger (fst r)) = creditsBurned (ledger d)
  /\ autoPurchaseEnabled (ledger (fst r)) = autoPurchaseEnabled (ledger d)
  /\ (burnedAmount (snd r) == 0)%Q
  /\ (a <= a')%Q
  /\ (a' <= a \/ a' < 110)%Q
  /\ (autoPurchaseEnabled (ledger d) = true -> 0 <= a -> 10 <= a')%Q
  /\ sensor (fst r) = sensor d.
Proof.
  cbv zeta. unfold autoPurchaseCredits, CREDIT_PURCHASE_AMOUNT,
    CREDIT_PURCHASE_THRESHOLD.
  destruct (autoPurchaseEnabled (ledger d)) eqn:He; cbn [andb];
    [destruct (Qltb (availableCredits (ledger d)) 10) eqn:Hlt;
       [apply Qltb_lt in Hlt | apply Qltb_ge in Hlt] |];
    cbn [fst snd ledger set_ledger availableCredits creditsBurned
         autoPurchaseEnabled purchases burnedAmount fold_right sensor];
    change (inject_Z (Z.of_nat 1)) with 1%Q;
    change (inject_Z (Z.of_nat 0)) with 0%Q;
    repeat split; try reflexivity; try assumption; intros;
    try discriminate; try lra; try (left; lra); try (right; lra).
Qed.

Lemma burn_ledger (d : Device) :
  let r := burnCreditsForOffset d in
  let a := availableCredits (ledger d) in
  let a' := availableCredits (ledger (fst r)) in
  let x := burnedAmount (snd r) in
  (a' == a - x)%Q
  /\ (creditsBurned (ledger (fst r)) == creditsBurned (ledger d) + x)%Q
  /\ autoPurchaseEnabled (ledger (fst r)) = autoPurchaseEnabled (ledger d)
  /\ purchases (snd r) = O
  /\ (0 <= x)%Q
  /\ (0 <= a -> x <= a)%Q
  /\ (x <= Qmax 0 (creditsRequested d))%Q
  /\ sensor (fst r) = sensor d.
Proof.
  cbv zeta. unfold burnCreditsForOffset.
  set (x := creditsRequested d). set (a := availableCredits (ledger d)).
  pose proof (Q.le_max_l 0 x) as Hm0. pose proof (Q.le_max_r 0 x) as Hmx.
  destruct (_ && Qltb 0 a) eqn:Hg.
  - apply andb_true_iff in Hg. destruct Hg as [_ Ha]. apply Qltb_lt in Ha.
    destruct (Qltb a x) eqn:Hax.
    + apply Qltb_lt in Hax.
      destruct (Qltb (1 # 100) a) eqn:Hs;
        cbn [fst snd ledger set_ledger availableCredits creditsBurned
             autoPurchaseEnabled purchases burnedAmount fold_right sensor];
        fold a; repeat split; try reflexivity; intros; lra.
    + apply Qltb_ge in Hax.
      destruct (Qltb (1 # 100) x) eqn:Hs;
        [apply Qltb_lt in Hs |];
        cbn [fst snd ledger set_ledger availableCredits creditsBurned
             autoPurchaseEnabled purchases burnedAmount fold_right sensor];
        fold a; repeat split; try reflexivity; intros; lra.
  - cbn [fst snd purchases burnedAmount fold_right]. fold a.
    repeat split; try reflexivity; intros; lra.
Qed.

(** Ledger and sensor after one iteration, in terms of the two ledger
    functions. *)
Lemma loop_ledger (tk : Tick) (d : Device) :
  let d1 := generateHighGasEmissionData (now tk) (rnd_co2 tk) (rnd_hum tk)
              (fst (handleConnection tk d)) in
  let r2 := autoPurchaseCredits d1 in
  let r3 := burnCreditsForOffset (fst r2) in
  ledger (fst (loop tk d)) = ledger (fst r3)
  /\ sensor (fst (loop tk d)) = sensor d1
  /\ (burnedAmount (snd (loop tk d)) == burnedAmount (snd r3))%Q
  /\ purchases (snd (loop tk d)) = purchases (snd r2)
  /\ ledger d1 = ledger d.
Proof.
  intros d1 r2 r3. unfold loop. cbv zeta. fold d1. unfold andThen.
  cbn [fst snd]. fold r2. fold r3.
  set (m := snd (handleConnection tk d)).
  set (r4 := aggregateStep m (now tk) (fst r3)).
  set (r5 := alertStep m (now tk) (fst r4)).
  set (r6 := heartbeatStep m (now tk) (fst r5)).
  destruct (scheduled_steps_ledger m (now tk) (fst r3)) as (Hb4 & Hp4 & _).
  destruct (scheduled_steps_ledger m (now tk) (fst r4)) as (_ & _ & Hb5 & Hp5 & _).
  destruct (scheduled_steps_ledger m (now tk) (fst r5))
    as (_ & _ & _ & _ & Hb6 & Hp6).
  fold r4 in Hb4, Hp4. fold r5 in Hb5, Hp5. fold r6 in Hb6, Hp6.
  destruct (aggregateStep_alert m (now tk) (fst r3)) as (_ & Hs4 & Hl4 & _).
  destruct (heartbeatStep_alert m (now tk) (fst r5)) as (_ & Hs6 & Hl6 & _).
  fold r4 in Hs4, Hl4. fold r6 in Hs6, Hl6.
  assert (Hr5 : sensor (fst r5) = sensor (fst r4)
                /\ ledger (fst r5) = ledger (fst r4)).
  { subst r5. rewrite alertStep_frame. split; reflexivity. }
  destruct Hr5 as (Hs5 & Hl5).
  destruct (autoPurchase_ledger d1) as (_ & _ & _ & Hb2 & _ & _ & _ & Hs2).
  destruct (burn_ledger (fst r2)) as (_ & _ & _ & Hp3 & _ & _ & _ & Hs3).
  fold r2 in Hb2, Hs2. fold r3 in Hp3, Hs3.
  split; [congruence |].
  split; [congruence |].
  split.
  - rewrite !burnedAmount_app, Hb2, Hb4, Hb5, Hb6. lra.
  - split.
    + rewrite !purchases_app, Hp3, Hp4, Hp5, Hp6. lia.
    + subst d1. unfold generateHighGasEmissionData.
      destruct (_ <=? _); cbn [ledger set_sensor set_window set_timing];
        now rewrite handleConnection_frame.
Qed.


End LedgerRuns.


(** X5.  With auto purchase on, a balance that is not negative and CO2
    readings of at most 3000 ppm (the top of the generated range), the
    balance is at least 8 after every iteration with a data update or not,
    and the LOW_CREDITS alert is never fired. *)
Theorem low_credits_never_fires_with_auto_purchase
  (tks : list Burner.Tick) (d : Burner.Device) :
  Burner.autoPurchaseEnabled (Burner.ledger d) = true ->
  (0 <= Burner.availableCredits (Burner.ledger d))%Q ->
  Burner.co2Reading (Burner.sensor d) <= 3000 ->
  Forall (fun tk => Burner.rnd_co2 tk <= 3000) tks ->
  ~ In Burner.LOW_CREDITS (map snd (Burner.fires (snd (Burner.run tks d))))
  /\ (tks <> [] ->
      (8 <= Burner.availableCredits (Burner.ledger (fst (Burner.run tks d))))%Q).
Proof.
  revert d.
  induction tks as [| tk tks IH]; intros d Hen Ha Hco2 Hall;
    cbn [Burner.run fst snd].
  - split; [intros [] | congruence].
  - apply Forall_cons in Hall. destruct Hall as [Htk Hall].
    destruct (loop_ledger tk d) as (Hl & Hs & _ & _ & Hl1).
    cbv zeta in Hl, Hs, Hl1.
    set (d1 := Burner.generateHighGasEmissionData _ _ _ _) in *.
    assert (Hco2' : Burner.co2Reading (Burner.sensor d1) <= 3000).
    { subst d1. unfold Burner.generateHighGasEmissionData.
      destruct (_ <=? _); cbn [Burner.sensor Burner.set_sensor Burner.co2Reading];
        [exact Htk |].
      now rewrite handleConnection_frame. }
    destruct (autoPurchase_ledger d1) as (_ & _ & He2 & _ & _ & _ & H10 & Hs2).
    destruct (burn_ledger (fst (Burner.autoPurchaseCredits d1)))
      as (Ha3 & _ & He3 & _ & Hx0 & _ & Hxr & Hs3).
    cbv zeta in He2, H10, Hs2, Ha3, He3, Hx0, Hxr, Hs3.
    rewrite Hl1 in He2, H10. specialize (H10 Hen Ha).
    assert (Hreq : (Qmax 0 (Burner.creditsRequested
                              (fst (Burner.autoPurchaseCredits d1))) <= 2)%Q).
    { apply Q.max_lub; [lra |]. unfold Burner.creditsRequested.
      rewrite Hs2.
      assert (inject_Z (Burner.co2Reading (Burner.sensor d1) - 1000) <= 2000)%Q
        by (rewrite <- (Zle_Qle _ 2000); lia).
      lra. }
    assert (H8 : (8 <= Burner.availableCredits
                         (Burner.ledger (fst (Burner.loop tk d))))%Q)
      by (rewrite Hl; lra).
    assert (Hen' : Burner.autoPurchaseEnabled
                     (Burner.ledger (fst (Burner.loop tk d))) = true)
      by (rewrite Hl; congruence).
    assert (Hco2'' : Burner.co2Reading
                       (Burner.sensor (fst (Burner.loop tk d))) <= 3000)
      by (rewrite Hs; exact Hco2').
    destruct (IH (fst (Burner.loop tk d)) Hen' ltac:(lra) Hco2'' Hall)
      as (Hno & H8').
    split.
    + rewrite fires_cons.
      destruct (loop_alert tk d) as (d4 & m & _ & Hf & _ & Hs4 & Hl4).
      rewrite Hf, alertStep_fired.
      assert (Hev : Burner.evaluateAlert d4 <> Some Burner.LOW_CREDITS).
      { unfold Burner.evaluateAlert. destruct (_ <? _); [discriminate |].
        rewrite <- Hl4.
        destruct (Qltb _ Burner.CRITICAL_CREDITS_THRESHOLD) eqn:Hlow;
          [| discriminate].
        apply Qltb_lt in Hlow. unfold Burner.CRITICAL_CREDITS_THRESHOLD in Hlow.
        lra. }
      destruct (_ <=? _); [| exact Hno].
      destruct (Burner.evaluateAlert d4) as [[|] |]; [| congruence | exact Hno].
      cbn [map snd In]. intros [E | Hin]; [discriminate | now apply Hno].
    + intros _. destruct tks as [| tk' tks']; [exact H8 |].
      apply H8'. discriminate.
Qed.

Lemma low_credits_never_fires_from_init :
  ~ In Burner.LOW_CREDITS
      (map snd (Burner.fires (snd (Burner.run steadyTicks Burner.init))))
  /\ (8 <= Burner.availableCredits
             (Burner.ledger (fst (Burner.run steadyTicks Burner.init))))%Q.
Proof.
  assert (Hall : Forall (fun tk => Burner.rnd_co2 tk <= 3000) steadyTicks).
  { vm_compute. repeat (constructor; [intros E; discriminate E |]).
    constructor. }
  destruct (low_credits_never_fires_with_auto_purchase steadyTicks Burner.init)
    as (Hno & H8); try exact Hall.
  - reflexivity.
  - vm_compute. discriminate.
  - vm_compute. discriminate.
  - split; [exact Hno | apply H8; discriminate].
Defined.

(** X6.  The burner never reports its emissions as offset: a data update
    sets [offset] when the balance covers 0.8 credits per ppm, that is at
    least 640 credits for readings from 800 ppm up, while the balance,
    topped up by 100 only when below 10, stays below 640 once it is. *)
Theorem offset_is_never_reported (tks : list Burner.Tick) (d : Burner.Device) :
  Burner.offset (Burner.sensor d) = false ->
  (Burner.availableCredits (Burner.ledger d) < 640)%Q ->
  Forall (fun tk => 800 <= Burner.rnd_co2 tk) tks ->
  Burner.offset (Burner.sensor (fst (Burner.run tks d))) = false
  /\ (Burner.availableCredits (Burner.ledger (fst (Burner.run tks d))) < 640)%Q.
Proof.
  revert d.
  induction tks as [| tk tks IH]; intros d Hoff Ha Hall; cbn [Burner.run fst].
  - split; assumption.
  - apply Forall_cons in Hall. destruct Hall as [Htk Hall].
    destruct (loop_ledger tk d) as (Hl & Hs & _ & _ & Hl1).
    cbv zeta in Hl, Hs, Hl1.
    set (d1 := Burner.generateHighGasEmissionData _ _ _ _) in *.
    destruct (autoPurchase_ledger d1) as (_ & _ & _ & _ & _ & Hcap & _).
    destruct (burn_ledger (fst (Burner.autoPurchaseCredits d1)))
      as (Ha3 & _ & _ & _ & Hx0 & _).
    cbv zeta in Hcap, Ha3, Hx0. rewrite Hl1 in Hcap.
    apply IH; [| rewrite Hl; destruct Hcap; lra | exact Hall].
    rewrite Hs. subst d1. unfold Burner.generateHighGasEmissionData.
    destruct (_ <=? _);
      cbn [Burner.sensor Burner.set_sensor Burner.offset].
    + rewrite handleConnection_frame. cbn [Burner.ledger Burner.set_conn].
      apply not_true_iff_false. rewrite Qle_bool_iff.
      assert (800 <= inject_Z (Burner.rnd_co2 tk))%Q
        by (rewrite <- (Zle_Qle 800); exact Htk).
      lra.
    + rewrite handleConnection_frame. exact Hoff.
Qed.

Lemma offset_is_never_reported_from_init :
  Burner.offset (Burner.sensor (fst (Burner.run steadyTicks Burner.init))) = false.
Proof.
  apply (offset_is_never_reported steadyTicks Burner.init).
  - reflexivity.
  - vm_compute. reflexivity.
  - vm_compute. repeat (constructor; [intros E; discriminate E |]).
    constructor.
Defined.

(** ** More on the burner: heartbeats *)

Section Heartbeats.
Import Burner.

Lemma heartbeatCalled_app (es fs : list Event) :
  heartbeatCalled (es ++ fs) = heartbeatCalled es || heartbeatCalled fs.
Proof. unfold heartbeatCalled. apply existsb_app. Qed.

Lemma heartbeatStep_called (m : Mqtt) (t : Z) (d : Device) :
  heartbeatCalled (snd (heartbeatStep m t d))
  = (heartbeatInterval <=? usub t (lastHeartbeat (timing d)))
  /\ lastHeartbeat (timing (fst (heartbeatStep m t d)))
     = if heartbeatInterval <=? usub t (lastHeartbeat (timing d))
       then t else lastHeartbeat (timing d).
Proof.
  unfold heartbeatStep, sendHeartbeat.
  destruct (_ <=? _); [| split; reflexivity]. cbn [fst snd].
  split; [| reflexivity].
  destruct (connected m); cbn [negb]; [| reflexivity].
  destruct (publish m HeartbeatTopic); reflexivity.
Qed.

Lemma other_steps_heartbeat (m : Mqtt) (t : Z) (d : Device) :
  heartbeatCalled (snd (autoPurchaseCredits d)) = false
  /\ heartbeatCalled (snd (burnCreditsForOffset d)) = false
  /\ heartbeatCalled (snd (aggregateStep m t d)) = false
  /\ heartbeatCalled (snd (alertStep m t d)) = false
  /\ lastHeartbeat (timing (fst (aggregateStep m t d))) = lastHeartbeat (timing d)
  /\ lastHeartbeat (timing (fst (alertStep m t d))) = lastHeartbeat (timing d).
Proof.
  split; [unfold autoPurchaseCredits; now destruct (_ && _) |].
  split; [unfold burnCreditsForOffset; destruct (_ && _); [| reflexivity];
          now destruct (Qltb (1 # 100) _) |].
  split; [| split; [| split]].
  - unfold aggregateStep. destruct (_ <=? _); [| reflexivity].
    destruct (publish_cases m t d)
      as [[E H] | [[E H] | [[E H] | [[E H] | [E H]]]]];
      cbv zeta in E; rewrite E; reflexivity.
  - destruct (alertStep_cases m t d) as [(k & _ & _ & E) | (_ & E)];
      rewrite E; cbn [snd]; [| reflexivity].
    unfold sendCriticalAlert. destruct (connected m); cbn [negb]; [| reflexivity].
    destruct (publish m AlertsTopic); reflexivity.
  - unfold aggregateStep. destruct (_ <=? _); [| reflexivity].
    destruct (publish_cases m t d)
      as [[E H] | [[E H] | [[E H] | [[E H] | [E H]]]]];
      cbv zeta in E; rewrite E; reflexivity.
  - rewrite alertStep_frame. reflexivity.
Qed.

Lemma loop_heartbeat (tk : Tick) (d : Device) :
  heartbeatCalled (snd (loop tk d))
  = (heartbeatInterval <=? usub (now tk) (lastHeartbeat (timing d)))
  /\ lastHeartbeat (timing (fst (loop tk d)))
     = if heartbeatInterval <=? usub (now tk) (lastHeartbeat (timing d))
       then now tk else lastHeartbeat (timing d).
Proof.
  unfold loop. cbv zeta. unfold andThen. cbn [fst snd].
  set (c := handleConnection tk d).
  set (d1 := generateHighGasEmissionData (now tk) (rnd_co2 tk) (rnd_hum tk) (fst c)).
  set (r2 := autoPurchaseCredits d1).
  set (r3 := burnCreditsForOffset (fst r2)).
  set (r4 := aggregateStep (snd c) (now tk) (fst r3)).
  set (r5 := alertStep (snd c) (now tk) (fst r4)).
  destruct (other_steps_heartbeat (snd c) (now tk) d1) as (H2 & _).
  destruct (other_steps_heartbeat (snd c) (now tk) (fst r2)) as (_ & H3 & _).
  destruct (other_steps_heartbeat (snd c) (now tk) (fst r3))
    as (_ & _ & H4 & _ & T4 & _).
  destruct (other_steps_heartbeat (snd c) (now tk) (fst r4))
    as (_ & _ & _ & H5 & _ & T5).
  fold r2 in H2. fold r3 in H3. fold r4 in H4, T4. fold r5 in H5, T5.
  assert (Hlast : lastHeartbeat (timing (fst r5)) = lastHeartbeat (timing d)).
  { rewrite T5, T4. subst r3. rewrite (proj1 (burn_frame (fst r2))).
    cbn [timing set_ledger]. subst r2. rewrite (proj1 (autoPurchase_frame d1)).
    cbn [timing set_ledger]. subst d1. unfold generateHighGasEmissionData.
    destruct (_ <=? _); cbn [timing set_sensor set_window set_timing
                             set_lastDataUpdate lastHeartbeat];
      subst c; now rewrite handleConnection_frame. }
  destruct (heartbeatStep_called (snd c) (now tk) (fst r5)) as (Hc & Ht).
  rewrite Hlast in Hc, Ht.
  rewrite !heartbeatCalled_app, H2, H3, H4, H5, Hc, Ht. split; reflexivity.
Qed.

Lemma beats_cons (tk : Tick) (es : list Event) (log : list (Z * list Event)) :
  beats ((now tk, es) :: log)
  = if heartbeatCalled es then now tk :: beats log else beats log.
Proof.
  unfold beats. cbn [omap list_omap fst snd]. now destruct (heartbeatCalled es).
Qed.

Lemma clockAfter_weaken (ts : list Z) (a b : Z) :
  b <= a -> clockAfter a ts -> clockAfter b ts.
Proof.
  destruct ts as [| t ts]; cbn [clockAfter]; [auto |].
  intros Hab [H1 H2]. split; [lia | exact H2].
Qed.

End Heartbeats.

(** X7.  Heartbeats are at least five minutes apart and the first comes no
    earlier than five minutes after [lastHeartbeat]: over any run whose
    clock neither decreases nor wraps, each call of [sendHeartbeat] is at
    least 300 s after the one before it.  The timer is set at the call,
    whatever the link does, and the heartbeat reaches the broker only with
    the link up and one of its two publishes returning success. *)
Theorem heartbeats_are_five_minutes_apart
  (tks : list Burner.Tick) (d : Burner.Device) :
  0 <= Burner.lastHeartbeat (Burner.timing d) ->
  clockAfter (Burner.lastHeartbeat (Burner.timing d)) (map Burner.now tks) ->
  gapsFrom Burner.heartbeatInterval (Burner.lastHeartbeat (Burner.timing d))
    (beats (snd (Burner.run tks d)))
  /\ Burner.heartbeatInterval = 300000
  /\ forall m t,
       Burner.heartbeatInterval
       <= usub t (Burner.lastHeartbeat (Burner.timing d)) ->
       Burner.lastHeartbeat (Burner.timing (fst (Burner.heartbeatStep m t d))) = t
       /\ anyPublish (snd (Burner.heartbeatStep m t d))
          = Burner.connected m
       /\ publishedTrue (snd (Burner.heartbeatStep m t d))
          = Burner.connected m
            && (Burner.publish m Burner.HeartbeatTopic
                || Burner.publish m Burner.HeartbeatSimpleTopic).
Proof.
  intros H0 Hclk. split; [| split; [reflexivity |]].
  - revert d H0 Hclk.
    induction tks as [| tk tks IH]; intros d H0 Hclk;
      cbn [Burner.run snd fst map clockAfter] in *; [exact I |].
    destruct Hclk as [Hnow Hrest].
    rewrite beats_cons.
    destruct (loop_heartbeat tk d) as (Hc & Ht). rewrite Hc.
    destruct (Z.leb_spec Burner.heartbeatInterval
                (usub (Burner.now tk) (Burner.lastHeartbeat (Burner.timing d))))
      as [Hdue | Hdue].
    + rewrite usub_exact in Hdue by lia.
      cbn [gapsFrom]. split; [lia |].
      rewrite <- Ht. apply IH; rewrite Ht; [lia | exact Hrest].
    + rewrite <- Ht. apply IH; rewrite Ht; [lia |].
      apply (clockAfter_weaken _ (Burner.now tk)); [lia | exact Hrest].
  - intros m t Hdue. unfold Burner.heartbeatStep, Burner.sendHeartbeat.
    destruct (Z.leb_spec Burner.heartbeatInterval
                (usub t (Burner.lastHeartbeat (Burner.timing d)))); [| lia].
    cbn [fst snd]. split; [reflexivity |].
    destruct (Burner.connected m); cbn [negb andb]; [| split; reflexivity].
    destruct (Burner.publish m Burner.HeartbeatTopic); cbn [negb orb];
      [split; reflexivity |].
    split; [reflexivity |]. cbn.
    now destruct (Burner.publish m Burner.HeartbeatSimpleTopic).
Qed.

Lemma heartbeats_of_a_ten_minute_run :
  let tks := [tickAt 299000 900 50 brokerDown; tickAt 300000 900 50 brokerDown;
              tickAt 301000 900 50 (brokerUp true);
              tickAt 600000 900 50 (brokerUp true)] in
  beats (snd (Burner.run tks Burner.init)) = [300000; 600000]
  /\ gapsFrom Burner.heartbeatInterval 0 (beats (snd (Burner.run tks Burner.init))).
Proof.
  intros tks. split; [vm_compute; reflexivity |].
  refine (proj1 (heartbeats_are_five_minutes_apart tks Burner.init _ _)).
  - vm_compute. discriminate.
  - vm_compute. repeat split; discriminate.
Defined.

(** ** More on the burner: the clock wraps *)

Lemma usub_elapsed (last e : Z) :
  0 <= last < ULONG_MOD -> 0 <= e < ULONG_MOD ->
  usub ((last + e) mod ULONG_MOD) last = e.
Proof.
  intros Hl He. unfold usub.
  rewrite Zminus_mod_idemp_l.
  replace (last + e - last) with e by lia.
  apply Z.mod_small. exact He.
Qed.

(** X8.  The interval tests are right across the overflow of [millis()]:
    when a timer holds [last] and [e] milliseconds (less than 2^32, about
    49.7 days) have really passed, so that the clock reads
    [(last + e) mod 2^32], an alert is fired exactly when [e] is at least
    30 s and the readings qualify, the heartbeat is sent exactly when [e] is
    at least 300 s, and a sample is taken exactly when [e] is at least 2 s. *)
Theorem timers_survive_clock_wrap
  (m : Burner.Mqtt) (d : Burner.Device) (last e co2 hum : Z) :
  0 <= last < ULONG_MOD -> 0 <= e < ULONG_MOD ->
  let t := (last + e) mod ULONG_MOD in
  (Burner.lastCriticalAlert (Burner.timing d) = last ->
   Burner.fired (snd (Burner.alertStep m t d))
   = if 30000 <=? e then Burner.evaluateAlert d else None)
  /\ (Burner.lastHeartbeat (Burner.timing d) = last ->
      heartbeatCalled (snd (Burner.heartbeatStep m t d)) = (300000 <=? e))
  /\ (Burner.lastDataUpdate (Burner.timing d) = last ->
      Burner.lastDataUpdate
        (Burner.timing (Burner.generateHighGasEmissionData t co2 hum d))
      = if 2000 <=? e then t else last).
Proof.
  intros Hl He t.
  pose proof (usub_elapsed last e Hl He) as Hu. fold t in Hu.
  split; [| split]; intros Hlast.
  - rewrite alertStep_fired, Hlast, Hu. reflexivity.
  - rewrite (proj1 (heartbeatStep_called m t d)), Hlast, Hu. reflexivity.
  - unfold Burner.generateHighGasEmissionData. rewrite Hlast, Hu.
    unfold Burner.dataUpdateInterval.
    destruct (2000 <=? e); [reflexivity | exact Hlast].
Qed.

Lemma timers_ten_seconds_before_the_wrap :
  let d := Burner.set_timing
             (Burner.set_lastCriticalAlert (ULONG_MOD - 10000)
                (Burner.timing Burner.init))
             (deviceWith 2600 20 true) in
  Burner.fired (snd (Burner.alertStep (brokerUp true) 20000 d))
  = Some Burner.HIGH_CO2.
Proof.
  intros d.
  assert (Hl : 0 <= ULONG_MOD - 10000 < ULONG_MOD)
    by (vm_compute; split; [discriminate | reflexivity]).
  assert (He : 0 <= 30000 < ULONG_MOD)
    by (vm_compute; split; [discriminate | reflexivity]).
  destruct (timers_survive_clock_wrap (brokerUp true) d (ULONG_MOD - 10000)
              30000 0 0 Hl He) as (Halert & _).
  apply Halert. reflexivity.
Defined.

(** ** More on the sequester sketch *)

(** X9.  Every sample the sequester takes in its generated ranges (CO2
    300..2000 ppm, humidity 20..80 %) is reported as offset, earns at least
    150 credits, and can qualify for the HIGH_CO2 alert only (above 1800
    ppm): the LOW_CREDITS alert cannot follow a sample. *)
Theorem sequester_samples_are_offset
  (t co2 hum : Z) (d : Sequester.Device) :
  Burner.dataUpdateInterval
  <= usub t (Burner.lastDataUpdate (Sequester.timing d)) ->
  300 <= co2 <= 2000 -> 20 <= hum <= 80 ->
  let d' := Sequester.generateCarbonSequestrationData t co2 hum d in
  Burner.offset (Sequester.sensor d') = true
  /\ (150 <= Burner.carbonCredits (Sequester.sensor d'))%Q
  /\ Sequester.evaluateAlert d'
     = (if 1800 <? co2 then Some Burner.HIGH_CO2 else None)
  /\ Sequester.window d' = Burner.storeReading co2 hum (Sequester.window d).
Proof.
  intros Hdue Hco2 Hhum. cbv zeta.
  unfold Sequester.generateCarbonSequestrationData.
  destruct (Z.leb_spec Burner.dataUpdateInterval
              (usub t (Burner.lastDataUpdate (Sequester.timing d)))); [| lia].
  unfold Sequester.evaluateAlert, Sequester.CRITICAL_CO2_THRESHOLD,
    Sequester.CRITICAL_CREDITS_THRESHOLD.
  cbn [Sequester.sensor Sequester.window Burner.offset Burner.carbonCredits
       Burner.co2Reading].
  assert (Hc : (300 <= inject_Z co2)%Q) by (rewrite <- (Zle_Qle 300); lia).
  assert (Hh : (inject_Z hum <= 80)%Q) by (rewrite <- (Zle_Qle _ 80); lia).
  split; [apply Qle_bool_iff; lra |].
  split; [lra |].
  split; [| reflexivity].
  destruct (1800 <? co2); [reflexivity |].
  destruct (Qltb (inject_Z co2 * (5 # 10)) 2) eqn:Hlow; [| reflexivity].
  apply Qltb_lt in Hlow. lra.
Qed.

Lemma sequester_sample_at_the_bottom_of_the_range :
  let d := {| Sequester.sensor := Burner.sensor Burner.init;
              Sequester.timing := Burner.timing Burner.init;
              Sequester.window := Burner.window Burner.init;
              Sequester.conn := Burner.conn Burner.init |} in
  Sequester.evaluateAlert d = Some Burner.LOW_CREDITS
  /\ Sequester.evaluateAlert
       (Sequester.generateCarbonSequestrationData 2000 300 80 d) = None.
Proof.
  intros d. split; [reflexivity |].
  apply (sequester_samples_are_offset 2000 300 80 d).
  - vm_compute. discriminate.
  - lia.
  - lia.
Defined.

(** X10.  In the sequester an alert whose payload does not fit its buffer
    is dropped, and an alert is tried on one topic only; yet whenever the
    cooldown has elapsed and the readings qualify, the cooldown timer is
    set, so the dropped alert is not sent again for 30 s.  The alert reaches
    the broker exactly when the link is up, the payload fits and the one
    publish succeeds. *)
Theorem sequester_alert_is_tried_once
  (m : Burner.Mqtt) (len t : Z) (d : Sequester.Device) (k : Burner.AlertKind) :
  Burner.criticalAlertCooldown
  <= usub t (Burner.lastCriticalAlert (Sequester.timing d)) ->
  Sequester.evaluateAlert d = Some k ->
  let r := Sequester.alertStep m len t d in
  fst r = Sequester.set_timing
            (Burner.set_lastCriticalAlert t (Sequester.timing d)) d
  /\ (length (snd r) = 1)%nat
  /\ (Burner.connected m = true -> len < 0 \/ 499 <= len ->
      snd r = [Sequester.EvSkipAlert k Burner.PayloadTooLarge])
  /\ ((exists p, In (Sequester.EvPublish Burner.AlertsTopic p true) (snd r))
      <-> Burner.connected m = true /\ 0 <= len < 499
          /\ Burner.publish m Burner.AlertsTopic = true)
  /\ forall m' len' t',
       usub t' t < Burner.criticalAlertCooldown ->
       Sequester.alertStep m' len' t' (fst r) = (fst r, []).
Proof.
  intros Hc He r.
  assert (E : r = (Sequester.set_timing
                     (Burner.set_lastCriticalAlert t (Sequester.timing d)) d,
                   Sequester.sendCriticalAlert m len t k d)).
  { subst r. revert He. unfold Sequester.alertStep, Sequester.evaluateAlert.
    destruct (Z.leb_spec Burner.criticalAlertCooldown
                (usub t (Burner.lastCriticalAlert (Sequester.timing d))));
      [| lia].
    destruct (_ <? _); [intros [= <-]; reflexivity |].
    destruct (Qltb _ _); [intros [= <-]; reflexivity | discriminate]. }
  rewrite E. cbn [fst snd]. unfold Sequester.sendCriticalAlert.
  split; [reflexivity |].
  split; [destruct (Burner.connected m); cbn [negb]; [| reflexivity];
          destruct (_ || _); reflexivity |].
  split.
  { intros -> Hlen. cbn [negb].
    destruct (Z.ltb_spec len 0); cbn [orb]; [reflexivity |].
    destruct (Z.leb_spec 499 len); [reflexivity | lia]. }
  split.
  { destruct (Burner.connected m); cbn [negb].
    - destruct (Z.ltb_spec len 0); cbn [orb].
      + split; [intros (p & [Hp | []]); discriminate | intros (_ & ? & _); lia].
      + destruct (Z.leb_spec 499 len).
        * split; [intros (p & [Hp | []]); discriminate | intros (_ & ? & _); lia].
        * destruct (Burner.publish m Burner.AlertsTopic).
          -- split; [intros _; repeat split; lia |].
             intros _. eexists. left. reflexivity.
          -- split; [intros (p & [Hp | []]); discriminate |
                     intros (_ & _ & ?); discriminate].
    - split; [intros (p & [Hp | []]); discriminate |
              intros (? & _); discriminate]. }
  intros m' len' t' Hgap. unfold Sequester.alertStep.
  cbn [Sequester.timing Sequester.set_timing Burner.lastCriticalAlert
       Burner.set_lastCriticalAlert].
  destruct (Z.leb_spec Burner.criticalAlertCooldown (usub t' t));
    [lia | reflexivity].
Qed.

Lemma sequester_oversize_alert_is_dropped :
  let d := {| Sequester.sensor := Burner.sensor (deviceWith 1900 0 true);
              Sequester.timing := Burner.timing Burner.init;
              Sequester.window := Burner.window Burner.init;
              Sequester.conn := Burner.conn Burner.init |} in
  let r := Sequester.alertStep (brokerUp true) 499 30000 d in
  snd r = [Sequester.EvSkipAlert Burner.HIGH_CO2 Burner.PayloadTooLarge]
  /\ Burner.lastCriticalAlert (Sequester.timing (fst r)) = 30000.
Proof.
  intros d r.
  assert (Hc : Burner.criticalAlertCooldown
               <= usub 30000 (Burner.lastCriticalAlert (Sequester.timing d)))
    by (vm_compute; discriminate).
  assert (He : Sequester.evaluateAlert d = Some Burner.HIGH_CO2) by reflexivity.
  destruct (sequester_alert_is_tried_once (brokerUp true) 499 30000 d
              Burner.HIGH_CO2 Hc He) as (Hfst & _ & Hdrop & _).
  fold r in Hfst, Hdrop. split.
  - apply Hdrop; [reflexivity | right; lia].
  - rewrite Hfst. reflexivity.
Defined.

(** ** The simulation sketch: sensors and ledger *)

Section WokwiLedger.
Import Wokwi WokwiSensors.


(** What one call of [burnCarbonCredits] does to the ledger. *)
Lemma wokwi_burn_ledger (wifi : bool) (s : Sim) :
  let r := burnCarbonCredits wifi s in
  let x := simBurnedAmount (snd r) in
  (availableCredits (fst r) == availableCredits s - x)%Q
  /\ (totalCreditsBurned (fst r) == totalCreditsBurned s + x)%Q
  /\ (currentSessionCreditsBurned (fst r) == currentSessionCreditsBurned s + x)%Q
  /\ (0 <= x)%Q
  /\ (0 <= availableCredits s -> x <= availableCredits s)%Q
  /\ (x <= Qmax 0 (co2Emission s * CREDIT_BURN_RATE))%Q
  /\ co2Emission (fst r) = co2Emission s
  /\ energyConsumed (fst r) = energyConsumed s
  /\ isActive (fst r) = isActive s
  /\ autoBurnEnabled (fst r) = autoBurnEnabled s
  /\ lastTransmission (fst r) = lastTransmission s
  /\ lastCreditBurn (fst r) = lastCreditBurn s.
Proof.
  cbv zeta. unfold burnCarbonCredits, creditsRequested.
  set (x := (co2Emission s * CREDIT_BURN_RATE)%Q).
  set (a := availableCredits s).
  pose proof (Q.le_max_l 0 x) as Hm0. pose proof (Q.le_max_r 0 x) as Hmx.
  assert (Hsum : forall y, (simBurnedAmount
                   (CreditsBurned y :: sendCreditBurnDataToBackend wifi y) == y)%Q).
  { intros y. destruct wifi; cbn; lra. }
  destruct (isActive s && Qltb 0 (co2Emission s) && Qltb 0 a) eqn:Hg.
  - apply andb_true_iff in Hg. destruct Hg as [_ Ha]. apply Qltb_lt in Ha.
    destruct (Qltb a x) eqn:Hax;
      [apply Qltb_lt in Hax | apply Qltb_ge in Hax].
    + destruct (Qltb (1 # 100) a) eqn:Hs;
        cbn [fst snd burn_by availableCredits totalCreditsBurned
             currentSessionCreditsBurned co2Emission energyConsumed isActive
             autoBurnEnabled lastTransmission lastCreditBurn];
        fold a; rewrite ?Hsum; cbn [simBurnedAmount fold_right];
        repeat split; try reflexivity; intros; lra.
    + destruct (Qltb (1 # 100) x) eqn:Hs;
        [apply Qltb_lt in Hs |];
        cbn [fst snd burn_by availableCredits totalCreditsBurned
             currentSessionCreditsBurned co2Emission energyConsumed isActive
             autoBurnEnabled lastTransmission lastCreditBurn];
        fold a; rewrite ?Hsum; cbn [simBurnedAmount fold_right];
        repeat split; try reflexivity; intros; lra.
  - cbn [fst snd simBurnedAmount fold_right]. fold a.
    repeat split; try reflexivity; intros; lra.
Qed.

End WokwiLedger.



(** X12.  After [calculateCO2Emission] the emission intensity is the
    emission rate of the activity whenever energy was consumed, and 0 (no
    division) when it was not; the rate is 1.2, 0.9, 0.6 or 0.4 for the four
    activities [initializeSensors] can choose and at most 1.2 for any other
    text. *)
Theorem intensity_is_the_emission_rate (activityType : string) (s : Wokwi.Sim) :
  let s' := WokwiSensors.calculateCO2Emission activityType s in
  ((0 < Wokwi.energyConsumed s)%Q ->
   (WokwiSensors.getEmissionIntensity s'
    == WokwiSensors.emissionRate activityType)%Q)
  /\ ((Wokwi.energyConsumed s <= 0)%Q ->
      WokwiSensors.getEmissionIntensity s' = 0%Q)
  /\ (4 # 10 <= WokwiSensors.emissionRate activityType <= 12 # 10)%Q
  /\ (forall r, 1 <= r <= 4 ->
        (WokwiSensors.emissionRate (WokwiSensors.initializeSensors r)
         == (if r =? 1 then 12 # 10 else if r =? 2 then 9 # 10
             else if r =? 3 then 6 # 10 else 4 # 10))%Q).
Proof.
  cbv zeta. unfold WokwiSensors.getEmissionIntensity,
    WokwiSensors.calculateCO2Emission.
  cbn [WokwiSensors.set_readings Wokwi.energyConsumed Wokwi.co2Emission].
  split; [| split; [| split]].
  - intros Hpos. apply Qltb_lt in Hpos. rewrite Hpos.
    apply Qltb_lt in Hpos. field. lra.
  - intros Hle. apply Qltb_ge in Hle. now rewrite Hle.
  - unfold WokwiSensors.emissionRate, WokwiSensors.ENERGY_EMISSION_FACTOR.
    repeat destruct (String.eqb _ _); split; lra.
  - intros r Hr.
    assert (Hcases : r = 1 \/ r = 2 \/ r = 3 \/ r = 4) by lia.
    destruct Hcases as [-> | [-> | [-> | ->]]]; vm_compute; reflexivity.
Qed.

(** ** The simulation sketch: clamping and rounding *)

Section Rounding.
Import WokwiSensors.

Lemma round_close (x : Q) :
  (x - (1 # 2) <= inject_Z (round x) <= x + (1 # 2))%Q.
Proof.
  unfold round. destruct (Qle_bool 0 x).
  - pose proof (Qfloor_le (x + (1 # 2))) as Hlo.
    pose proof (Qlt_floor (x + (1 # 2))) as Hhi.
    rewrite inject_Z_plus in Hhi. change (inject_Z 1) with 1%Q in Hhi.
    split; lra.
  - pose proof (Qle_ceiling (x - (1 # 2))) as Hlo.
    pose proof (Qceiling_lt (x - (1 # 2))) as Hhi.
    unfold Z.sub in Hhi. rewrite inject_Z_plus in Hhi.
    change (inject_Z (- (1))) with (- (1))%Q in Hhi.
    split; lra.
Qed.

Lemma round_comp (x y : Q) : (x == y)%Q -> round x = round y.
Proof.
  intros E. unfold round.
  assert (Hb : Qle_bool 0 x = Qle_bool 0 y).
  { destruct (Qle_bool 0 x) eqn:Hx, (Qle_bool 0 y) eqn:Hy; try reflexivity.
    - apply Qle_bool_iff in Hx. rewrite E in Hx. apply Qle_bool_iff in Hx.
      congruence.
    - apply Qle_bool_iff in Hy. rewrite <- E in Hy. apply Qle_bool_iff in Hy.
      congruence. }
  rewrite Hb. destruct (Qle_bool 0 y); [now rewrite E | now rewrite E].
Qed.

Lemma round_inject_Z (z : Z) : round (inject_Z z) = z.
Proof.
  pose proof (round_close (inject_Z z)) as [Hlo Hhi].
  assert (H1 : (inject_Z (z - 1) < inject_Z (round (inject_Z z)))%Q).
  { unfold Z.sub. rewrite inject_Z_plus.
    change (inject_Z (- (1))) with (- (1))%Q. lra. }
  assert (H2 : (inject_Z (round (inject_Z z)) < inject_Z (z + 1))%Q).
  { rewrite inject_Z_plus. change (inject_Z 1) with 1%Q. lra. }
  rewrite <- Zlt_Qlt in H1, H2. lia.
Qed.

Lemma round2_close (x : Q) :
  (x - (1 # 200) <= round2 x <= x + (1 # 200))%Q.
Proof.
  unfold round2. pose proof (round_close (x * 100)) as [Hlo Hhi].
  set (r := inject_Z (round (x * 100))) in *.
  split.
  - apply Qle_shift_div_l; [reflexivity | lra].
  - apply Qle_shift_div_r; [reflexivity | lra].
Qed.

Lemma round2_between (x : Q) (lo hi : Z) :
  (inject_Z lo <= x <= inject_Z hi)%Q ->
  (inject_Z lo <= round2 x <= inject_Z hi)%Q.
Proof.
  intros [Hlo Hhi]. unfold round2.
  pose proof (round_close (x * 100)) as [Rlo Rhi].
  assert (H1 : (inject_Z (lo * 100 - 1) < inject_Z (round (x * 100)))%Q).
  { unfold Z.sub. rewrite inject_Z_plus, inject_Z_mult.
    change (inject_Z (- (1))) with (- (1))%Q.
    change (inject_Z 100) with 100%Q.
    set (r := inject_Z (round (x * 100))) in *. lra. }
  assert (H2 : (inject_Z (round (x * 100)) < inject_Z (hi * 100 + 1))%Q).
  { rewrite inject_Z_plus, inject_Z_mult.
    change (inject_Z 1) with 1%Q. change (inject_Z 100) with 100%Q.
    set (r := inject_Z (round (x * 100))) in *. lra. }
  rewrite <- Zlt_Qlt in H1, H2.
  assert (El : (inject_Z lo * 100 == inject_Z (lo * 100))%Q)
    by (rewrite inject_Z_mult; reflexivity).
  assert (Eh : (inject_Z hi * 100 == inject_Z (hi * 100))%Q)
    by (rewrite inject_Z_mult; reflexivity).
  split.
  - apply Qle_shift_div_l; [reflexivity |].
    rewrite El, <- Zle_Qle. lia.
  - apply Qle_shift_div_r; [reflexivity |].
    rewrite Eh, <- Zle_Qle. lia.
Qed.

Lemma round2_idempotent (x : Q) : round2 (round2 x) = round2 x.
Proof.
  assert (E : round (round2 x * 100) = round (x * 100)).
  { transitivity (round (inject_Z (round (x * 100))));
      [apply round_comp; unfold round2; field | apply round_inject_Z]. }
  unfold round2 at 1. now rewrite E.
Qed.

Lemma clampTo_between (hi x : Q) :
  (0 <= hi)%Q -> (0 <= clampTo hi x <= hi)%Q.
Proof.
  intros Hhi. unfold clampTo. cbv zeta.
  destruct (Qltb x 0) eqn:H0; [apply Qltb_lt in H0 | apply Qltb_ge in H0].
  - destruct (Qltb hi 0) eqn:H1; [apply Qltb_lt in H1 | apply Qltb_ge in H1];
      split; lra.
  - destruct (Qltb hi x) eqn:H1; [apply Qltb_lt in H1 | apply Qltb_ge in H1];
      split; lra.
Qed.

Lemma clampTo_inside (hi x : Q) :
  (0 <= x <= hi)%Q -> clampTo hi x = x.
Proof.
  intros [H0 H1]. unfold clampTo. cbv zeta.
  apply Qltb_ge in H0. rewrite H0. apply Qltb_ge in H1. now rewrite H1.
Qed.

Lemma processed_energy_range (s : Wokwi.Sim) :
  (0 <= Wokwi.energyConsumed (processSensorData s) <= 150)%Q.
Proof.
  unfold processSensorData.
  cbn [set_readings Wokwi.energyConsumed].
  apply (round2_between _ 0 150). apply clampTo_between.
  vm_compute. discriminate.
Qed.

Lemma emissionRate_bounds (activityType : string) :
  (4 # 10 <= emissionRate activityType <= 12 # 10)%Q.
Proof.
  unfold emissionRate, ENERGY_EMISSION_FACTOR.
  repeat destruct (String.eqb _ _); split; lra.
Qed.

End Rounding.

(** X13.  [processSensorData] leaves the CO2 emission in 0..100 and the
    energy in 0..150 whatever the sensors delivered, each within 0.005 of
    the clamped reading; processing a second time changes nothing. *)
Theorem processed_readings_are_in_range (s : Wokwi.Sim) :
  let s' := WokwiSensors.processSensorData s in
  (0 <= Wokwi.co2Emission s' <= 100)%Q
  /\ (0 <= Wokwi.energyConsumed s' <= 150)%Q
  /\ (WokwiSensors.clampTo 100 (Wokwi.co2Emission s) - (1 # 200)
      <= Wokwi.co2Emission s'
      <= WokwiSensors.clampTo 100 (Wokwi.co2Emission s) + (1 # 200))%Q
  /\ (WokwiSensors.clampTo 150 (Wokwi.energyConsumed s) - (1 # 200)
      <= Wokwi.energyConsumed s'
      <= WokwiSensors.clampTo 150 (Wokwi.energyConsumed s) + (1 # 200))%Q
  /\ WokwiSensors.processSensorData s' = s'.
Proof.
  cbv zeta.
  assert (Hco2 : (0 <= WokwiSensors.round2
                         (WokwiSensors.clampTo 100 (Wokwi.co2Emission s))
                  <= 100)%Q).
  { apply (round2_between _ 0 100). apply clampTo_between.
    vm_compute. discriminate. }
  assert (Hen : (0 <= WokwiSensors.round2
                        (WokwiSensors.clampTo 150 (Wokwi.energyConsumed s))
                 <= 150)%Q).
  { apply (round2_between _ 0 150). apply clampTo_between.
    vm_compute. discriminate. }
  unfold WokwiSensors.processSensorData.
  cbn [WokwiSensors.set_readings Wokwi.co2Emission Wokwi.energyConsumed
       Wokwi.temperature Wokwi.humidity Wokwi.isActive].
  split; [exact Hco2 |]. split; [exact Hen |].
  split; [apply round2_close |]. split; [apply round2_close |].
  rewrite (clampTo_inside 100 _ Hco2), (clampTo_inside 150 _ Hen).
  rewrite !round2_idempotent. reflexivity.
Qed.

(** ** The simulation sketch: one iteration and runs *)

Section WokwiLoop.
Import Wokwi WokwiSensors.

Lemma ledgerEvents_app (es fs : list LoopEvent) :
  ledgerEvents (es ++ fs) = ledgerEvents es ++ ledgerEvents fs.
Proof. unfold ledgerEvents. apply omap_app. Qed.

Lemma ledgerEvents_Ledger (es : list SimEvent) :
  ledgerEvents (map Ledger es) = es.
Proof.
  induction es as [| e es IH]; [reflexivity |].
  cbn [map]. unfold ledgerEvents in *. cbn [omap list_omap]. now rewrite IH.
Qed.

Lemma ledgerEvents_alerts (s : Sim) : ledgerEvents (checkEmissionAlerts s) = [].
Proof.
  unfold checkEmissionAlerts.
  repeat match goal with |- context [if ?b then _ else _] => destruct b end;
    reflexivity.
Qed.

Lemma beforeBurn_facts (activityType : string) (tk : Tick) (s : Sim) :
  let s1 := beforeBurn activityType tk s in
  (0 <= energyConsumed s1 <= 150)%Q
  /\ (0 <= co2Emission s1 <= 180)%Q
  /\ availableCredits s1 = availableCredits s
  /\ totalCreditsBurned s1 = totalCreditsBurned s
  /\ currentSessionCreditsBurned s1 = currentSessionCreditsBurned s
  /\ autoBurnEnabled s1 = autoBurnEnabled s
  /\ lastCreditBurn s1 = lastCreditBurn s.
Proof.
  cbv zeta. unfold beforeBurn.
  set (s0 := readSensorData _ _ _ _ _ _ s).
  pose proof (processed_energy_range s0) as Hen.
  pose proof (emissionRate_bounds activityType) as [Hr0 Hr1].
  set (sp := processSensorData s0) in *.
  assert (Hco2 : (0 <= energyConsumed sp * emissionRate activityType <= 180)%Q)
    by (split; nra).
  destruct (_ <=? _);
    cbn [set_timers calculateCO2Emission set_readings energyConsumed co2Emission
         availableCredits totalCreditsBurned currentSessionCreditsBurned
         autoBurnEnabled lastCreditBurn];
    repeat split; try reflexivity; try apply Hen; try apply Hco2.
Qed.

End WokwiLoop.

Section WokwiIteration.
Import Wokwi WokwiSensors.

Lemma sendData_no_ledger (w : bool) (code : Z) :
  ledgerEvents (sendDataToBackend w code) = [].
Proof. unfold sendDataToBackend. now destruct w. Qed.

(** One iteration, in terms of [beforeBurn] and [burnCarbonCredits]. *)
Lemma loop_burn (activityType : string) (tk : Tick) (s : Sim) :
  let s1 := beforeBurn activityType tk s in
  let due := (CREDIT_BURN_INTERVAL <=? usub (burnCheck tk) (lastCreditBurn s1))
             && autoBurnEnabled s1 in
  let b := burnCarbonCredits (wifi tk) s1 in
  fst (loop activityType tk s)
  = (if due then set_timers (lastTransmission (fst b)) (burnStamp tk) (fst b)
     else s1)
  /\ ledgerEvents (snd (loop activityType tk s)) = if due then snd b else [].
Proof.
  cbv zeta. unfold loop, beforeBurn. cbv zeta.
  set (s0 := calculateCO2Emission activityType _).
  destruct (TRANSMISSION_INTERVAL <=? usub (txCheck tk) (lastTransmission s0));
    cbn [fst snd];
    match goal with
    | |- context [if ?b && ?c then _ else _] => destruct (b && c)
    end; cbn [fst snd];
    rewrite !ledgerEvents_app, ledgerEvents_alerts, ?sendData_no_ledger,
      ?ledgerEvents_Ledger; split; reflexivity.
Qed.

Lemma loop_ledger_facts (activityType : string) (tk : Tick) (s : Sim) :
  let r := loop activityType tk s in
  let x := simBurnedAmount (ledgerEvents (snd r)) in
  (0 <= x <= 18 # 100)%Q
  /\ (availableCredits (fst r) == availableCredits s - x)%Q
  /\ (totalCreditsBurned (fst r) == totalCreditsBurned s + x)%Q
  /\ (currentSessionCreditsBurned (fst r) == currentSessionCreditsBurned s + x)%Q
  /\ (0 <= availableCredits s -> 0 <= availableCredits (fst r))%Q
  /\ autoBurnEnabled (fst r) = autoBurnEnabled s
  /\ (autoBurnEnabled s = false -> ledgerEvents (snd r) = [])
  /\ (usub (burnCheck tk) (lastCreditBurn s) < CREDIT_BURN_INTERVAL ->
      ledgerEvents (snd r) = [])
  /\ (0 <= co2Emission (fst r) <= 180)%Q
  /\ (0 <= energyConsumed (fst r) <= 150)%Q.
Proof.
  cbv zeta.
  destruct (loop_burn activityType tk s) as (Hfst & Hev). cbv zeta in Hfst, Hev.
  destruct (beforeBurn_facts activityType tk s)
    as (Hen & Hco2 & Ha & Ht & Hs & Hauto & Hlast).
  cbv zeta in Hen, Hco2, Ha, Ht, Hs, Hauto, Hlast.
  set (s1 := beforeBurn activityType tk s) in *.
  destruct (wokwi_burn_ledger (wifi tk) s1)
    as (Ba & Bt & Bs & Bx0 & Bxa & Bxr & Bco2 & Ben & _ & Bauto & _).
  cbv zeta in Ba, Bt, Bs, Bx0, Bxa, Bxr, Bco2, Ben, Bauto.
  assert (Hcap : (Qmax 0 (co2Emission s1 * CREDIT_BURN_RATE) <= 18 # 100)%Q).
  { apply Q.max_lub; [lra |]. unfold CREDIT_BURN_RATE. lra. }
  rewrite Hfst, Hev, Hlast, Hauto.
  rewrite Ha in Ba, Bxa. rewrite Ht in Bt. rewrite Hs in Bs.
  destruct (Z.leb_spec CREDIT_BURN_INTERVAL (usub (burnCheck tk) (lastCreditBurn s)))
    as [Hdue | Hdue]; cbn [andb].
  - destruct (autoBurnEnabled s) eqn:Hon.
    + cbn [set_timers availableCredits totalCreditsBurned
           currentSessionCreditsBurned autoBurnEnabled co2Emission
           energyConsumed].
      rewrite Bco2, Ben, Bauto, Hauto.
      repeat split; try reflexivity; try discriminate; intros; try lra; try lia.
    + cbn [simBurnedAmount fold_right]. rewrite Ha, Ht, Hs, Hauto.
      repeat split; try reflexivity; intros; try lra.
  - cbn [simBurnedAmount fold_right]. rewrite Ha, Ht, Hs, Hauto.
    repeat split; try reflexivity; intros; try lra.
Qed.

End WokwiIteration.

(** X14.  One iteration of the simulation burns at most 0.18 credits, and
    nothing when auto burn is off or fewer than 45 s have passed since the
    last burn time; balance, lifetime total and session total move by the
    amount burned, a balance that is not negative stays so, and after the
    iteration the emission lies in 0..180 kg and the energy in 0..150 kWh
    whatever the sensors and the random draws delivered. *)
Theorem simulation_iteration_burns_little
  (activityType : string) (tk : WokwiSensors.Tick) (s : Wokwi.Sim) :
  let r := WokwiSensors.loop activityType tk s in
  let x := simBurnedAmount (ledgerEvents (snd r)) in
  (0 <= x <= 18 # 100)%Q
  /\ (Wokwi.availableCredits (fst r) == Wokwi.availableCredits s - x)%Q
  /\ (Wokwi.totalCreditsBurned (fst r) == Wokwi.totalCreditsBurned s + x)%Q
  /\ (Wokwi.currentSessionCreditsBurned (fst r)
      == Wokwi.currentSessionCreditsBurned s + x)%Q
  /\ ((0 <= Wokwi.availableCredits s)%Q ->
      (0 <= Wokwi.availableCredits (fst r))%Q)
  /\ (Wokwi.autoBurnEnabled s = false -> ledgerEvents (snd r) = [])
  /\ (usub (WokwiSensors.burnCheck tk) (Wokwi.lastCreditBurn s)
      < WokwiSensors.CREDIT_BURN_INTERVAL ->
      ledgerEvents (snd r) = [])
  /\ (0 <= Wokwi.co2Emission (fst r) <= 180)%Q
  /\ (0 <= Wokwi.energyConsumed (fst r) <= 150)%Q.
Proof.
  destruct (loop_ledger_facts activityType tk s)
    as (H1 & H2 & H3 & H4 & H5 & _ & H7 & H8 & H9 & H10).
  cbv zeta in *. repeat split; try assumption; try apply H1; try apply H9;
    try apply H10.
Qed.

Lemma simulation_full_scale_iteration :
  let r := WokwiSensors.loop "Manufacturing Process" fullScaleTick Wokwi.init in
  let x := simBurnedAmount (ledgerEvents (snd r)) in
  (x == 18 # 100)%Q
  /\ (Wokwi.co2Emission (fst r) == 180)%Q
  /\ (Wokwi.availableCredits (fst r) == 100 - (18 # 100))%Q.
Proof.
  intros r x.
  destruct (simulation_iteration_burns_little "Manufacturing Process"
              fullScaleTick Wokwi.init) as (_ & Ha & _).
  fold r in Ha. fold x in Ha.
  assert (Hx : (x == 18 # 100)%Q) by (vm_compute; reflexivity).
  split; [exact Hx |]. split; [vm_compute; reflexivity |].
  rewrite Ha, Hx. reflexivity.
Defined.


(** ** The production burner: WiFi, latch and counters *)

Section ProductionSteps.
Import Production.

Lemma waitForWiFi_spec (status : nat -> bool) (room : nat) :
  forall attempts : nat,
    let n := waitForWiFi status attempts room in
    (attempts <= n <= attempts + room)%nat
    /\ (forall k, (attempts <= k < n)%nat -> status k = false)
    /\ ((n < attempts + room)%nat -> status n = true).
Proof.
  induction room as [| room IH]; intros attempts; cbn [waitForWiFi].
  - repeat split; lia.
  - destruct (status attempts) eqn:Hs.
    + repeat split; try lia; try (intros _; exact Hs).
    + destruct (IH (S attempts)) as (Hb & Hdown & Hup). cbv zeta in Hb, Hdown, Hup.
      repeat split; try lia.
      * intros k Hk. destruct (Nat.eq_dec k attempts) as [-> | Hne];
          [exact Hs | apply Hdown; lia].
      * intros Hlt. apply Hup. lia.
Qed.

Lemma countIf_app (f : Event -> bool) (es fs : list Event) :
  countIf f (es ++ fs) = (countIf f es + countIf f fs)%nat.
Proof. unfold countIf. now rewrite List.filter_app, length_app. Qed.

Lemma connectToWiFi_frame (status : nat -> bool) (d : Device) :
  let r := connectToWiFi status d in
  thresholdReached (fst r) = thresholdReached d
  /\ deviceRegistered (fst r) = deviceRegistered d
  /\ dataPointsSent (deviceStatus (fst r)) = dataPointsSent (deviceStatus d)
  /\ accumulatedCO2 (fst r) = accumulatedCO2 d
  /\ accumulatedEnergy (fst r) = accumulatedEnergy d
  /\ lastReset (fst r) = lastReset d
  /\ (forall f, (forall ok n, f (EvWifi ok n) = false) -> countIf f (snd r) = O).
Proof.
  cbv zeta. unfold connectToWiFi.
  destruct (status _); cbn; repeat split; intros f Hf; unfold countIf;
    cbn; now rewrite Hf.
Qed.

Lemma statusStep_frame (tk : Tick) (d : Device) :
  let r := statusStep tk d in
  thresholdReached (fst r) = thresholdReached d
  /\ deviceRegistered (fst r) = deviceRegistered d
  /\ dataPointsSent (deviceStatus (fst r)) = dataPointsSent (deviceStatus d)
  /\ accumulatedCO2 (fst r) = accumulatedCO2 d
  /\ accumulatedEnergy (fst r) = accumulatedEnergy d
  /\ lastReset (fst r) = lastReset d
  /\ (forall f, (forall ok n, f (EvWifi ok n) = false) -> countIf f (snd r) = O).
Proof.
  cbv zeta. unfold statusStep, performStatusCheck.
  destruct (_ <=? _); [| repeat split].
  destruct (wifi tk 0); cbn [negb].
  - cbn. repeat split.
  - destruct (connectToWiFi_frame (fun k => wifi tk (S k))
                (set_status (set_isConnected false (deviceStatus d)) d))
      as (H1 & H2 & H3 & H4 & H5 & H6 & H7).
    cbv zeta in H1, H2, H3, H4, H5, H6, H7. cbn [fst snd thresholdReached
      deviceRegistered deviceStatus accumulatedCO2 accumulatedEnergy lastReset].
    rewrite H1, H2, H3, H4, H5, H6. repeat split. exact H7.
Qed.

Ltac frame_done :=
  cbn; repeat split; try lia; try congruence; try discriminate;
  try (intros [? | ?]; congruence).

Lemma dataStep_frame (tk : Tick) (d : Device) :
  let r := dataStep tk d in
  thresholdReached (fst r) = thresholdReached d
  /\ deviceRegistered (fst r) = deviceRegistered d
  /\ accumulatedCO2 (fst r) = accumulatedCO2 d
  /\ accumulatedEnergy (fst r) = accumulatedEnergy d
  /\ lastReset (fst r) = lastReset d
  /\ dataPointsSent (deviceStatus (fst r))
     = dataPointsSent (deviceStatus d)
       + Z.of_nat (countIf isAcceptedDataPost (snd r))
  /\ countIf isThreshold (snd r) = O
  /\ countIf isReset (snd r) = O
  /\ countIf isTriggerPost (snd r) = O
  /\ (deviceRegistered d = false \/ isConnected (deviceStatus d) = false ->
      snd r = []).
Proof.
  cbv zeta. unfold dataStep, sendDataToBackend.
  destruct (_ <=? _); [| frame_done].
  destruct (isConnected (deviceStatus d)) eqn:Hc, (deviceRegistered d) eqn:Hr;
    cbn [negb orb fst snd]; try solve [frame_done].
  destruct (0 <? dataCode tk) eqn:Hcode; unfold countIf; cbn; rewrite ?Hcode;
    frame_done.
Qed.

Lemma checkThresholds_facts (code : Z) (d : Device) :
  let r := checkThresholds code d in
  let fired := negb (thresholdReached d)
               && Qle_bool CO2_THRESHOLD (accumulatedCO2 d)
               && Qle_bool ENERGY_THRESHOLD (accumulatedEnergy d) in
  thresholdReached (fst r) = thresholdReached d || fired
  /\ deviceRegistered (fst r) = deviceRegistered d
  /\ accumulatedCO2 (fst r) = accumulatedCO2 d
  /\ accumulatedEnergy (fst r) = accumulatedEnergy d
  /\ lastReset (fst r) = lastReset d
  /\ dataPointsSent (deviceStatus (fst r)) = dataPointsSent (deviceStatus d)
  /\ countIf isThreshold (snd r) = (if fired then 1 else 0)%nat
  /\ countIf isReset (snd r) = O
  /\ countIf isAcceptedDataPost (snd r) = O
  /\ (countIf isTriggerPost (snd r) <= countIf isThreshold (snd r))%nat
  /\ (deviceRegistered d = false \/ isConnected (deviceStatus d) = false ->
      countIf isPost (snd r) = O)
  /\ (fired = false -> r = (d, [])).
Proof.
  cbv zeta. unfold checkThresholds, triggerCreditBurning.
  destruct (thresholdReached d) eqn:Hl; cbn [negb andb orb]; [frame_done |].
  destruct (Qle_bool CO2_THRESHOLD (accumulatedCO2 d)); cbn [andb];
    [| frame_done].
  destruct (Qle_bool ENERGY_THRESHOLD (accumulatedEnergy d)); [| frame_done].
  cbn [deviceStatus isConnected set_isActive deviceRegistered].
  destruct (isConnected (deviceStatus d)) eqn:Hc, (deviceRegistered d) eqn:Hr;
    cbn [negb orb fst snd]; try solve [frame_done].
  destruct (0 <? code); [destruct (code =? 201) |]; frame_done.
Qed.

Lemma processAccumulatedData_facts (t : Z) (d : Device) :
  let r := processAccumulatedData t d in
  let due := RESET_INTERVAL <=? usub t (lastReset d) in
  thresholdReached (fst r) = thresholdReached d && negb due
  /\ deviceRegistered (fst r) = deviceRegistered d
  /\ deviceStatus (fst r) = deviceStatus d
  /\ countIf isReset (snd r) = (if due then 1 else 0)%nat
  /\ countIf isThreshold (snd r) = O
  /\ countIf isPost (snd r) = O
  /\ countIf isTriggerPost (snd r) = O
  /\ countIf isAcceptedDataPost (snd r) = O
  /\ (due = true ->
      accumulatedCO2 (fst r) = 0%Q /\ accumulatedEnergy (fst r) = 0%Q
      /\ lastReset (fst r) = t)
  /\ (due = false -> r = (d, [])).
Proof.
  cbv zeta. unfold processAccumulatedData.
  destruct (_ <=? _); cbn; rewrite ?andb_true_r, ?andb_false_r; frame_done.
Qed.

Lemma handleBuzzerAlerts_count (f : Event -> bool) (d : Device) :
  f EvAlertTone = false -> countIf f (handleBuzzerAlerts d) = O.
Proof.
  intros Hf. unfold handleBuzzerAlerts, countIf.
  destruct (thresholdReached d); cbn; now rewrite ?Hf.
Qed.

(** One iteration of [loop()]: registration, latch and counters. *)
Lemma loop_facts (tk : Tick) (d : Device) :
  let r := loop tk d in
  deviceRegistered (fst r) = deviceRegistered d
  /\ (countIf isThreshold (snd r) + Nat.b2n (thresholdReached d)
      <= countIf isReset (snd r) + Nat.b2n (thresholdReached (fst r)))%nat
  /\ (countIf isTriggerPost (snd r) <= countIf isThreshold (snd r))%nat
  /\ dataPointsSent (deviceStatus (fst r))
     = dataPointsSent (deviceStatus d)
       + Z.of_nat (countIf isAcceptedDataPost (snd r))
  /\ (deviceRegistered d = false -> countIf isPost (snd r) = O).
Proof.
  cbv zeta. unfold loop, andThen. cbn [fst snd].
  set (d0 := readSensorData _ _ _ _ _).
  assert (thresholdReached d0 = thresholdReached d
          /\ deviceRegistered d0 = deviceRegistered d
          /\ dataPointsSent (deviceStatus d0) = dataPointsSent (deviceStatus d))
    as (L0 & R0 & P0) by (repeat split).
  pose proof (processAccumulatedData_facts (nowProcess tk) d0) as Hp.
  cbv zeta in Hp.
  set (p := processAccumulatedData (nowProcess tk) d0) in *.
  destruct Hp as (Lp & Rp & Sp & Cp1 & Cp2 & Cp3 & Cp4 & Cp5 & _ & _).
  pose proof (checkThresholds_facts (triggerCode tk) (fst p)) as Hc.
  cbv zeta in Hc.
  set (c := checkThresholds (triggerCode tk) (fst p)) in *.
  destruct Hc as (Lc & Rc & _ & _ & _ & Pc & Cc1 & Cc2 & Cc3 & Cc4 & Cc5 & _).
  pose proof (dataStep_frame tk (fst c)) as Hd. cbv zeta in Hd.
  set (ds := dataStep tk (fst c)) in *.
  destruct Hd as (Ld & Rd & _ & _ & _ & Pd & Cd1 & Cd2 & Cd3 & Cd4).
  pose proof (statusStep_frame tk (fst ds)) as Hs. cbv zeta in Hs.
  set (ss := statusStep tk (fst ds)) in *.
  destruct Hs as (Ls & Rs & Ps & _ & _ & _ & Cs).
  rewrite !countIf_app.
  rewrite !(handleBuzzerAlerts_count _ (fst ss)) by reflexivity.
  rewrite !(Cs isThreshold), !(Cs isReset), !(Cs isTriggerPost),
    !(Cs isAcceptedDataPost), !(Cs isPost) by reflexivity.
  rewrite Cp1, Cp2, Cp3, Cp4, Cp5, Cc1, Cc2, Cc3, Cd1, Cd2, Cd3.
  rewrite Rs, Rd, Rc, Rp, R0, Ls, Ld, Lc, Lp, L0, Ps, Pd, Pc, Sp, P0.
  split; [reflexivity |]. split.
  { destruct (RESET_INTERVAL <=? usub (nowProcess tk) (lastReset d0));
      destruct (thresholdReached d); cbn [negb andb orb Nat.b2n];
      destruct (Qle_bool CO2_THRESHOLD (accumulatedCO2 (fst p))
                && Qle_bool ENERGY_THRESHOLD (accumulatedEnergy (fst p)));
      cbn [Nat.b2n]; lia. }
  split; [rewrite Cc1, Lp, L0 in Cc4; lia |]. split; [lia |].
  intros Hr. rewrite Cc5 by (left; congruence).
  rewrite Cd4 by (left; congruence). reflexivity.
Qed.

(** With the latch set and no reset due, an iteration announces and sends
    no crossing. *)
Lemma loop_latched (tk : Tick) (d : Device) :
  thresholdReached d = true ->
  usub (nowProcess tk) (lastReset d) < RESET_INTERVAL ->
  let r := loop tk d in
  thresholdReached (fst r) = true
  /\ lastReset (fst r) = lastReset d
  /\ countIf isThreshold (snd r) = O
  /\ countIf isTriggerPost (snd r) = O.
Proof.
  intros Hl Hr. cbv zeta. unfold loop, andThen. cbn [fst snd].
  set (d0 := readSensorData _ _ _ _ _).
  assert (thresholdReached d0 = true /\ lastReset d0 = lastReset d)
    as (L0 & R0) by (split; [exact Hl | reflexivity]).
  pose proof (processAccumulatedData_facts (nowProcess tk) d0) as Hp.
  cbv zeta in Hp. rewrite R0 in Hp.
  assert ((RESET_INTERVAL <=? usub (nowProcess tk) (lastReset d)) = false)
    as Hdue by (apply Z.leb_gt; exact Hr).
  destruct Hp as (_ & _ & _ & _ & _ & _ & _ & _ & _ & Ep).
  rewrite (Ep Hdue). cbn [fst snd app].
  pose proof (checkThresholds_facts (triggerCode tk) d0) as Hc.
  cbv zeta in Hc. rewrite L0 in Hc. cbn [negb andb] in Hc.
  destruct Hc as (_ & _ & _ & _ & _ & _ & _ & _ & _ & _ & _ & Ec).
  rewrite (Ec eq_refl). cbn [fst snd app].
  pose proof (dataStep_frame tk d0) as Hd. cbv zeta in Hd.
  set (ds := dataStep tk d0) in *.
  destruct Hd as (Ld & _ & _ & _ & Rd & _ & Cd1 & _ & Cd3 & _).
  pose proof (statusStep_frame tk (fst ds)) as Hs. cbv zeta in Hs.
  set (ss := statusStep tk (fst ds)) in *.
  destruct Hs as (Ls & _ & _ & _ & _ & Rs & Cs).
  rewrite !countIf_app, !(handleBuzzerAlerts_count _ (fst ss)) by reflexivity.
  rewrite (Cs isThreshold), (Cs isTriggerPost) by reflexivity.
  rewrite Cd1, Cd3, Ls, Ld, L0, Rs, Rd, R0. repeat split.
Qed.

Lemma run_latched (tks : list Tick) :
  forall d : Device,
    thresholdReached d = true ->
    Forall (fun tk => usub (nowProcess tk) (lastReset d) < RESET_INTERVAL) tks ->
    countIf isThreshold (snd (run tks d)) = O
    /\ countIf isTriggerPost (snd (run tks d)) = O.
Proof.
  induction tks as [| tk tks IH]; intros d Hl Hq; [split; reflexivity |].
  inversion Hq as [| ? ? Hq1 Hq2]; subst.
  destruct (loop_latched tk d Hl Hq1) as (L & R & C1 & C2).
  cbv zeta in L, R, C1, C2.
  cbn [run fst snd]. rewrite !countIf_app, C1, C2.
  apply IH; [exact L | rewrite R; exact Hq2].
Qed.

Lemma accepted_are_posts (es : list Event) :
  (countIf isAcceptedDataPost es <= countIf isPost es)%nat.
Proof.
  induction es as [| e es IH]; [reflexivity |].
  unfold countIf in *. destruct e; cbn; try lia.
  destruct (0 <? code); cbn; lia.
Qed.

(** Nothing in [loop()] registers the device. *)
Lemma run_registration (tks : list Tick) :
  forall d : Device,
    let r := run tks d in
    deviceRegistered (fst r) = deviceRegistered d
    /\ (deviceRegistered d = false ->
        countIf isPost (snd r) = O
        /\ dataPointsSent (deviceStatus (fst r))
           = dataPointsSent (deviceStatus d)).
Proof.
  induction tks as [| tk tks IH]; intros d; cbv zeta;
    [split; [| intros _; split]; reflexivity |].
  destruct (loop_facts tk d) as (R & _ & _ & P & N). cbv zeta in R, P, N.
  destruct (IH (fst (loop tk d))) as (R' & N'). cbv zeta in R', N'.
  cbn [run fst snd]. rewrite R', R. split; [reflexivity |].
  intros Hr. rewrite R in N'. destruct (N' Hr) as (N1 & P1).
  rewrite countIf_app, (N Hr), N1, P1, P. split; [reflexivity |].
  pose proof (accepted_are_posts (snd (loop tk d))) as Hle.
  rewrite (N Hr) in Hle. lia.
Qed.

End ProductionSteps.

(** X16.  [connectToWiFi] waits at most five times, one second each: it
    stops at the first poll of [WiFi.status()] that answers connected, or
    after the fifth wait.  The outcome is decided by one more poll after
    the loop: the flag [isConnected] is the answer of that poll, and only a
    failure writes [lastError].  Registration, latch and counters are not
    touched. *)
Theorem wifi_wait_is_bounded (status : nat -> bool) (d : Production.Device) :
  let r := Production.connectToWiFi status d in
  exists (ok : bool) (waits : nat),
    snd r = [Production.EvWifi ok waits]
    /\ (waits <= Production.MAX_CONNECTION_ATTEMPTS)%nat
    /\ (forall k, (k < waits)%nat -> status k = false)
    /\ ((waits < Production.MAX_CONNECTION_ATTEMPTS)%nat -> status waits = true)
    /\ ok = status (S waits)
    /\ Production.isConnected (Production.deviceStatus (fst r)) = ok
    /\ Production.lastError (Production.deviceStatus (fst r))
       = (if ok then Production.lastError (Production.deviceStatus d)
          else Production.WifiFailed)
    /\ Production.deviceRegistered (fst r) = Production.deviceRegistered d
    /\ Production.thresholdReached (fst r) = Production.thresholdReached d
    /\ Production.dataPointsSent (Production.deviceStatus (fst r))
       = Production.dataPointsSent (Production.deviceStatus d).
Proof.
  cbv zeta. unfold Production.connectToWiFi.
  destruct (waitForWiFi_spec status Production.MAX_CONNECTION_ATTEMPTS 0)
    as (Hb & Hdown & Hup). cbv zeta in Hb, Hdown, Hup.
  set (n := Production.waitForWiFi status 0 Production.MAX_CONNECTION_ATTEMPTS)
    in *.
  exists (status (S n)), n.
  assert ((n <= Production.MAX_CONNECTION_ATTEMPTS)%nat
          /\ (forall k, (k < n)%nat -> status k = false)
          /\ ((n < Production.MAX_CONNECTION_ATTEMPTS)%nat -> status n = true))
    as (B1 & B2 & B3).
  { split; [lia |]. split; [intros k Hk; apply Hdown; lia |].
    intros Hlt. apply Hup. lia. }
  destruct (status (S n)); cbn; repeat split; assumption.
Qed.

(** X17.  The threshold latch lets a crossing through at most once per
    accumulation period.  Over any run, from any state: the crossings
    announced, plus one if the latch was set at the start, are at most the
    hourly resets, plus one if the latch is set at the end; and a burn
    request is posted at most once per announced crossing. *)
Theorem crossing_fires_once_per_period
  (tks : list Production.Tick) (d : Production.Device) :
  let r := Production.run tks d in
  (Production.countIf Production.isThreshold (snd r)
   + Nat.b2n (Production.thresholdReached d)
   <= Production.countIf Production.isReset (snd r)
      + Nat.b2n (Production.thresholdReached (fst r)))%nat
  /\ (Production.countIf Production.isTriggerPost (snd r)
      <= Production.countIf Production.isThreshold (snd r))%nat.
Proof.
  cbv zeta. revert d.
  induction tks as [| tk tks IH]; intros d; [cbn; lia |].
  destruct (loop_facts tk d) as (_ & L & T & _). cbv zeta in L, T.
  destruct (IH (fst (Production.loop tk d))) as (L' & T').
  cbn [Production.run fst snd]. rewrite !countIf_app. lia.
Qed.

(** X18.  A crossing that happens while the device is offline or not
    registered is lost.  [checkThresholds] announces it and sets the latch,
    but [triggerCreditBurning] returns before any request; with the latch
    set, no later iteration announces or posts it, whatever the connection
    does, as long as the hourly reset is not due. *)
Theorem offline_crossing_is_lost
  (code : Z) (d : Production.Device) (tks : list Production.Tick) :
  Production.thresholdReached d = false ->
  (Production.CO2_THRESHOLD <= Production.accumulatedCO2 d)%Q ->
  (Production.ENERGY_THRESHOLD <= Production.accumulatedEnergy d)%Q ->
  Production.isConnected (Production.deviceStatus d) = false
  \/ Production.deviceRegistered d = false ->
  Forall (fun tk => usub (Production.nowProcess tk) (Production.lastReset d)
                    < Production.RESET_INTERVAL) tks ->
  let r := Production.checkThresholds code d in
  snd r = [Production.EvThresholdReached; Production.EvTriggerSkipped;
           Production.EvAlertTone]
  /\ Production.thresholdReached (fst r) = true
  /\ Production.countIf Production.isThreshold
       (snd (Production.run tks (fst r))) = O
  /\ Production.countIf Production.isTriggerPost
       (snd (Production.run tks (fst r))) = O.
Proof.
  intros Hl Hco2 Hen Hoff Hq. cbv zeta.
  assert (snd (Production.checkThresholds code d)
          = [Production.EvThresholdReached; Production.EvTriggerSkipped;
             Production.EvAlertTone]
          /\ Production.thresholdReached
               (fst (Production.checkThresholds code d)) = true
          /\ Production.lastReset (fst (Production.checkThresholds code d))
             = Production.lastReset d) as (E & L & R).
  { unfold Production.checkThresholds, Production.triggerCreditBurning.
    rewrite Hl. apply Qle_bool_iff in Hco2, Hen. rewrite Hco2, Hen.
    cbn [negb andb Production.deviceStatus Production.isConnected
         Production.set_isActive Production.deviceRegistered].
    destruct Hoff as [Hc | Hr]; [rewrite Hc | rewrite Hr];
      rewrite ?orb_true_r; cbn; repeat split. }
  split; [exact E |]. split; [exact L |].
  apply run_latched; [exact L | rewrite R; exact Hq].
Qed.

Lemma offline_crossing_after_boot_without_wifi :
  let r := Production.checkThresholds 201 offlineOverThreshold in
  snd r = [Production.EvThresholdReached; Production.EvTriggerSkipped;
           Production.EvAlertTone]
  /\ Production.thresholdReached (fst r) = true
  /\ Production.countIf Production.isThreshold
       (snd (Production.run
               [productionTick 6000 1500 600 true;
                productionTick 31000 1500 600 true] (fst r))) = O
  /\ Production.countIf Production.isTriggerPost
       (snd (Production.run
               [productionTick 6000 1500 600 true;
                productionTick 31000 1500 600 true] (fst r))) = O.
Proof.
  apply (offline_crossing_is_lost 201 offlineOverThreshold
           [productionTick 6000 1500 600 true;
            productionTick 31000 1500 600 true]).
  - reflexivity.
  - vm_compute. discriminate.
  - vm_compute. discriminate.
  - left. reflexivity.
  - repeat constructor.
Defined.

(** X19.  The iteration in which the hourly reset is due loses its own
    sample: [readSensorData] adds the reading to the accumulators, then
    [processAccumulatedData] clears them, so after that iteration both
    accumulators are 0 whatever was read, the latch is clear and no
    crossing is announced in it. *)
Theorem reset_iteration_discards_the_sample
  (tk : Production.Tick) (d : Production.Device) :
  Production.RESET_INTERVAL
  <= usub (Production.nowProcess tk) (Production.lastReset d) ->
  let r := Production.loop tk d in
  Production.accumulatedCO2 (fst r) = 0%Q
  /\ Production.accumulatedEnergy (fst r) = 0%Q
  /\ Production.thresholdReached (fst r) = false
  /\ Production.lastReset (fst r) = Production.nowProcess tk
  /\ Production.countIf Production.isThreshold (snd r) = O
  /\ Production.countIf Production.isReset (snd r) = 1%nat.
Proof.
  intros Hdue. cbv zeta. unfold Production.loop, Production.andThen.
  cbn [fst snd].
  set (d0 := Production.readSensorData _ _ _ _ _).
  assert (Production.lastReset d0 = Production.lastReset d) as R0
    by reflexivity.
  assert (Production.processAccumulatedData (Production.nowProcess tk) d0
          = ({| Production.lastDataTransmission :=
                  Production.lastDataTransmission d0;
                Production.lastStatusCheck := Production.lastStatusCheck d0;
                Production.accumulatedCO2 := 0;
                Production.accumulatedEnergy := 0;
                Production.lastReset := Production.nowProcess tk;
                Production.thresholdReached := false;
                Production.deviceRegistered := Production.deviceRegistered d0;
                Production.deviceStatus := Production.deviceStatus d0 |},
             [Production.EvAccumulatedReset])) as Ep.
  { unfold Production.processAccumulatedData. rewrite R0.
    apply Z.leb_le in Hdue. now rewrite Hdue. }
  rewrite Ep. cbn [fst snd]. clear Ep.
  set (p := Production.Build_Device _ _ _ _ _ _ _ _).
  assert (Production.checkThresholds (Production.triggerCode tk) p = (p, []))
    as Ec by reflexivity.
  rewrite Ec. cbn [fst snd]. clear Ec.
  pose proof (dataStep_frame tk p) as Hd. cbv zeta in Hd.
  set (ds := Production.dataStep tk p) in *.
  destruct Hd as (Ld & _ & Ad & Bd & Rd & _ & Cd1 & Cd2 & _ & _).
  pose proof (statusStep_frame tk (fst ds)) as Hs. cbv zeta in Hs.
  set (ss := Production.statusStep tk (fst ds)) in *.
  destruct Hs as (Ls & _ & _ & As & Bs & Rs & Cs).
  rewrite !countIf_app, !(handleBuzzerAlerts_count _ (fst ss)) by reflexivity.
  rewrite (Cs Production.isThreshold), (Cs Production.isReset) by reflexivity.
  rewrite Cd1, Cd2, As, Ad, Bs, Bd, Ls, Ld, Rs, Rd.
  repeat split.
Qed.

Lemma reset_iteration_after_an_hour :
  let r := Production.loop (productionTick 3600000 2000 1000 true)
             Production.init in
  Production.accumulatedCO2 (fst r) = 0%Q
  /\ Production.accumulatedEnergy (fst r) = 0%Q
  /\ Production.thresholdReached (fst r) = false
  /\ Production.lastReset (fst r) = 3600000
  /\ Production.countIf Production.isThreshold (snd r) = O
  /\ Production.countIf Production.isReset (snd r) = 1%nat.
Proof.
  apply (reset_iteration_discards_the_sample
           (productionTick 3600000 2000 1000 true) Production.init).
  vm_compute. discriminate.
Defined.


(** X21.  Registration is decided at start-up and never retried.  After
    [setup()] and any run of [loop()], the device is registered exactly
    when the poll that closes [connectToWiFi] in [setup()] answered
    connected and the registration post was answered 201; otherwise no
    iteration ever posts anything (no data, no burn request) and
    [dataPointsSent] stays 0, even if the status check reconnects WiFi. *)
Theorem registration_is_decided_at_boot
  (t0 t1 : Z) (status : nat -> bool) (code : Z)
  (tks : list Production.Tick) :
  let s := Production.setup t0 t1 status code in
  let r := Production.run tks (fst s) in
  Production.deviceRegistered (fst r)
  = status (S (Production.waitForWiFi status 0
                 Production.MAX_CONNECTION_ATTEMPTS))
    && (code =? 201)
  /\ (Production.deviceRegistered (fst r) = false ->
      Production.countIf Production.isPost (snd r) = O
      /\ Production.dataPointsSent (Production.deviceStatus (fst r)) = 0).
Proof.
  cbv zeta.
  set (s := Production.setup t0 t1 status code).
  assert (Production.deviceRegistered (fst s)
          = status (S (Production.waitForWiFi status 0
                         Production.MAX_CONNECTION_ATTEMPTS))
            && (code =? 201)
          /\ Production.dataPointsSent (Production.deviceStatus (fst s)) = 0)
    as (Es & Ps).
  { unfold s, Production.setup, Production.andThen, Production.connectToWiFi,
      Production.registerDevice.
    destruct (status (S _)); cbn; [| split; reflexivity].
    destruct (0 <? code) eqn:Hpos; [destruct (code =? 201) eqn:H201 |];
      cbn; split; try reflexivity.
    destruct (Z.eqb_spec code 201) as [-> | Hne]; [discriminate Hpos |].
    reflexivity. }
  destruct (run_registration tks (fst s)) as (R & N). cbv zeta in R, N.
  rewrite R. split; [exact Es |].
  intros Hr. destruct (N Hr) as (N1 & P1). rewrite P1. split; assumption.
Qed.
